(** * The Curve Room 2.0: scoring and decision engine

    A shallow embedding of [js/game-engine.js] (class [DecisionEngine] and
    the [GameEngine] object) together with the properties its specification
    states about curve scoring, path resolution, reward tiers and the
    decision state.

    Conventions of the embedding.
    - Payroll percentages, scores, path weights and years are integers in the
      program's data (the slider handler applies [parseInt], the catalog
      stores integers); they are modelled in [Z].
    - A JavaScript number that may be [NaN] is a [jsnum]. Reading an array
      slot that does not exist gives [undefined], which every arithmetic
      operator turns into [NaN]; both are the constructor [NaN].
    - [calculateVariance] divides, so its result lives in [Q], in exact
      arithmetic. On a five-slot array of integers the exact variance is a
      multiple of 1/25, and it equals 50 only when the sum of the slots is
      a multiple of 5 (then the mean is an integer and the double
      computation is exact). For payrolls in the 0 to 150 range the
      rounding error is far below 1/25, so the test [curveVariance < 50]
      on doubles agrees with the exact test ([variance_test_rounding]);
      for slots of a magnitude near [2^52] it need not, and the
      statements about the variance are for that range.
    - Mutation of [this.state] and of the engine object is explicit state
      passing: an operation takes the object and returns the new one, next
      to the value the method returns. *)

From Stdlib Require Import ZArith QArith Qround Lia Lqa.
From stdpp Require Import base gmap sets list strings.

Local Open Scope Z_scope.

(** ** JavaScript numbers *)

Module Js.

Inductive jsnum : Type :=
| Num (z : Z)
| NaN.

Definition add (a b : jsnum) : jsnum :=
  match a, b with
  | Num x, Num y => Num (x + y)
  | _, _ => NaN
  end.

Definition sub (a b : jsnum) : jsnum :=
  match a, b with
  | Num x, Num y => Num (x - y)
  | _, _ => NaN
  end.

(** [a <= b], [a >= b]: every comparison with [NaN] is false. *)
Definition le (a b : jsnum) : bool :=
  match a, b with
  | Num x, Num y => x <=? y
  | _, _ => false
  end.

Definition ge (a b : jsnum) : bool := le b a.

Definition Math_abs (a : jsnum) : jsnum :=
  match a with
  | Num x => Num (Z.abs x)
  | NaN => NaN
  end.

(** [Math.max(a, b)] and [Math.min(a, b)]: [NaN] if either argument is. *)
Definition Math_max2 (a b : jsnum) : jsnum :=
  match a, b with
  | Num x, Num y => Num (Z.max x y)
  | _, _ => NaN
  end.

Definition Math_min2 (a b : jsnum) : jsnum :=
  match a, b with
  | Num x, Num y => Num (Z.min x y)
  | _, _ => NaN
  end.

(** [Math.floor(a / d)] for a positive integer literal [d]: the floor of
    the quotient of two integers is [Z.div]. *)
Definition floor_div (a : jsnum) (d : Z) : jsnum :=
  match a with
  | Num x => Num (x / d)
  | NaN => NaN
  end.

(** [arr[i]] used as an operand: the element, or [undefined] (here [NaN])
    past the end. *)
Definition index (arr : list Z) (i : nat) : jsnum :=
  match arr !! i with
  | Some z => Num z
  | None => NaN
  end.

(** [Math.max(...arr)]. With no argument the result is [-Infinity], shown
    as [None]; it is an element of no array of integers. *)
Definition Math_max (arr : list Z) : option Z :=
  foldl (fun acc x =>
           match acc with
           | None => Some x
           | Some m => Some (Z.max m x)
           end) None arr.

(** [arr.indexOf(v)] searching from position [i]: the first position
    holding [v], or -1. *)
Fixpoint indexOf_from (i : Z) (arr : list Z) (v : Z) : Z :=
  match arr with
  | [] => -1
  | x :: rest => if x =? v then i else indexOf_from (i + 1) rest v
  end.

Definition indexOf (arr : list Z) (v : Z) : Z := indexOf_from 0 arr v.

(** [arr.indexOf(Math.max(...arr))]. *)
Definition indexOf_max (arr : list Z) : Z :=
  match Math_max arr with
  | Some m => indexOf arr m
  | None => -1
  end.

(** [new Set(arr).size]: the number of distinct values. *)
Definition Set_size (arr : list Z) : Z :=
  Z.of_nat (length (remove_dups arr)).

(** [arr[i] = v]. Inside the array the slot is replaced; at or past the
    end the array grows, the skipped slots reading as [hole]; a negative
    index names a property that is no element, so the elements stay. *)
Definition array_set {A : Type} (hole : A) (i : Z) (v : A) (arr : list A)
  : list A :=
  if i <? 0 then arr
  else if i <? Z.of_nat (length arr) then <[Z.to_nat i := v]> arr
  else arr ++ replicate (Z.to_nat i - length arr) hole ++ [v].

End Js.

Import Js.

(** ** Data loaded from [data/teams.json] *)

(** [decision.flags]. *)
Record Flags : Type := {
  lock : list string;
  unlock : list string
}.

(** One entry of a year's decision list. [pathWeights] is the object's
    key/value pairs in [Object.keys] order; the display fields ([title],
    [description], [strategy]) take no part in scoring or state. *)
Record DecisionOption : Type := {
  decision_id : string;
  payrollPercentage : Z;
  flags : Flags;
  pathWeights : list (string * Z)
}.

(** A team record. [team_decisions] is the optional [decisions] object,
    keyed by [year.toString()]; decimal printing is injective on integers,
    so the key is the year itself. *)
Record TeamData : Type := {
  idealCurve : list Z;
  startingPayroll : Z;
  team_decisions : option (gmap Z (list DecisionOption))
}.

(** [this.pathScores]. *)
Record PathScores : Type := {
  winNow : Z;
  rebuild : Z;
  hybrid : Z
}.

(** The three strings [determinePath] can return. *)
Inductive Path : Type := WinNow | Rebuild | Hybrid.

Definition path_name (p : Path) : string :=
  match p with
  | WinNow => "winNow"
  | Rebuild => "rebuild"
  | Hybrid => "hybrid"
  end.

(** ** Curve scoring ([GameEngine.scoreByPath], [calculateVariance]) *)

(** The body of [early.forEach] in the [winNow] branch. *)
Definition winNow_early (score p : Z) : Z :=
  if 85 <=? p then score + 15
  else if 80 <=? p then score + 12
  else if 75 <=? p then score + 8
  else score.

Definition winNow_late (score p : Z) : Z :=
  if p <=? 70 then score + 10
  else if p <=? 75 then score + 7
  else if p <=? 80 then score + 4
  else score.

Definition rebuild_early (score p : Z) : Z :=
  if p <=? 65 then score + 15
  else if p <=? 70 then score + 12
  else if p <=? 75 then score + 8
  else score.

Definition rebuild_late (score p : Z) : Z :=
  if 80 <=? p then score + 10
  else if 75 <=? p then score + 7
  else if 70 <=? p then score + 4
  else score.

(** The body of [curve.forEach] in the hybrid branch, on the pair
    [(score, steadyCount)]. *)
Definition hybrid_step (acc : Z * Z) (p : Z) : Z * Z :=
  let '(score, steadyCount) := acc in
  if (70 <=? p) && (p <=? 80) then (score + 15, steadyCount + 1)
  else if (65 <=? p) && (p <=? 85) then (score + 10, steadyCount)
  else (score, steadyCount).

Definition scoreByPath (path : string) (curve : list Z) : Z :=
  let score :=
    if String.eqb path "winNow" then
      let early := take 3 curve in
      let late := take 2 (drop 3 curve) in
      let score := foldl winNow_early 0 early in
      let score := foldl winNow_late score late in
      if 4 <=? Set_size curve then score + 8 else score
    else if String.eqb path "rebuild" then
      let early := take 3 curve in
      let late := take 2 (drop 3 curve) in
      let score := foldl rebuild_early 0 early in
      let score := foldl rebuild_late score late in
      if 4 <=? Set_size curve then score + 8 else score
    else
      let '(score, steadyCount) := foldl hybrid_step (0, 0) curve in
      if 3 <=? steadyCount then score + 10 else score
  in
  Z.min 100 (Z.max 0 score).

(** [calculateVariance(arr)] in exact arithmetic: [None] is the [NaN] that
    [0 / 0] gives on an empty array. [Double.calculateVariance] is the
    same computation with every operation rounded. *)
Definition calculateVariance (arr : list Z) : option Q :=
  match arr with
  | [] => None
  | _ =>
      let n := inject_Z (Z.of_nat (length arr)) in
      let mean := Qdiv (inject_Z (foldl Z.add 0 arr)) n in
      let squaredDiffs := map (fun x => Qpower (inject_Z x - mean)%Q 2) arr in
      Some (Qdiv (foldl Qplus 0%Q squaredDiffs) n)
  end.

(** [curveVariance < 50]. *)
Definition variance_below_50 (v : option Q) : bool :=
  match v with
  | Some q => negb (Qle_bool (inject_Z 50) q)
  | None => false
  end.

(** The chain of [if (diff <= ...)] that gives one year its points. *)
Definition yearScore (diff : jsnum) : jsnum :=
  if le diff (Num 5) then Num 20
  else if le diff (Num 10) then Num 17
  else if le diff (Num 15) then Num 14
  else if le diff (Num 20) then Num 10
  else if le diff (Num 30) then Num 6
  else Math_max2 (Num 0) (sub (Num 4) (floor_div (sub diff (Num 30)) 10)).

(** One iteration of [for (let i = 0; i < 5; i++)]:
    [totalScore += yearScore] for year [i]. *)
Definition loop_step (userCurve idealCurve : list Z) (totalScore : jsnum) (i : nat)
  : jsnum :=
  let diff := Math_abs (sub (index userCurve i) (index idealCurve i)) in
  add totalScore (yearScore diff).

(** The slider branch of [calculateHealthScore], up to the value of
    [totalScore] before the final clamp. *)
Definition sliderTotal (userCurve idealCurve : list Z) : jsnum :=
  let totalScore := foldl (loop_step userCurve idealCurve) (Num 0) (seq 0 5) in
  let curveVariance := calculateVariance userCurve in
  let totalScore :=
    if variance_below_50 curveVariance
    then Math_max2 (Num 0) (sub totalScore (Num 15))
    else totalScore in
  let peakIndex := indexOf_max userCurve in
  let idealPeakIndex := indexOf_max idealCurve in
  if peakIndex =? idealPeakIndex then add totalScore (Num 5) else totalScore.

(** [Math.min(100, Math.max(0, totalScore))]. *)
Definition clamp_score (totalScore : jsnum) : jsnum :=
  Math_min2 (Num 100) (Math_max2 (Num 0) totalScore).


(** ** class DecisionEngine *)

Module DecisionEngine.

Record t : Type := {
  team : TeamData;
  decisions : list (option string);
  activeFlags : gset string;
  pathScores : PathScores
}.

Definition new (teamData : TeamData) : t :=
  {| team := teamData;
     decisions := [None; None; None; None; None];
     activeFlags := ∅;
     pathScores := {| winNow := 0; rebuild := 0; hybrid := 0 |} |}.

(** [this.team.decisions[year.toString()]], or [None] when the catalog or
    the year's entry is missing. An array, even an empty one, is truthy. *)
Definition catalog_entry (this : t) (year : Z) : option (list DecisionOption) :=
  match team_decisions (team this) with
  | None => None
  | Some catalog => catalog !! year
  end.

Definition has_flag (this : t) (f : string) : bool :=
  bool_decide (f ∈ activeFlags this).

Definition getAvailableDecisions (this : t) (year : Z) : list DecisionOption :=
  match catalog_entry this year with
  | None => []
  | Some allDecisions =>
      List.filter (fun d => negb (existsb (has_flag this) (lock (flags d))))
                  allDecisions
  end.

Definition getAllDecisions (this : t) (year : Z) : list DecisionOption :=
  match catalog_entry this year with
  | None => []
  | Some allDecisions => allDecisions
  end.

Definition findDecision (this : t) (year : Z) (decisionId : string)
  : option DecisionOption :=
  List.find (fun d => String.eqb (decision_id d) decisionId)
            (getAllDecisions this year).

(** [this.pathScores[path] += decision.pathWeights[path]] for one key. A
    key other than the three accumulators creates a property holding
    [NaN] that no method reads; the accumulators are untouched. *)
Definition add_weight (scores : PathScores) (entry : string * Z) : PathScores :=
  let '(path, w) := entry in
  if String.eqb path "winNow" then
    {| winNow := winNow scores + w; rebuild := rebuild scores; hybrid := hybrid scores |}
  else if String.eqb path "rebuild" then
    {| winNow := winNow scores; rebuild := rebuild scores + w; hybrid := hybrid scores |}
  else if String.eqb path "hybrid" then
    {| winNow := winNow scores; rebuild := rebuild scores; hybrid := hybrid scores + w |}
  else scores.

(** [fs.forEach(f => this.activeFlags.add(f))]. *)
Definition add_flags (active : gset string) (fs : list string) : gset string :=
  foldl (fun s f => {[f]} ∪ s) active fs.

(** Returns the decision (or [null]) and the engine after the call. The
    slot write follows [Js.array_set]: a year past the end grows the
    array. *)
Definition applyDecision (this : t) (year : Z) (decisionId : string)
  : option DecisionOption * t :=
  match findDecision this year decisionId with
  | None => (None, this)
  | Some decision =>
      (Some decision,
       {| team := team this;
          decisions := array_set None (year - 1) (Some decisionId) (decisions this);
          activeFlags :=
            add_flags (add_flags (activeFlags this) (lock (flags decision)))
                      (unlock (flags decision));
          pathScores := foldl add_weight (pathScores this) (pathWeights decision) |})
  end.

(** [this.decisions[year - 1]] followed by the test [!decisionId]: a
    missing slot, [null] and the empty string all count as unset. (A
    negative index would read back the property [array_set] does not keep;
    that takes a catalog entry for a year below 1.) *)
Definition slot (this : t) (year : Z) : option string :=
  if year - 1 <? 0 then None
  else match decisions this !! Z.to_nat (year - 1) with
       | Some (Some decisionId) =>
           if String.eqb decisionId "" then None else Some decisionId
       | _ => None
       end.

Definition getCurrentDecision (this : t) (year : Z) : option DecisionOption :=
  match slot this year with
  | None => None
  | Some decisionId => findDecision this year decisionId
  end.

Definition getPayrollCurve (this : t) : list Z :=
  imap (fun index _ =>
          let year := Z.of_nat index + 1 in
          match getCurrentDecision this year with
          | Some decision => payrollPercentage decision
          | None => 50
          end) (decisions this).

Definition determinePath (this : t) : Path :=
  let scores := pathScores this in
  let maxScore := Z.max (Z.max (winNow scores) (rebuild scores)) (hybrid scores) in
  if (hybrid scores =? maxScore)
     && (Z.min (winNow scores) (rebuild scores) <? hybrid scores) then Hybrid
  else if (winNow scores =? maxScore) && (rebuild scores <? winNow scores) then WinNow
  else if rebuild scores =? maxScore then Rebuild
  else Hybrid.

Definition reset (this : t) : t :=
  {| team := team this;
     decisions := [None; None; None; None; None];
     activeFlags := ∅;
     pathScores := {| winNow := 0; rebuild := 0; hybrid := 0 |} |}.

End DecisionEngine.

(** ** The GameEngine object *)

Module GameEngine.

(** [state.gameMode]: ['slider'] or ['decisions']. *)
Inductive GameMode : Type := slider | decisions.

Record State : Type := {
  currentTeam : option TeamData;
  currentYear : Z;
  payrollDecisions : list Z;
  decisionEngine : option DecisionEngine.t;
  healthScore : jsnum;
  isGameComplete : bool;
  gameMode : GameMode
}.

(** The keys of [CLAIM_CODES]; [tier_name] is the string stored in the
    result's [tier] field. *)
Inductive TierKey : Type := GOLD | SILVER | BRONZE.

Definition tier_name (k : TierKey) : string :=
  match k with
  | GOLD => "GOLD"
  | SILVER => "SILVER"
  | BRONZE => "BRONZE"
  end.

(** [CLAIM_CODES[tier][path]] as the pair [(code, xp)]. *)
Definition CLAIM_CODES (k : TierKey) (p : Path) : string * Z :=
  match k, p with
  | GOLD, WinNow => ("CURVE-301-CHAMPION", 250)
  | GOLD, Rebuild => ("CURVE-301-ARCHITECT", 250)
  | GOLD, Hybrid => ("CURVE-301-STRATEGIST", 250)
  | SILVER, WinNow => ("CURVE-301-CONTENDER", 175)
  | SILVER, Rebuild => ("CURVE-301-BUILDER", 175)
  | SILVER, Hybrid => ("CURVE-301-NEGOTIATOR", 175)
  | BRONZE, WinNow => ("CURVE-301-SPENDER", 125)
  | BRONZE, Rebuild => ("CURVE-301-DEVELOPER", 125)
  | BRONZE, Hybrid => ("CURVE-301-BALANCED", 125)
  end.

Definition set_healthScore (st : State) (score : jsnum) : State :=
  {| currentTeam := currentTeam st;
     currentYear := currentYear st;
     payrollDecisions := payrollDecisions st;
     decisionEngine := decisionEngine st;
     healthScore := score;
     isGameComplete := isGameComplete st;
     gameMode := gameMode st |}.

Definition set_payrollDecisions (st : State) (curve : list Z) : State :=
  {| currentTeam := currentTeam st;
     currentYear := currentYear st;
     payrollDecisions := curve;
     decisionEngine := decisionEngine st;
     healthScore := healthScore st;
     isGameComplete := isGameComplete st;
     gameMode := gameMode st |}.

Definition set_decisionEngine (st : State) (engine : DecisionEngine.t) : State :=
  {| currentTeam := currentTeam st;
     currentYear := currentYear st;
     payrollDecisions := payrollDecisions st;
     decisionEngine := Some engine;
     healthScore := healthScore st;
     isGameComplete := isGameComplete st;
     gameMode := gameMode st |}.

Definition set_isGameComplete (st : State) (b : bool) : State :=
  {| currentTeam := currentTeam st;
     currentYear := currentYear st;
     payrollDecisions := payrollDecisions st;
     decisionEngine := decisionEngine st;
     healthScore := healthScore st;
     isGameComplete := b;
     gameMode := gameMode st |}.

(** The engine when [gameMode === 'decisions' && decisionEngine]. *)
Definition decision_mode_engine (st : State) : option DecisionEngine.t :=
  match gameMode st with
  | decisions => decisionEngine st
  | slider => None
  end.

(** The value [calculateHealthScore] stores and returns. *)
Definition computeHealthScore (st : State) : jsnum :=
  let userCurve := payrollDecisions st in
  let idealCurve :=
    match currentTeam st with
    | Some teamData => idealCurve teamData
    | None => [60; 75; 100; 80; 60]
    end in
  let totalScore :=
    match decision_mode_engine st with
    | Some engine =>
        let path := DecisionEngine.determinePath engine in
        Num (scoreByPath (path_name path) userCurve)
    | None => sliderTotal userCurve idealCurve
    end in
  clamp_score totalScore.

Definition calculateHealthScore (st : State) : State :=
  set_healthScore st (computeHealthScore st).

Definition initGame (teamData : TeamData) : State :=
  let hasDecisions :=
    match team_decisions teamData with
    | Some catalog => 0 <? Z.of_nat (size catalog)
    | None => false
    end in
  calculateHealthScore
    {| currentTeam := Some teamData;
       currentYear := 1;
       payrollDecisions := replicate 5 (startingPayroll teamData);
       decisionEngine :=
         if hasDecisions then Some (DecisionEngine.new teamData) else None;
       healthScore := Num 50;
       isGameComplete := false;
       gameMode := if hasDecisions then decisions else slider |}.

(** The slot [year - 1] exists in every state the engine builds
    ([payrollDecisions_length_reachable] below), so the write is an in-place
    replacement. Returns [this.state]. *)
Definition setPayroll (st : State) (year payrollPercent : Z) : State :=
  if (1 <=? year) && (year <=? 5) then
    calculateHealthScore
      (set_payrollDecisions st
         (<[Z.to_nat (year - 1) := payrollPercent]> (payrollDecisions st)))
  else st.

(** The engine object is mutated in place, so the state sees the engine
    after the call whether or not a decision was found. *)
Definition applyDecision (st : State) (year : Z) (decisionId : string)
  : option DecisionOption * State :=
  match decisionEngine st with
  | None => (None, st)
  | Some engine =>
      let '(decision, engine') :=
        DecisionEngine.applyDecision engine year decisionId in
      let st' := set_decisionEngine st engine' in
      match decision with
      | Some _ =>
          let curve := DecisionEngine.getPayrollCurve engine' in
          (decision, calculateHealthScore (set_payrollDecisions st' curve))
      | None => (decision, st')
      end
  end.

Definition getAvailableDecisions (st : State) (year : Z) : list DecisionOption :=
  match decisionEngine st with
  | None => []
  | Some engine => DecisionEngine.getAvailableDecisions engine year
  end.

Definition getDeterminedPath (st : State) : option Path :=
  match decisionEngine st with
  | None => None
  | Some engine => Some (DecisionEngine.determinePath engine)
  end.

(** The fields of [finishGame]'s result that carry the reward; the
    feedback text, the two curves and the team name are display data. *)
Record Result : Type := {
  score : jsnum;
  claimCode : option string;
  tier : option string;
  xp : Z;
  path : option Path
}.

(** The selection of tier, claim code and XP in [finishGame], from the
    values of its locals [score] and [path]. *)
Definition reward (score : jsnum) (path : option Path) : Result :=
  if ge score (Num 85) then
    {| score := score;
       claimCode := Some (match path with
                          | Some p => fst (CLAIM_CODES GOLD p)
                          | None => "CURVE-301-GOLD"
                          end);
       tier := Some (tier_name GOLD);
       xp := 250;
       path := path |}
  else if ge score (Num 70) then
    {| score := score;
       claimCode := Some (match path with
                          | Some p => fst (CLAIM_CODES SILVER p)
                          | None => "CURVE-301-SILVER"
                          end);
       tier := Some (tier_name SILVER);
       xp := 175;
       path := path |}
  else if ge score (Num 55) then
    {| score := score;
       claimCode := Some (match path with
                          | Some p => fst (CLAIM_CODES BRONZE p)
                          | None => "CURVE-301-BRONZE"
                          end);
       tier := Some (tier_name BRONZE);
       xp := 125;
       path := path |}
  else
    {| score := score; claimCode := None; tier := None; xp := 0; path := path |}.

Definition finishGame (st : State) : Result * State :=
  let st := calculateHealthScore (set_isGameComplete st true) in
  let score := healthScore st in
  let path :=
    match decision_mode_engine st with
    | Some engine => Some (DecisionEngine.determinePath engine)
    | None => None
    end in
  (reward score path, st).

Definition resetGame : State :=
  {| currentTeam := None;
     currentYear := 1;
     payrollDecisions := [50; 50; 50; 50; 50];
     decisionEngine := None;
     healthScore := Num 50;
     isGameComplete := false;
     gameMode := slider |}.

End GameEngine.

(** The specification's [scoreAgainstTarget(curve, target)]: the score
    [calculateHealthScore] computes in slider mode for the user curve
    [curve] against the team's ideal curve [target]. *)
Definition scoreAgainstTarget (curve target : list Z) : jsnum :=
  clamp_score (sliderTotal curve target).

(** ** Further methods of [DecisionEngine] *)

Module DecisionQueries.

(** [getLockedByFlags(year, decisionId)]: the lock flags of the decision
    that are active, in the order the decision lists them; [[]] when the
    decision is not found. *)
Definition getLockedByFlags (this : DecisionEngine.t) (year : Z)
           (decisionId : string) : list string :=
  match DecisionEngine.findDecision this year decisionId with
  | None => []
  | Some decision =>
      List.filter (DecisionEngine.has_flag this) (lock (flags decision))
  end.

End DecisionQueries.

(** ** Further methods of [GameEngine]: navigation, accessors, statistics *)

Module GameQueries.

Import GameEngine.

Definition set_currentYear (st : State) (year : Z) : State :=
  {| currentTeam := currentTeam st;
     currentYear := year;
     payrollDecisions := payrollDecisions st;
     decisionEngine := decisionEngine st;
     healthScore := healthScore st;
     isGameComplete := isGameComplete st;
     gameMode := gameMode st |}.

(** The three navigation methods return [this.state.currentYear] after
    the move, next to the state. *)
Definition nextYear (st : State) : Z * State :=
  let st := if currentYear st <? 5
            then set_currentYear st (currentYear st + 1) else st in
  (currentYear st, st).

Definition previousYear (st : State) : Z * State :=
  let st := if 1 <? currentYear st
            then set_currentYear st (currentYear st - 1) else st in
  (currentYear st, st).

Definition goToYear (st : State) (year : Z) : Z * State :=
  let st := if (1 <=? year) && (year <=? 5)
            then set_currentYear st year else st in
  (currentYear st, st).

(** [getPayroll(year)]: [this.state.payrollDecisions[year - 1]], [None]
    being [undefined]. *)
Definition getPayroll (st : State) (year : Z) : option Z :=
  if year - 1 <? 0 then None
  else payrollDecisions st !! Z.to_nat (year - 1).

(** [getUserCurve()] and [getIdealCurve()] return copies. *)
Definition getUserCurve (st : State) : list Z := payrollDecisions st.

Definition getIdealCurve (st : State) : list Z :=
  match currentTeam st with
  | Some teamData => idealCurve teamData
  | None => [60; 75; 100; 80; 60]
  end.

(** [Math.round(q)]: the nearest integer, a half rounding up. It is
    applied to an exact quotient here; on five-slot curves in the 0 to 150
    range rounding the double quotient gives the same integer
    ([average_rounding]). *)
Definition Math_round (q : Q) : Z := Qfloor (q + (1 # 2))%Q.

Record Stats : Type := {
  avg : Z;
  max : Z;
  min : Z
}.

(** [getPayrollCurveStats()]. Every slot of the curve holds a number, so
    the filter on [null] and [undefined] keeps it whole; [Math.max] and
    [Math.min] are taken over a non-empty array. *)
Definition getPayrollCurveStats (st : State) : Stats :=
  let curve := payrollDecisions st in
  let filledCurve := curve in
  match filledCurve with
  | [] => {| avg := 0; max := 0; min := 0 |}
  | first :: rest =>
      {| avg := Math_round
                  (Qdiv (inject_Z (foldl Z.add 0 filledCurve))
                        (inject_Z (Z.of_nat (length filledCurve))));
         max := foldl Z.max first rest;
         min := foldl Z.min first rest |}
  end.

(** [getRecommendedPaths()]. A team record always carries its
    [idealCurve], so the fallback triple is returned only without a team. *)
Record RecommendedPaths : Type := {
  recommended_winNow : list Z;
  recommended_hybrid : list Z;
  recommended_rebuild : list Z
}.

Definition getRecommendedPaths (st : State) : RecommendedPaths :=
  match currentTeam st with
  | None =>
      {| recommended_winNow := [85; 95; 100; 70; 60];
         recommended_hybrid := [75; 75; 75; 75; 75];
         recommended_rebuild := [50; 60; 80; 95; 85] |}
  | Some teamData =>
      {| recommended_winNow := [85; 95; 100; 70; 60];
         recommended_hybrid := idealCurve teamData;
         recommended_rebuild := [50; 60; 80; 95; 85] |}
  end.

End GameQueries.

(** ** The earlier, slider-only engine (the first version of the file) *)

Module Legacy.

Record State : Type := {
  currentTeam : option TeamData;
  currentYear : Z;
  payrollDecisions : list Z;
  healthScore : jsnum;
  isGameComplete : bool
}.

(** [CLAIM_CODES[tier]] as [(code, minScore, xp)]. *)
Definition CLAIM_CODES (k : GameEngine.TierKey) : string * Z * Z :=
  match k with
  | GameEngine.GOLD => ("CURVE-301-GOLD", 85, 250)
  | GameEngine.SILVER => ("CURVE-301-SILVER", 70, 175)
  | GameEngine.BRONZE => ("CURVE-301-BRONZE", 55, 125)
  end.

Definition code (k : GameEngine.TierKey) : string := fst (fst (CLAIM_CODES k)).
Definition minScore (k : GameEngine.TierKey) : Z := snd (fst (CLAIM_CODES k)).
Definition xp_of (k : GameEngine.TierKey) : Z := snd (CLAIM_CODES k).

(** The scoring loop, the variance penalty and the peak bonus are the
    text of the later slider branch ([sliderTotal]); the extra
    [idealVariance] it computes is never used. *)
Definition calculateHealthScore (st : State) : State :=
  let userCurve := payrollDecisions st in
  let idealCurve :=
    match currentTeam st with
    | Some teamData => idealCurve teamData
    | None => [60; 75; 100; 80; 60]
    end in
  {| currentTeam := currentTeam st;
     currentYear := currentYear st;
     payrollDecisions := payrollDecisions st;
     healthScore := clamp_score (sliderTotal userCurve idealCurve);
     isGameComplete := isGameComplete st |}.

Definition initGame (teamData : TeamData) : State :=
  calculateHealthScore
    {| currentTeam := Some teamData;
       currentYear := 1;
       payrollDecisions := replicate 5 (startingPayroll teamData);
       healthScore := Num 50;
       isGameComplete := false |}.

Definition setPayroll (st : State) (year payrollPercent : Z) : State :=
  if (1 <=? year) && (year <=? 5) then
    calculateHealthScore
      {| currentTeam := currentTeam st;
         currentYear := currentYear st;
         payrollDecisions :=
           <[Z.to_nat (year - 1) := payrollPercent]> (payrollDecisions st);
         healthScore := healthScore st;
         isGameComplete := isGameComplete st |}
  else st.

Record Result : Type := {
  score : jsnum;
  claimCode : option string;
  tier : option string;
  xp : Z
}.

Definition finishGame (st : State) : Result * State :=
  let st :=
    calculateHealthScore
      {| currentTeam := currentTeam st;
         currentYear := currentYear st;
         payrollDecisions := payrollDecisions st;
         healthScore := healthScore st;
         isGameComplete := true |} in
  let score := healthScore st in
  let result :=
    if ge score (Num (minScore GameEngine.GOLD)) then
      {| score := score;
         claimCode := Some (code GameEngine.GOLD);
         tier := Some "GOLD";
         xp := xp_of GameEngine.GOLD |}
    else if ge score (Num (minScore GameEngine.SILVER)) then
      {| score := score;
         claimCode := Some (code GameEngine.SILVER);
         tier := Some "SILVER";
         xp := xp_of GameEngine.SILVER |}
    else if ge score (Num (minScore GameEngine.BRONZE)) then
      {| score := score;
         claimCode := Some (code GameEngine.BRONZE);
         tier := Some "BRONZE";
         xp := xp_of GameEngine.BRONZE |}
    else
      {| score := score; claimCode := None; tier := None; xp := 0 |}
  in
  (result, st).

End Legacy.

(** ** The embedded fallback data ([DataLoader.getFallbackData]) *)

Module DataLoader.

(** The scoring fields of a fallback team; none has a [decisions] key. *)
Definition fallback_team (ideal : list Z) (starting : Z) : TeamData :=
  {| idealCurve := ideal; startingPayroll := starting; team_decisions := None |}.

(** The object's entries in the order they are written. *)
Definition getFallbackData : list (string * TeamData) :=
  [("knicks", fallback_team [90; 95; 100; 85; 70] 95);
   ("nets", fallback_team [50; 60; 80; 95; 85] 55);
   ("yankees", fallback_team [95; 100; 90; 75; 65] 95);
   ("mets", fallback_team [70; 80; 95; 100; 80] 75);
   ("jets", fallback_team [75; 90; 100; 85; 65] 70);
   ("giants", fallback_team [55; 65; 80; 95; 90] 55)].

End DataLoader.

(** ** Reference definitions, following the specification's wording *)

Module Spec.

(** Section 4.1, per-year points from the absolute difference [d]. *)
Definition year_points (d : Z) : Z :=
  if d <=? 5 then 20
  else if d <=? 10 then 17
  else if d <=? 15 then 14
  else if d <=? 20 then 10
  else if d <=? 30 then 6
  else Z.max 0 (4 - (d - 30) / 10).

(** The sum over the indices of the per-year points. *)
Definition base_points (curve target : list Z) : Z :=
  foldr Z.add 0 (zip_with (fun c t => year_points (Z.abs (c - t))) curve target).

Definition Qsum (l : list Q) : Q := foldr Qplus 0%Q l.

Definition mean (curve : list Z) : Q :=
  Qdiv (Qsum (map inject_Z curve)) (inject_Z (Z.of_nat (length curve))).

(** Population variance: the mean of the squared deviations from the mean. *)
Definition population_variance (curve : list Z) : Q :=
  Qdiv (Qsum (map (fun x => (inject_Z x - mean curve) * (inject_Z x - mean curve))%Q curve))
       (inject_Z (Z.of_nat (length curve))).

Definition flatline (curve : list Z) : bool :=
  match Qlt_le_dec (population_variance curve) (inject_Z 50) with
  | left _ => true
  | right _ => false
  end.

(** The position of the first element of [l] satisfying [p]. *)
Fixpoint first_index (p : Z -> bool) (l : list Z) : option nat :=
  match l with
  | [] => None
  | x :: rest => if p x then Some 0%nat else S <$> first_index p rest
  end.

(** The first (lowest) index holding the maximum of [l]: the first element
    that no element of [l] exceeds. *)
Definition first_max_index (l : list Z) : option nat :=
  first_index (fun x => forallb (fun y => y <=? x) l) l.

Definition clamp (lo hi x : Z) : Z := Z.min hi (Z.max lo x).

(** Section 4.1, [scoreAgainstTarget], step by step. *)
Definition reference_score (curve target : list Z) : Z :=
  let points := base_points curve target in
  let penalised := if flatline curve then Z.max 0 (points - 15) else points in
  let timed :=
    if decide (first_max_index curve = first_max_index target)
    then penalised + 5 else penalised in
  clamp 0 100 timed.

(** Section 4.1, the input of [scoreAgainstTarget]: numbers in the
    plausible 0 to 150 range. *)
Definition plausible (curve : list Z) : Prop :=
  forall x, In x curve -> 0 <= x <= 150.

(** Section 4.1, [tierFor], and the reward table of section 6. *)
Inductive Tier : Type := gold | silver | bronze | none.

Definition tierFor (score : Z) : Tier :=
  if 85 <=? score then gold
  else if 70 <=? score then silver
  else if 55 <=? score then bronze
  else none.

Definition slider_code (t : Tier) : option string :=
  match t with
  | gold => Some "CURVE-301-GOLD"
  | silver => Some "CURVE-301-SILVER"
  | bronze => Some "CURVE-301-BRONZE"
  | none => None
  end.

Definition decision_code (t : Tier) (p : Path) : option string :=
  match t, p with
  | gold, WinNow => Some "CURVE-301-CHAMPION"
  | gold, Rebuild => Some "CURVE-301-ARCHITECT"
  | gold, Hybrid => Some "CURVE-301-STRATEGIST"
  | silver, WinNow => Some "CURVE-301-CONTENDER"
  | silver, Rebuild => Some "CURVE-301-BUILDER"
  | silver, Hybrid => Some "CURVE-301-NEGOTIATOR"
  | bronze, WinNow => Some "CURVE-301-SPENDER"
  | bronze, Rebuild => Some "CURVE-301-DEVELOPER"
  | bronze, Hybrid => Some "CURVE-301-BALANCED"
  | none, _ => None
  end.

Definition reward_code (t : Tier) (path : option Path) : option string :=
  match path with
  | Some p => decision_code t p
  | None => slider_code t
  end.

Definition tier_xp (t : Tier) : Z :=
  match t with
  | gold => 250
  | silver => 175
  | bronze => 125
  | none => 0
  end.

(** The label the program stores for a tier: the upper-case key of
    [CLAIM_CODES], and [null] for no tier. *)
Definition tier_label (t : Tier) : option string :=
  match t with
  | gold => Some "GOLD"
  | silver => Some "SILVER"
  | bronze => Some "BRONZE"
  | none => None
  end.

(** Section 4.2, [determinePath], as a relation: the four rules in order,
    each under the failure of the rules before it. *)
Definition rule_hybrid (s : PathScores) : Prop :=
  hybrid s = Z.max (Z.max (winNow s) (rebuild s)) (hybrid s)
  /\ Z.min (winNow s) (rebuild s) < hybrid s.

Definition rule_winNow (s : PathScores) : Prop :=
  winNow s = Z.max (Z.max (winNow s) (rebuild s)) (hybrid s)
  /\ rebuild s < winNow s.

Definition rule_rebuild (s : PathScores) : Prop :=
  rebuild s = Z.max (Z.max (winNow s) (rebuild s)) (hybrid s).

Inductive resolves (s : PathScores) : Path -> Prop :=
| resolves_hybrid : rule_hybrid s -> resolves s Hybrid
| resolves_winNow : ~ rule_hybrid s -> rule_winNow s -> resolves s WinNow
| resolves_rebuild :
    ~ rule_hybrid s -> ~ rule_winNow s -> rule_rebuild s -> resolves s Rebuild
| resolves_default :
    ~ rule_hybrid s -> ~ rule_winNow s -> ~ rule_rebuild s -> resolves s Hybrid.


(** ** Sessions *)

(** What one option contributes to the accumulator named [path]: the sum
    of the weights stored under that key. *)
Definition weight_of (path : string) (weights : list (string * Z)) : Z :=
  foldr (fun entry acc =>
           if String.eqb (fst entry) path then snd entry + acc else acc)
        0 weights.

(** The engine after a sequence of [applyDecision(year, decisionId)] calls. *)
Definition apply_all (this : DecisionEngine.t) (calls : list (Z * string))
  : DecisionEngine.t :=
  foldl (fun e call => snd (DecisionEngine.applyDecision e (fst call) (snd call)))
        this calls.

(** The tags an option carries, of both kinds. *)
Definition tags_of (d : DecisionOption) : gset string :=
  list_to_set (lock (flags d)) ∪ list_to_set (unlock (flags d)).

(** The states a session can be in: built by [initGame] or [resetGame] and
    changed only through the engine's operations. *)
Inductive reachable : GameEngine.State -> Prop :=
| reachable_reset : reachable GameEngine.resetGame
| reachable_init teamData : reachable (GameEngine.initGame teamData)
| reachable_setPayroll st year payrollPercent :
    reachable st -> reachable (GameEngine.setPayroll st year payrollPercent)
| reachable_applyDecision st year decisionId :
    reachable st -> reachable (snd (GameEngine.applyDecision st year decisionId))
| reachable_finishGame st :
    reachable st -> reachable (snd (GameEngine.finishGame st)).

End Spec.

(** ** Notions used to state further properties *)

Module Session.

(** The states of a play session, navigation included. Team records carry
    a five-year ideal curve. *)
Inductive reachable : GameEngine.State -> Prop :=
| start_reset : reachable GameEngine.resetGame
| start_init teamData :
    (5 <= length (idealCurve teamData))%nat ->
    reachable (GameEngine.initGame teamData)
| step_setPayroll st year payrollPercent :
    reachable st -> reachable (GameEngine.setPayroll st year payrollPercent)
| step_applyDecision st year decisionId :
    reachable st -> reachable (snd (GameEngine.applyDecision st year decisionId))
| step_finishGame st :
    reachable st -> reachable (snd (GameEngine.finishGame st))
| step_nextYear st :
    reachable st -> reachable (snd (GameQueries.nextYear st))
| step_previousYear st :
    reachable st -> reachable (snd (GameQueries.previousYear st))
| step_goToYear st year :
    reachable st -> reachable (snd (GameQueries.goToYear st year)).

(** Two engines that agree on everything availability and path
    resolution read: the catalog, the active flags, the accumulators. *)
Definition same_summary (e1 e2 : DecisionEngine.t) : Prop :=
  DecisionEngine.team e1 = DecisionEngine.team e2
  /\ DecisionEngine.activeFlags e1 = DecisionEngine.activeFlags e2
  /\ DecisionEngine.pathScores e1 = DecisionEngine.pathScores e2.

(** The accumulator of a path. *)
Definition score_of (s : PathScores) (p : Path) : Z :=
  match p with
  | WinNow => winNow s
  | Rebuild => rebuild s
  | Hybrid => hybrid s
  end.

(** [5 * sum of squares - square of the sum] of a curve: 25 times the
    variance of a five-slot curve. *)
Definition spread (curve : list Z) : Z :=
  5 * foldr Z.add 0 (map (fun x => x * x) curve)
  - foldr Z.add 0 curve * foldr Z.add 0 curve.

(** Move the sliders of years 1, 2, ... to the values of [curve]. *)
Definition set_curve (st : GameEngine.State) (curve : list Z) : GameEngine.State :=
  foldl (fun st yp => GameEngine.setPayroll st (fst yp) (snd yp)) st
        (imap (fun i p => (Z.of_nat i + 1, p)) curve).

(** What the slider-only engine sees of a state and of a result. *)
Definition legacy_view (st : GameEngine.State) : Legacy.State :=
  {| Legacy.currentTeam := GameEngine.currentTeam st;
     Legacy.currentYear := GameEngine.currentYear st;
     Legacy.payrollDecisions := GameEngine.payrollDecisions st;
     Legacy.healthScore := GameEngine.healthScore st;
     Legacy.isGameComplete := GameEngine.isGameComplete st |}.

Definition legacy_result (r : GameEngine.Result) : Legacy.Result :=
  {| Legacy.score := GameEngine.score r;
     Legacy.claimCode := GameEngine.claimCode r;
     Legacy.tier := GameEngine.tier r;
     Legacy.xp := GameEngine.xp r |}.

(** The catalog entries a sequence of calls finds, in call order (the
    catalog never changes, so any engine of the session finds the same). *)
Definition found_decisions (this : DecisionEngine.t) (calls : list (Z * string))
  : list DecisionOption :=
  omap (fun call => DecisionEngine.findDecision this (fst call) (snd call)) calls.

(** All tags of a list of decisions, and their total weight on a path. *)
Definition all_tags (ds : list DecisionOption) : gset string :=
  foldr (fun d acc => Spec.tags_of d ∪ acc) ∅ ds.

Definition total_weight (path : string) (ds : list DecisionOption) : Z :=
  foldr (fun d acc => Spec.weight_of path (pathWeights d) + acc) 0 ds.

(** What every state of a session satisfies. *)
Definition invariant (st : GameEngine.State) : Prop :=
  1 <= GameEngine.currentYear st <= 5
  /\ (GameEngine.gameMode st = GameEngine.decisions
      <-> GameEngine.decisionEngine st <> None)
  /\ (5 <= length (GameEngine.payrollDecisions st))%nat
  /\ (forall engine, GameEngine.decisionEngine st = Some engine ->
                     (5 <= length (DecisionEngine.decisions engine))%nat)
  /\ (forall teamData, GameEngine.currentTeam st = Some teamData ->
                       (5 <= length (idealCurve teamData))%nat)
  /\ exists s, GameEngine.healthScore st = Num s /\ 0 <= s <= 100.

End Session.

(** ** The arithmetic of [calculateVariance] with rounding

    The program computes on binary64 doubles. [Double] writes the two
    computations that divide, [calculateVariance] and the average of
    [getPayrollCurveStats], with every arithmetic operation followed by a
    rounding [rnd], in the order the source evaluates them
    ([reduce] from the left starting at 0, [Math.pow(d, 2)] as the rounded
    square). [Math.round] is exact on a double: it is the floor of the
    value plus one half.

    Two properties of [rnd] are all the lemmas below use; rounding to the
    nearest double has both, and so has the identity (the exact
    arithmetic of [calculateVariance] above). *)
Module Double.

(** A result of magnitude at most [bound] is off by at most
    [(bound + 1) * 1e-15]. *)
Definition accurate (rnd : Q -> Q) : Prop :=
  forall q bound : Q,
    (- bound <= q <= bound)%Q -> (bound <= 1000000)%Q ->
    (- ((bound + 1) * (1 # 1000000000000000)) <= rnd q - q
     <= (bound + 1) * (1 # 1000000000000000))%Q.

(** An integer result up to [2^53] is not rounded. *)
Definition exact_on_integers (rnd : Q -> Q) : Prop :=
  forall (q : Q) (z : Z),
    Qeq q (inject_Z z) -> Z.abs z <= 2 ^ 53 -> Qeq (rnd q) (inject_Z z).

(** [calculateVariance(arr)], operation by operation. *)
Definition calculateVariance (rnd : Q -> Q) (arr : list Z) : Q :=
  let n := inject_Z (Z.of_nat (length arr)) in
  let mean := rnd (Qdiv (foldl (fun a b => rnd (a + inject_Z b)%Q) 0%Q arr) n) in
  let squaredDiffs :=
    map (fun x => let diff := rnd (inject_Z x - mean)%Q in rnd (diff * diff)%Q) arr in
  rnd (Qdiv (foldl (fun a b => rnd (a + b)%Q) 0%Q squaredDiffs) n).

(** [Math.round(filledCurve.reduce((a, b) => a + b, 0) / filledCurve.length)]. *)
Definition average (rnd : Q -> Q) (arr : list Z) : Z :=
  Qfloor (rnd (Qdiv (foldl (fun a b => rnd (a + inject_Z b)%Q) 0%Q arr)
                    (inject_Z (Z.of_nat (length arr))))
          + (1 # 2))%Q.

End Double.

(** ** Sample data for the concrete scenarios *)

Module Sample.

Definition no_flags : Flags := {| lock := []; unlock := [] |}.

(** A decision that locks and unlocks nothing. *)
Definition plain (name : string) (payroll : Z) (weights : list (string * Z))
  : DecisionOption :=
  {| decision_id := name;
     payrollPercentage := payroll;
     flags := no_flags;
     pathWeights := weights |}.

Definition winNow_heavy : list (string * Z) :=
  [("winNow", 25); ("rebuild", -15); ("hybrid", 5)].

(** Section 8, end-to-end scenario: one win-now option per year, 85 or
    more in years 1 to 3 and 70 or less in years 4 and 5. *)
Definition option_A : DecisionOption := plain "A" 90 winNow_heavy.
Definition option_B : DecisionOption := plain "B" 95 winNow_heavy.
Definition option_C : DecisionOption := plain "C" 100 winNow_heavy.
Definition option_D : DecisionOption := plain "D" 70 winNow_heavy.
Definition option_E : DecisionOption := plain "E" 60 winNow_heavy.

Definition winNow_catalog : gmap Z (list DecisionOption) :=
  <[1 := [option_A]]> (<[2 := [option_B]]> (<[3 := [option_C]]>
    (<[4 := [option_D]]> (<[5 := [option_E]]> ∅)))).

Definition winNow_team : TeamData :=
  {| idealCurve := [60; 75; 100; 80; 60];
     startingPayroll := 50;
     team_decisions := Some winNow_catalog |}.

(** Apply a list of [(year, decisionId)] choices through [GameEngine]. *)
Definition play (st : GameEngine.State) (choices : list (Z * string))
  : GameEngine.State :=
  foldl (fun st c => snd (GameEngine.applyDecision st (fst c) (snd c))) st choices.

Definition winNow_game : GameEngine.State :=
  play (GameEngine.initGame winNow_team)
       [(1, "A"); (2, "B"); (3, "C"); (4, "D"); (5, "E")].

(** A steady game: one hybrid-weighted option at 75 per year. *)
Definition steady_catalog : gmap Z (list DecisionOption) :=
  <[1 := [plain "A" 75 [("hybrid", 20)]]]> (<[2 := [plain "B" 75 [("hybrid", 20)]]]>
    (<[3 := [plain "C" 75 [("hybrid", 20)]]]> (<[4 := [plain "D" 75 [("hybrid", 20)]]]>
      (<[5 := [plain "E" 75 [("hybrid", 20)]]]> ∅)))).

Definition steady_team : TeamData :=
  {| idealCurve := [60; 75; 100; 80; 60];
     startingPayroll := 50;
     team_decisions := Some steady_catalog |}.

Definition steady_game : GameEngine.State :=
  play (GameEngine.initGame steady_team)
       [(1, "A"); (2, "B"); (3, "C"); (4, "D"); (5, "E")].

(** An engine whose three accumulators hold the given values: a fresh
    engine after one decision carrying them as its path weights. *)
Definition scored_team (w r h : Z) : TeamData :=
  {| idealCurve := [60; 75; 100; 80; 60];
     startingPayroll := 50;
     team_decisions :=
       Some (<[1 := [plain "A" 75 [("winNow", w); ("rebuild", r); ("hybrid", h)]]]> ∅) |}.

Definition scored_engine (w r h : Z) : DecisionEngine.t :=
  snd (DecisionEngine.applyDecision (DecisionEngine.new (scored_team w r h)) 1 "A").

(** A slider-mode team, and the state after choosing it. *)
Definition slider_team : TeamData :=
  {| idealCurve := [60; 75; 100; 80; 60];
     startingPayroll := 70;
     team_decisions := None |}.

Definition slider_start : GameEngine.State := GameEngine.initGame slider_team.

(** A catalog that carries an entry under the key 6. *)
Definition option_F : DecisionOption := plain "F" 80 [("hybrid", 10)].

Definition six_year_team : TeamData :=
  {| idealCurve := [60; 75; 100; 80; 60];
     startingPayroll := 50;
     team_decisions := Some (<[6 := [option_F]]> winNow_catalog) |}.

(** Two year-1 options with tags, for re-applying a year. *)
Definition option_star : DecisionOption :=
  {| decision_id := "sign_star";
     payrollPercentage := 90;
     flags := {| lock := ["rebuild_mode"]; unlock := ["extend_star"] |};
     pathWeights := [("winNow", 25); ("rebuild", -15); ("hybrid", 5)] |}.

Definition option_youth : DecisionOption :=
  {| decision_id := "draft_youth";
     payrollPercentage := 50;
     flags := {| lock := ["sign_fa"]; unlock := ["young_core"] |};
     pathWeights := [("winNow", -10); ("rebuild", 25); ("hybrid", 5)] |}.

Definition tagged_team : TeamData :=
  {| idealCurve := [60; 75; 100; 80; 60];
     startingPayroll := 50;
     team_decisions := Some (<[1 := [option_star; option_youth]]> ∅) |}.

End Sample.

(** ** A branching catalog for the further properties *)

Module Branching.

(** Year 2 options gated by the tags of the year 1 options of
    [Sample.tagged_team]. *)
Definition option_tank : DecisionOption :=
  {| decision_id := "tank";
     payrollPercentage := 45;
     flags := {| lock := ["extend_star"]; unlock := [] |};
     pathWeights := [("rebuild", 20)] |}.

Definition option_all_in : DecisionOption :=
  {| decision_id := "all_in";
     payrollPercentage := 100;
     flags := {| lock := ["sign_fa"]; unlock := [] |};
     pathWeights := [("winNow", 20)] |}.

Definition team : TeamData :=
  {| idealCurve := [60; 75; 100; 80; 60];
     startingPayroll := 50;
     team_decisions :=
       Some (<[1 := [Sample.option_star; Sample.option_youth]]>
               (<[2 := [option_tank; option_all_in]]> ∅)) |}.

End Branching.

(** * Properties *)

(** ** Numbers and per-year points *)

Lemma yearScore_Num (d : Z) : yearScore (Num d) = Num (Spec.year_points d).
Proof.
  unfold yearScore, Spec.year_points, le.
  repeat (case_match; [reflexivity |]).
  reflexivity.
Qed.

Lemma year_points_bounds (d : Z) : 0 <= Spec.year_points d <= 20.
Proof.
  unfold Spec.year_points.
  repeat case_match; try lia.
  assert (0 <= (d - 30) / 10) by (apply Z.div_pos; lia).
  lia.
Qed.

Lemma diff_Num (a b : Z) :
  Math_abs (sub (Num a) (Num b)) = Num (Z.abs (a - b)).
Proof. reflexivity. Qed.

(** The five iterations of the scoring loop on two five-slot arrays. *)
Lemma loop_five (a1 a2 a3 a4 a5 b1 b2 b3 b4 b5 : Z) (r s : list Z) :
  foldl (loop_step (a1 :: a2 :: a3 :: a4 :: a5 :: r) (b1 :: b2 :: b3 :: b4 :: b5 :: s))
        (Num 0) (seq 0 5)
  = Num (Spec.base_points [a1; a2; a3; a4; a5] [b1; b2; b3; b4; b5]).
Proof.
  cbv [seq foldl loop_step index lookup list_lookup].
  rewrite !diff_Num, !yearScore_Num.
  cbv [add Spec.base_points zip_with foldr].
  f_equal. lia.
Qed.

(** ** Variance: the program's computation against the reference *)

Lemma foldl_Zadd (l : list Z) (a : Z) :
  foldl Z.add a l = a + foldr Z.add 0 l.
Proof.
  revert a. induction l as [| x l IH]; intros a; simpl.
  - lia.
  - rewrite IH. lia.
Qed.

Lemma inject_Z_sum (l : list Z) :
  Qeq (inject_Z (foldr Z.add 0 l)) (Spec.Qsum (map inject_Z l)).
Proof.
  induction l as [| x l IH]; simpl.
  - reflexivity.
  - rewrite inject_Z_plus, IH. reflexivity.
Qed.

Lemma foldl_Qplus (l : list Q) (a : Q) :
  (foldl Qplus a l == a + Spec.Qsum l)%Q.
Proof.
  revert a. induction l as [| x l IH]; intros a; simpl.
  - ring.
  - rewrite IH. ring.
Qed.

Lemma Qsum_map_ext (f g : Z -> Q) (l : list Z) :
  (forall x, (f x == g x)%Q) ->
  (Spec.Qsum (map f l) == Spec.Qsum (map g l))%Q.
Proof.
  intros Hfg. induction l as [| x l IH]; simpl.
  - reflexivity.
  - rewrite IH, (Hfg x). reflexivity.
Qed.

Lemma mean_agrees (arr : list Z) :
  Qeq (Qdiv (inject_Z (foldl Z.add 0 arr)) (inject_Z (Z.of_nat (length arr))))
      (Spec.mean arr).
Proof.
  unfold Spec.mean.
  rewrite foldl_Zadd, Z.add_0_l, inject_Z_sum. reflexivity.
Qed.

Lemma calculateVariance_agrees (arr : list Z) :
  arr <> [] ->
  exists v, calculateVariance arr = Some v
            /\ (v == Spec.population_variance arr)%Q.
Proof.
  intros Hne. destruct arr as [| x0 rest]; [congruence |].
  eexists. split; [reflexivity |].
  set (arr := x0 :: rest).
  unfold Spec.population_variance.
  rewrite foldl_Qplus, Qplus_0_l.
  apply Qdiv_comp; [| reflexivity].
  apply Qsum_map_ext. intros x.
  change (Qpower ?q 2) with (q * q)%Q.
  rewrite (mean_agrees arr). reflexivity.
Qed.

Lemma variance_below_50_flatline (arr : list Z) :
  arr <> [] ->
  variance_below_50 (calculateVariance arr) = Spec.flatline arr.
Proof.
  intros Hne.
  destruct (calculateVariance_agrees arr Hne) as (v & -> & Hv).
  unfold variance_below_50, Spec.flatline.
  destruct (Qlt_le_dec (Spec.population_variance arr) (inject_Z 50)) as [Hlt | Hle].
  - destruct (Qle_bool (inject_Z 50) v) eqn:E; [| reflexivity].
    apply Qle_bool_iff in E. rewrite Hv in E.
    exfalso. exact (Qlt_not_le _ _ Hlt E).
  - rewrite <- Hv in Hle. apply Qle_bool_iff in Hle. rewrite Hle. reflexivity.
Qed.

(** ** Peak position: [indexOf(Math.max(...))] against the first maximum *)

Lemma Math_max_Some (r : list Z) (a : Z) :
  foldl (fun acc x =>
           match acc with
           | None => Some x
           | Some m => Some (Z.max m x)
           end) (Some a) r
  = Some (foldl Z.max a r).
Proof.
  revert a. induction r as [| x r IH]; intros a; simpl; [reflexivity |].
  apply IH.
Qed.

Lemma Math_max_cons (x : Z) (r : list Z) :
  Math_max (x :: r) = Some (foldl Z.max x r).
Proof. unfold Math_max. simpl. apply Math_max_Some. Qed.

Lemma foldl_max_upper (r : list Z) (a : Z) :
  a <= foldl Z.max a r /\ (forall y, In y r -> y <= foldl Z.max a r).
Proof.
  revert a. induction r as [| x r IH]; intros a; simpl.
  - split; [lia | tauto].
  - destruct (IH (Z.max a x)) as [Ha Hr]. split; [lia |].
    intros y [<- | Hy]; [lia | auto].
Qed.

Lemma foldl_max_member (r : list Z) (a : Z) :
  In (foldl Z.max a r) (a :: r).
Proof.
  revert a. induction r as [| x r IH]; intros a; simpl.
  - now left.
  - destruct (IH (Z.max a x)) as [H | H].
    + rewrite <- H.
      destruct (Z.max_spec a x) as [[_ ->] | [_ ->]]; auto.
    + auto.
Qed.

Lemma indexOf_from_first_index (l : list Z) (i v : Z) :
  indexOf_from i l v
  = match Spec.first_index (fun x => x =? v) l with
    | Some k => i + Z.of_nat k
    | None => -1
    end.
Proof.
  revert i. induction l as [| x l IH]; intros i; simpl; [reflexivity |].
  destruct (x =? v); [lia |].
  rewrite IH. destruct (Spec.first_index _ l); simpl; lia.
Qed.

Lemma first_index_ext (p q : Z -> bool) (l : list Z) :
  (forall x, In x l -> p x = q x) ->
  Spec.first_index p l = Spec.first_index q l.
Proof.
  induction l as [| x l IH]; intros Hpq; simpl; [reflexivity |].
  rewrite (Hpq x) by now left.
  rewrite IH by (intros y Hy; apply Hpq; now right).
  reflexivity.
Qed.

Lemma indexOf_max_first (l : list Z) :
  indexOf_max l
  = match Spec.first_max_index l with
    | Some k => Z.of_nat k
    | None => -1
    end.
Proof.
  destruct l as [| x r]; [reflexivity |].
  unfold indexOf_max, indexOf, Spec.first_max_index.
  rewrite Math_max_cons, indexOf_from_first_index.
  set (l := x :: r). set (m := foldl Z.max x r).
  assert (Hup : forall y, In y l -> y <= m).
  { destruct (foldl_max_upper r x) as [Hx Hr].
    intros y [<- | Hy]; [exact Hx | exact (Hr y Hy)]. }
  assert (Hin : In m l) by apply foldl_max_member.
  rewrite (first_index_ext (fun y => y =? m)
             (fun y => forallb (fun z => z <=? y) l) l).
  - destruct (Spec.first_index _ l); lia.
  - intros y Hy. destruct (Z.eqb_spec y m) as [-> | Hne].
    + symmetry. apply forallb_forall. intros z Hz.
      apply Z.leb_le. auto.
    + symmetry. apply not_true_is_false. intros Hall.
      rewrite forallb_forall in Hall.
      specialize (Hall m Hin). apply Z.leb_le in Hall.
      specialize (Hup y Hy). lia.
Qed.

Lemma peak_test_agrees (curve target : list Z) :
  (indexOf_max curve =? indexOf_max target)
  = bool_decide (Spec.first_max_index curve = Spec.first_max_index target).
Proof.
  rewrite !indexOf_max_first.
  destruct (Spec.first_max_index curve) as [k1 |],
           (Spec.first_max_index target) as [k2 |].
  - destruct (decide (k1 = k2)) as [-> | Hne].
    + rewrite Z.eqb_refl, bool_decide_eq_true_2; reflexivity.
    + rewrite bool_decide_eq_false_2 by congruence. apply Z.eqb_neq. lia.
  - rewrite bool_decide_eq_false_2 by congruence. apply Z.eqb_neq. lia.
  - rewrite bool_decide_eq_false_2 by congruence. apply Z.eqb_neq. lia.
  - reflexivity.
Qed.

(** ** The slider branch on arrays of at least five slots, and on shorter ones *)

Lemma sliderTotal_five (a1 a2 a3 a4 a5 b1 b2 b3 b4 b5 : Z) (r s : list Z) :
  let curve := a1 :: a2 :: a3 :: a4 :: a5 :: r in
  let target := b1 :: b2 :: b3 :: b4 :: b5 :: s in
  let points := Spec.base_points [a1; a2; a3; a4; a5] [b1; b2; b3; b4; b5] in
  let penalised :=
    if variance_below_50 (calculateVariance curve)
    then Z.max 0 (points - 15) else points in
  sliderTotal curve target
  = Num (if indexOf_max curve =? indexOf_max target
         then penalised + 5 else penalised).
Proof.
  intros curve target points penalised.
  subst curve target penalised points.
  unfold sliderTotal. rewrite loop_five.
  destruct (variance_below_50 _), (_ =? _); reflexivity.
Qed.

Lemma base_points_bounds (a1 a2 a3 a4 a5 b1 b2 b3 b4 b5 : Z) :
  0 <= Spec.base_points [a1; a2; a3; a4; a5] [b1; b2; b3; b4; b5] <= 100.
Proof.
  cbv [Spec.base_points zip_with foldr].
  pose proof (year_points_bounds (Z.abs (a1 - b1))).
  pose proof (year_points_bounds (Z.abs (a2 - b2))).
  pose proof (year_points_bounds (Z.abs (a3 - b3))).
  pose proof (year_points_bounds (Z.abs (a4 - b4))).
  pose proof (year_points_bounds (Z.abs (a5 - b5))).
  lia.
Qed.

Lemma at_least_five {A : Type} (l : list A) :
  (5 <= length l)%nat ->
  exists x1 x2 x3 x4 x5 rest, l = x1 :: x2 :: x3 :: x4 :: x5 :: rest.
Proof.
  intros H.
  destruct l as [| x1 [| x2 [| x3 [| x4 [| x5 rest]]]]]; simpl in H; try lia.
  now exists x1, x2, x3, x4, x5, rest.
Qed.

Lemma exactly_five {A : Type} (l : list A) :
  length l = 5%nat ->
  exists x1 x2 x3 x4 x5, l = [x1; x2; x3; x4; x5].
Proof.
  intros H.
  destruct l as [| x1 [| x2 [| x3 [| x4 [| x5 [| x6 rest]]]]]];
    simpl in H; try lia.
  now exists x1, x2, x3, x4, x5.
Qed.






(** ** [scoreByPath]: the most a win-now or rebuild curve can earn *)

Lemma foldl_step_bound (step : Z -> Z -> Z) (k : Z) (l : list Z) (a : Z) :
  (forall s p, s <= step s p <= s + k) ->
  a <= foldl step a l <= a + k * Z.of_nat (length l).
Proof.
  intros Hstep. revert a. induction l as [| p l IH]; intros a; simpl.
  - lia.
  - specialize (IH (step a p)). specialize (Hstep a p). lia.
Qed.

Lemma winNow_early_step (s p : Z) : s <= winNow_early s p <= s + 15.
Proof. unfold winNow_early. repeat case_match; lia. Qed.

Lemma winNow_late_step (s p : Z) : s <= winNow_late s p <= s + 10.
Proof. unfold winNow_late. repeat case_match; lia. Qed.

Lemma rebuild_early_step (s p : Z) : s <= rebuild_early s p <= s + 15.
Proof. unfold rebuild_early. repeat case_match; lia. Qed.

Lemma rebuild_late_step (s p : Z) : s <= rebuild_late s p <= s + 10.
Proof. unfold rebuild_late. repeat case_match; lia. Qed.

Lemma scoreByPath_winNow_at_most_73 (curve : list Z) :
  scoreByPath "winNow" curve <= 73.
Proof.
  unfold scoreByPath. simpl String.eqb. cbv iota.
  pose proof (foldl_step_bound winNow_early 15 (take 3 curve) 0 winNow_early_step) as He.
  pose proof (foldl_step_bound winNow_late 10 (take 2 (drop 3 curve))
                (foldl winNow_early 0 (take 3 curve)) winNow_late_step) as Hl.
  pose proof (length_take curve 3) as H3.
  pose proof (length_take (drop 3 curve) 2) as H2.
  destruct (4 <=? Set_size curve); lia.
Qed.

Lemma scoreByPath_rebuild_at_most_73 (curve : list Z) :
  scoreByPath "rebuild" curve <= 73.
Proof.
  unfold scoreByPath. simpl String.eqb. cbv iota.
  pose proof (foldl_step_bound rebuild_early 15 (take 3 curve) 0 rebuild_early_step) as He.
  pose proof (foldl_step_bound rebuild_late 10 (take 2 (drop 3 curve))
                (foldl rebuild_early 0 (take 3 curve)) rebuild_late_step) as Hl.
  pose proof (length_take curve 3) as H3.
  pose proof (length_take (drop 3 curve) 2) as H2.
  destruct (4 <=? Set_size curve); lia.
Qed.

(** ** [determinePath] *)

Lemma determinePath_all_equal (this : DecisionEngine.t) :
  winNow (DecisionEngine.pathScores this) = rebuild (DecisionEngine.pathScores this) ->
  rebuild (DecisionEngine.pathScores this) = hybrid (DecisionEngine.pathScores this) ->
  DecisionEngine.determinePath this = Rebuild.
Proof.
  unfold DecisionEngine.determinePath.
  destruct (DecisionEngine.pathScores this) as [w r h]; simpl.
  intros -> ->.
  rewrite !Z.max_id, Z.min_id, Z.eqb_refl, Z.ltb_irrefl. reflexivity.
Qed.

(** The last [return 'hybrid'] is never reached: one of the three tests
    before it always succeeds. *)
Lemma determinePath_default_unreachable (s : PathScores) :
  Spec.rule_hybrid s \/ Spec.rule_winNow s \/ Spec.rule_rebuild s.
Proof.
  unfold Spec.rule_hybrid, Spec.rule_winNow, Spec.rule_rebuild.
  destruct s as [w r h]; simpl. lia.
Qed.

(** ** The decision engine's state *)

Lemma elem_of_add_flags (fs : list string) (active : gset string) (f : string) :
  f ∈ DecisionEngine.add_flags active fs <-> f ∈ active \/ f ∈ fs.
Proof.
  unfold DecisionEngine.add_flags.
  revert active. induction fs as [| g fs IH]; intros active; simpl.
  - rewrite elem_of_nil. tauto.
  - rewrite IH, elem_of_union, elem_of_singleton, elem_of_cons. tauto.
Qed.

Lemma add_flags_union (fs : list string) (active : gset string) :
  DecisionEngine.add_flags active fs = active ∪ list_to_set fs.
Proof.
  apply set_eq. intros f.
  rewrite elem_of_add_flags, elem_of_union, elem_of_list_to_set. tauto.
Qed.

Lemma add_weight_sum (weights : list (string * Z)) (scores : PathScores) :
  foldl DecisionEngine.add_weight scores weights
  = {| winNow := winNow scores + Spec.weight_of "winNow" weights;
       rebuild := rebuild scores + Spec.weight_of "rebuild" weights;
       hybrid := hybrid scores + Spec.weight_of "hybrid" weights |}.
Proof.
  revert scores. induction weights as [| [key w] weights IH]; intros scores.
  - destruct scores; simpl. f_equal; lia.
  - simpl foldl. rewrite IH. unfold DecisionEngine.add_weight.
    cbn [Spec.weight_of foldr fst snd].
    fold (Spec.weight_of "winNow" weights).
    fold (Spec.weight_of "rebuild" weights).
    fold (Spec.weight_of "hybrid" weights).
    destruct (String.eqb_spec key "winNow") as [-> | Hw]; [simpl; f_equal; lia |].
    destruct (String.eqb_spec key "rebuild") as [-> | Hr]; [simpl; f_equal; lia |].
    destruct (String.eqb_spec key "hybrid") as [-> | Hh]; [simpl; f_equal; lia |].
    simpl. f_equal; lia.
Qed.

Lemma applyDecision_found (this : DecisionEngine.t) (year : Z) (decisionId : string)
      (d : DecisionOption) :
  DecisionEngine.findDecision this year decisionId = Some d ->
  DecisionEngine.applyDecision this year decisionId
  = (Some d,
     {| DecisionEngine.team := DecisionEngine.team this;
        DecisionEngine.decisions :=
          array_set None (year - 1) (Some decisionId) (DecisionEngine.decisions this);
        DecisionEngine.activeFlags := DecisionEngine.activeFlags this ∪ Spec.tags_of d;
        DecisionEngine.pathScores :=
          {| winNow := winNow (DecisionEngine.pathScores this)
                       + Spec.weight_of "winNow" (pathWeights d);
             rebuild := rebuild (DecisionEngine.pathScores this)
                        + Spec.weight_of "rebuild" (pathWeights d);
             hybrid := hybrid (DecisionEngine.pathScores this)
                       + Spec.weight_of "hybrid" (pathWeights d) |} |}).
Proof.
  intros Hfind. unfold DecisionEngine.applyDecision. rewrite Hfind.
  rewrite !add_flags_union, add_weight_sum. unfold Spec.tags_of.
  do 2 f_equal. apply set_eq. intros f.
  rewrite !elem_of_union. tauto.
Qed.

Lemma applyDecision_missing (this : DecisionEngine.t) (year : Z) (decisionId : string) :
  DecisionEngine.findDecision this year decisionId = None ->
  DecisionEngine.applyDecision this year decisionId = (None, this).
Proof.
  intros Hfind. unfold DecisionEngine.applyDecision. rewrite Hfind. reflexivity.
Qed.

Lemma findDecision_unknown (this : DecisionEngine.t) (year : Z) (decisionId : string) :
  (forall d, In d (DecisionEngine.getAllDecisions this year) ->
             decision_id d <> decisionId) ->
  DecisionEngine.findDecision this year decisionId = None.
Proof.
  intros Hall. unfold DecisionEngine.findDecision.
  induction (DecisionEngine.getAllDecisions this year) as [| d ds IH]; simpl.
  - reflexivity.
  - destruct (String.eqb_spec (decision_id d) decisionId) as [E | _].
    + exfalso. apply (Hall d); [now left | exact E].
    + apply IH. intros d' Hd'. apply Hall. now right.
Qed.

Lemma applyDecision_team (this : DecisionEngine.t) (year : Z) (decisionId : string) :
  DecisionEngine.team (snd (DecisionEngine.applyDecision this year decisionId))
  = DecisionEngine.team this.
Proof.
  unfold DecisionEngine.applyDecision.
  destruct (DecisionEngine.findDecision this year decisionId); reflexivity.
Qed.

Lemma findDecision_team (e1 e2 : DecisionEngine.t) (year : Z) (decisionId : string) :
  DecisionEngine.team e1 = DecisionEngine.team e2 ->
  DecisionEngine.findDecision e1 year decisionId
  = DecisionEngine.findDecision e2 year decisionId.
Proof.
  intros Ht.
  unfold DecisionEngine.findDecision, DecisionEngine.getAllDecisions,
    DecisionEngine.catalog_entry.
  rewrite Ht. reflexivity.
Qed.

Lemma applyDecision_flags_grow (this : DecisionEngine.t) (year : Z) (decisionId : string) :
  DecisionEngine.activeFlags this
  ⊆ DecisionEngine.activeFlags (snd (DecisionEngine.applyDecision this year decisionId)).
Proof.
  destruct (DecisionEngine.findDecision this year decisionId) as [d |] eqn:Hfind.
  - rewrite (applyDecision_found _ _ _ _ Hfind). simpl.
    apply union_subseteq_l.
  - rewrite (applyDecision_missing _ _ _ Hfind). reflexivity.
Qed.

Lemma apply_all_flags_grow (calls : list (Z * string)) (this : DecisionEngine.t) :
  DecisionEngine.activeFlags this
  ⊆ DecisionEngine.activeFlags (Spec.apply_all this calls).
Proof.
  unfold Spec.apply_all.
  revert this. induction calls as [| [year decisionId] calls IH]; intros this; simpl.
  - reflexivity.
  - etrans; [apply (applyDecision_flags_grow this year decisionId) | apply IH].
Qed.

(** ** The game state *)

(** In slider mode [calculateHealthScore] stores the score of the payroll
    curve against the team's ideal curve. *)
Lemma calculateHealthScore_slider (st : GameEngine.State) (teamData : TeamData) :
  GameEngine.decision_mode_engine st = None ->
  GameEngine.currentTeam st = Some teamData ->
  GameEngine.healthScore (GameEngine.calculateHealthScore st)
  = scoreAgainstTarget (GameEngine.payrollDecisions st) (idealCurve teamData).
Proof.
  intros Hmode Hteam. simpl. unfold GameEngine.computeHealthScore.
  rewrite Hmode, Hteam. reflexivity.
Qed.

(** In decision mode it stores the path score of the curve. *)
Lemma calculateHealthScore_decisions (st : GameEngine.State) (engine : DecisionEngine.t) :
  GameEngine.decision_mode_engine st = Some engine ->
  GameEngine.healthScore (GameEngine.calculateHealthScore st)
  = Num (scoreByPath (path_name (DecisionEngine.determinePath engine))
                     (GameEngine.payrollDecisions st)).
Proof.
  intros Hmode. simpl. unfold GameEngine.computeHealthScore.
  rewrite Hmode. unfold clamp_score, Math_max2, Math_min2, scoreByPath.
  f_equal. lia.
Qed.

Lemma GameEngine_applyDecision_unknown (st : GameEngine.State) (year : Z)
      (decisionId : string) :
  (forall engine, GameEngine.decisionEngine st = Some engine ->
                  DecisionEngine.findDecision engine year decisionId = None) ->
  GameEngine.applyDecision st year decisionId = (None, st).
Proof.
  intros Hmissing. unfold GameEngine.applyDecision.
  destruct (GameEngine.decisionEngine st) as [engine |] eqn:He; [| reflexivity].
  rewrite (applyDecision_missing engine year decisionId (Hmissing engine eq_refl)).
  destruct st; simpl in *. subst. reflexivity.
Qed.

Lemma setPayroll_out_of_range (st : GameEngine.State) (year payrollPercent : Z) :
  ~ (1 <= year <= 5) ->
  GameEngine.setPayroll st year payrollPercent = st.
Proof.
  intros Hout. unfold GameEngine.setPayroll.
  destruct (1 <=? year) eqn:H1, (year <=? 5) eqn:H5; simpl; try reflexivity.
  apply Z.leb_le in H1, H5. lia.
Qed.

Lemma length_array_set {A : Type} (hole : A) (i : Z) (v : A) (arr : list A) :
  (length arr <= length (array_set hole i v arr))%nat.
Proof.
  unfold array_set.
  destruct (i <? 0); [lia |].
  destruct (i <? Z.of_nat (length arr)).
  - rewrite length_insert. lia.
  - rewrite length_app. lia.
Qed.

Lemma applyDecision_slots (this : DecisionEngine.t) (year : Z) (decisionId : string) :
  (length (DecisionEngine.decisions this)
   <= length (DecisionEngine.decisions
                (snd (DecisionEngine.applyDecision this year decisionId))))%nat.
Proof.
  unfold DecisionEngine.applyDecision.
  destruct (DecisionEngine.findDecision this year decisionId); simpl.
  - apply length_array_set.
  - lia.
Qed.

Lemma length_getPayrollCurve (this : DecisionEngine.t) :
  length (DecisionEngine.getPayrollCurve this)
  = length (DecisionEngine.decisions this).
Proof. unfold DecisionEngine.getPayrollCurve. apply length_imap. Qed.

(** Every state of a session has its five payroll slots, and its engine
    (when there is one) its five decision slots, so [setPayroll] always
    writes inside the array. *)
Lemma payrollDecisions_length_reachable (st : GameEngine.State) :
  Spec.reachable st ->
  (5 <= length (GameEngine.payrollDecisions st))%nat
  /\ (forall engine, GameEngine.decisionEngine st = Some engine ->
                     (5 <= length (DecisionEngine.decisions engine))%nat).
Proof.
  induction 1 as [| teamData | st year p _ [IHp IHe]
                  | st year decisionId _ [IHp IHe] | st _ [IHp IHe]].
  - split; [simpl; lia | intros engine; discriminate].
  - split; [simpl; lia |].
    simpl. intros engine.
    destruct (match team_decisions teamData with
              | Some catalog => 0 <? Z.of_nat (size catalog)
              | None => false
              end); [| discriminate].
    intros [= <-]. simpl. lia.
  - unfold GameEngine.setPayroll.
    destruct ((1 <=? year) && (year <=? 5)); [| auto].
    simpl. rewrite length_insert. auto.
  - unfold GameEngine.applyDecision.
    destruct (GameEngine.decisionEngine st) as [engine |] eqn:He;
      [| simpl; split; [exact IHp | rewrite He; discriminate]].
    pose proof (applyDecision_slots engine year decisionId) as Hslots.
    specialize (IHe engine eq_refl).
    destruct (DecisionEngine.applyDecision engine year decisionId)
      as [[d |] engine']; simpl in *.
    + rewrite length_getPayrollCurve.
      split; [lia | intros ? [= <-]; lia].
    + split; [lia | intros ? [= <-]; lia].
  - simpl. auto.
Qed.

(** ** Further lemmas on scoring *)

Lemma div10_bounds (d : Z) : 10 * ((d - 30) / 10) <= d - 30 < 10 * ((d - 30) / 10) + 10.
Proof.
  pose proof (Z.mul_div_le (d - 30) 10).
  pose proof (Z.mul_succ_div_gt (d - 30) 10).
  lia.
Qed.

Lemma hybrid_step_cases (score steadyCount p : Z) :
  (70 <= p <= 80
   /\ hybrid_step (score, steadyCount) p = (score + 15, steadyCount + 1))
  \/ (~ (70 <= p <= 80)
      /\ exists k, 0 <= k <= 10
                   /\ hybrid_step (score, steadyCount) p = (score + k, steadyCount)).
Proof.
  unfold hybrid_step.
  destruct (Z.leb_spec 70 p), (Z.leb_spec p 80); simpl;
    try (left; split; [lia | reflexivity]);
    right; (split; [lia |]);
    destruct (Z.leb_spec 65 p), (Z.leb_spec p 85); simpl;
    try (exists 10; split; [lia | reflexivity]);
    exists 0; (split; [lia | f_equal; lia]).
Qed.

Lemma variance_five (a b c d e : Z) :
  exists v, calculateVariance [a; b; c; d; e] = Some v
            /\ Qeq v (Session.spread [a; b; c; d; e] # 25).
Proof.
  destruct (calculateVariance_agrees [a; b; c; d; e]) as (v & Hv & Heq);
    [discriminate |].
  exists v. split; [exact Hv |].
  rewrite Heq, Qmake_Qdiv.
  unfold Spec.population_variance, Spec.mean, Spec.Qsum, Session.spread.
  cbn [map foldr length].
  change (inject_Z (Z.of_nat 5)) with (inject_Z 5).
  unfold Z.sub.
  rewrite !inject_Z_plus, inject_Z_opp, !inject_Z_mult, !inject_Z_plus, !inject_Z_mult.
  change (inject_Z 0) with 0%Q. change (inject_Z 5) with (5 # 1).
  change (inject_Z (Z.pos 25)) with (25 # 1).
  field. repeat split; discriminate.
Qed.

Lemma flatline_spread (a b c d e : Z) :
  variance_below_50 (calculateVariance [a; b; c; d; e]) = true
  <-> Session.spread [a; b; c; d; e] < 1250.
Proof.
  destruct (variance_five a b c d e) as (v & -> & Hv).
  unfold variance_below_50.
  rewrite negb_true_iff, <- not_true_iff_false, Qle_bool_iff, Hv.
  unfold Qle. simpl. lia.
Qed.

(** Where the flatline test is decided. The exact variance of a
    five-slot integer curve is [spread / 25]; it is 50 only if the sum of
    the slots is a multiple of 5, and then the mean, the deviations, their
    squares and the sums are integers, which doubles hold exactly;
    otherwise it is at least 1/25 away from 50. *)
Lemma flatline_margin (a b c d e : Z) :
  let spread := Session.spread [a; b; c; d; e] in
  (spread = 1250 /\ (a + b + c + d + e) mod 5 = 0)
  \/ spread <= 1249 \/ 1251 <= spread.
Proof.
  intros spread. subst spread. unfold Session.spread. cbn [map foldr].
  destruct (Z.eq_dec
              (5 * (a * a + (b * b + (c * c + (d * d + (e * e + 0)))))
               - (a + (b + (c + (d + (e + 0))))) * (a + (b + (c + (d + (e + 0))))))
              1250) as [Heq | Hne]; [left | lia].
  split; [exact Heq |].
  set (s := a + b + c + d + e).
  assert (Hs : s * s mod 5 = 0).
  { replace (s * s)
      with (5 * (a * a + (b * b + (c * c + (d * d + (e * e + 0))))) - 1250)
      by (subst s; lia).
    replace (5 * (a * a + (b * b + (c * c + (d * d + (e * e + 0))))) - 1250)
      with ((a * a + b * b + c * c + d * d + e * e - 250) * 5) by lia.
    apply Z.mod_mul. lia. }
  pose proof (Z.mod_pos_bound s 5 ltac:(lia)) as Hr.
  rewrite Z.mul_mod in Hs by lia.
  assert (Hcases : s mod 5 = 0 \/ s mod 5 = 1 \/ s mod 5 = 2
                   \/ s mod 5 = 3 \/ s mod 5 = 4) by lia.
  destruct Hcases as [H | [H | [H | [H | H]]]]; rewrite H in Hs;
    [exact H | discriminate Hs ..].
Qed.

Lemma spread_five (a b c d e : Z) :
  Session.spread [a; b; c; d; e]
  = 5 * (a * a + b * b + c * c + d * d + e * e)
    - (a + b + c + d + e) * (a + b + c + d + e).
Proof. unfold Session.spread. cbn [map foldr]. ring. Qed.

Lemma in_five (x a b c d e : Z) :
  In x [a; b; c; d; e] -> x = a \/ x = b \/ x = c \/ x = d \/ x = e.
Proof. simpl. intuition congruence. Qed.

(** On five-slot arrays the slider score is a number, written out. *)
Lemma scoreAgainstTarget_five (a1 a2 a3 a4 a5 b1 b2 b3 b4 b5 : Z) :
  let curve := [a1; a2; a3; a4; a5] in
  let target := [b1; b2; b3; b4; b5] in
  let points := Spec.base_points curve target in
  let penalised :=
    if variance_below_50 (calculateVariance curve)
    then Z.max 0 (points - 15) else points in
  scoreAgainstTarget curve target
  = Num (Z.min 100 (Z.max 0 (if indexOf_max curve =? indexOf_max target
                             then penalised + 5 else penalised))).
Proof.
  intros curve target points penalised.
  unfold scoreAgainstTarget. subst curve target.
  rewrite sliderTotal_five. reflexivity.
Qed.

(** ** Further lemmas on the decision engine *)

Lemma findDecision_some (this : DecisionEngine.t) (year : Z) (decisionId : string)
      (d : DecisionOption) :
  DecisionEngine.findDecision this year decisionId = Some d ->
  In d (DecisionEngine.getAllDecisions this year) /\ decision_id d = decisionId.
Proof.
  unfold DecisionEngine.findDecision. intros Hfind.
  apply find_some in Hfind. destruct Hfind as [Hin Heq].
  split; [exact Hin | now apply String.eqb_eq].
Qed.

Lemma getAvailableDecisions_filter (this : DecisionEngine.t) (year : Z) :
  DecisionEngine.getAvailableDecisions this year
  = List.filter
      (fun d => negb (existsb (DecisionEngine.has_flag this) (lock (flags d))))
      (DecisionEngine.getAllDecisions this year).
Proof.
  unfold DecisionEngine.getAvailableDecisions, DecisionEngine.getAllDecisions.
  destruct (DecisionEngine.catalog_entry this year); reflexivity.
Qed.

Lemma filter_sublist {A : Type} (p q : A -> bool) (l : list A) :
  (forall x, q x = true -> p x = true) ->
  List.filter q l `sublist_of` List.filter p l.
Proof.
  intros Hqp. induction l as [| x l IH]; simpl; [constructor |].
  destruct (q x) eqn:Eq.
  - rewrite (Hqp x Eq). now constructor.
  - destruct (p x); [now constructor | exact IH].
Qed.

Lemma filter_all {A : Type} (p : A -> bool) (l : list A) :
  (forall x, In x l -> p x = true) -> List.filter p l = l.
Proof.
  induction l as [| x l IH]; intros Hall; simpl; [reflexivity |].
  rewrite (Hall x) by now left.
  f_equal. apply IH. intros y Hy. apply Hall. now right.
Qed.

Lemma existsb_none {A : Type} (p : A -> bool) (l : list A) :
  (forall x, p x = false) -> existsb p l = false.
Proof.
  intros Hp. induction l as [| x l IH]; simpl; [reflexivity |].
  now rewrite Hp, IH.
Qed.

Lemma existsb_filter_nil {A : Type} (p : A -> bool) (l : list A) :
  List.filter p l = [] <-> existsb p l = false.
Proof.
  induction l as [| x l IH]; simpl; [tauto |].
  destruct (p x); simpl; [split; discriminate | exact IH].
Qed.

Lemma apply_all_team (calls : list (Z * string)) (this : DecisionEngine.t) :
  DecisionEngine.team (Spec.apply_all this calls) = DecisionEngine.team this.
Proof.
  unfold Spec.apply_all.
  revert this. induction calls as [| [year decisionId] calls IH]; intros this; simpl.
  - reflexivity.
  - rewrite IH. apply applyDecision_team.
Qed.

Lemma getAllDecisions_team (e1 e2 : DecisionEngine.t) (year : Z) :
  DecisionEngine.team e1 = DecisionEngine.team e2 ->
  DecisionEngine.getAllDecisions e1 year = DecisionEngine.getAllDecisions e2 year.
Proof.
  intros Ht. unfold DecisionEngine.getAllDecisions, DecisionEngine.catalog_entry.
  now rewrite Ht.
Qed.

(** The slot array after [decisions[year - 1] = decisionId]. *)
Lemma array_set_lookup_same {A : Type} (hole v : A) (i : Z) (arr : list A) :
  0 <= i -> array_set hole i v arr !! Z.to_nat i = Some v.
Proof.
  intros Hi. unfold array_set.
  destruct (Z.ltb_spec i 0); [lia |].
  destruct (Z.ltb_spec i (Z.of_nat (length arr))).
  - apply list_lookup_insert_eq. lia.
  - rewrite lookup_app_r by lia.
    rewrite lookup_app_r by (rewrite length_replicate; lia).
    rewrite length_replicate.
    replace (Z.to_nat i - length arr - (Z.to_nat i - length arr))%nat with 0%nat by lia.
    reflexivity.
Qed.

Lemma array_set_lookup_other {A : Type} (hole v : A) (i : Z) (j : nat) (arr : list A) :
  j <> Z.to_nat i \/ i < 0 ->
  array_set hole i v arr !! j = arr !! j
  \/ (arr !! j = None /\ array_set hole i v arr !! j = Some hole).
Proof.
  intros Hj. unfold array_set.
  destruct (Z.ltb_spec i 0); [now left |].
  destruct Hj as [Hj | ?]; [| lia].
  destruct (Z.ltb_spec i (Z.of_nat (length arr))).
  - left. apply list_lookup_insert_ne. congruence.
  - destruct (decide (j < length arr)%nat) as [Hlt | Hge].
    + left. apply lookup_app_l. exact Hlt.
    + rewrite lookup_app_r by lia.
      destruct (decide (j - length arr < Z.to_nat i - length arr)%nat) as [Hpad | Hpast].
      * right. split; [apply lookup_ge_None_2; lia |].
        rewrite lookup_app_l by (rewrite length_replicate; exact Hpad).
        apply lookup_replicate_2. exact Hpad.
      * left. rewrite lookup_app_r by (rewrite length_replicate; lia).
        rewrite length_replicate.
        rewrite (lookup_ge_None_2 arr) by lia.
        apply lookup_ge_None_2. simpl. lia.
Qed.

Lemma slot_after_apply_same (this : DecisionEngine.t) (year : Z) (decisionId : string)
      (d : DecisionOption) :
  DecisionEngine.findDecision this year decisionId = Some d ->
  1 <= year ->
  DecisionEngine.slot (snd (DecisionEngine.applyDecision this year decisionId)) year
  = if String.eqb decisionId "" then None else Some decisionId.
Proof.
  intros Hfind Hyear.
  rewrite (applyDecision_found _ _ _ _ Hfind). unfold DecisionEngine.slot. simpl.
  destruct (Z.ltb_spec (year - 1) 0); [lia |].
  rewrite array_set_lookup_same by lia. reflexivity.
Qed.

Lemma slot_after_apply_other (this : DecisionEngine.t) (year year' : Z)
      (decisionId : string) :
  year' <> year ->
  1 <= year' ->
  DecisionEngine.slot (snd (DecisionEngine.applyDecision this year decisionId)) year'
  = DecisionEngine.slot this year'.
Proof.
  intros Hne Hyear'.
  destruct (DecisionEngine.findDecision this year decisionId) as [d |] eqn:Hfind;
    [| now rewrite (applyDecision_missing _ _ _ Hfind)].
  rewrite (applyDecision_found _ _ _ _ Hfind). unfold DecisionEngine.slot. simpl.
  destruct (Z.ltb_spec (year' - 1) 0); [reflexivity |].
  destruct (array_set_lookup_other None (Some decisionId) (year - 1)
              (Z.to_nat (year' - 1)) (DecisionEngine.decisions this))
    as [-> | [-> ->]]; [| reflexivity | reflexivity].
  destruct (Z.ltb_spec (year - 1) 0); [now right | left; lia].
Qed.

Lemma getCurrentDecision_after_apply_other (this : DecisionEngine.t) (year year' : Z)
      (decisionId : string) :
  year' <> year ->
  1 <= year' ->
  DecisionEngine.getCurrentDecision
    (snd (DecisionEngine.applyDecision this year decisionId)) year'
  = DecisionEngine.getCurrentDecision this year'.
Proof.
  intros Hne Hyear'. unfold DecisionEngine.getCurrentDecision.
  rewrite slot_after_apply_other by assumption.
  destruct (DecisionEngine.slot this year'); [| reflexivity].
  apply findDecision_team, applyDecision_team.
Qed.

Lemma has_flag_grows (e1 e2 : DecisionEngine.t) (f : string) :
  DecisionEngine.activeFlags e1 ⊆ DecisionEngine.activeFlags e2 ->
  DecisionEngine.has_flag e1 f = true -> DecisionEngine.has_flag e2 f = true.
Proof.
  unfold DecisionEngine.has_flag. intros Hsub H1.
  apply bool_decide_eq_true in H1. apply bool_decide_eq_true. auto.
Qed.

Lemma existsb_mono {A : Type} (p q : A -> bool) (l : list A) :
  (forall x, p x = true -> q x = true) ->
  existsb p l = true -> existsb q l = true.
Proof.
  intros Hpq. rewrite !existsb_exists. intros (x & Hx & Hp). eauto.
Qed.

(** One call keeps two engines in agreement, and two calls commute up to
    agreement. *)
Lemma applyDecision_same_summary (e1 e2 : DecisionEngine.t) (year : Z)
      (decisionId : string) :
  Session.same_summary e1 e2 ->
  Session.same_summary (snd (DecisionEngine.applyDecision e1 year decisionId))
                       (snd (DecisionEngine.applyDecision e2 year decisionId)).
Proof.
  intros (Ht & Hf & Hs).
  pose proof (findDecision_team e1 e2 year decisionId Ht) as Hfind.
  destruct (DecisionEngine.findDecision e2 year decisionId) as [d |] eqn:H2.
  - rewrite (applyDecision_found _ _ _ _ Hfind), (applyDecision_found _ _ _ _ H2).
    unfold Session.same_summary. simpl. rewrite Ht, Hf, Hs. auto.
  - rewrite (applyDecision_missing _ _ _ Hfind), (applyDecision_missing _ _ _ H2).
    unfold Session.same_summary. auto.
Qed.

Lemma apply_all_same_summary (calls : list (Z * string)) (e1 e2 : DecisionEngine.t) :
  Session.same_summary e1 e2 ->
  Session.same_summary (Spec.apply_all e1 calls) (Spec.apply_all e2 calls).
Proof.
  unfold Spec.apply_all.
  revert e1 e2. induction calls as [| [year decisionId] calls IH]; intros e1 e2 H;
    simpl; [exact H |].
  apply IH, applyDecision_same_summary, H.
Qed.

Lemma applyDecision_swap (this : DecisionEngine.t) (y1 y2 : Z) (i1 i2 : string) :
  Session.same_summary
    (snd (DecisionEngine.applyDecision
            (snd (DecisionEngine.applyDecision this y1 i1)) y2 i2))
    (snd (DecisionEngine.applyDecision
            (snd (DecisionEngine.applyDecision this y2 i2)) y1 i1)).
Proof.
  pose proof (findDecision_team _ _ y2 i2 (applyDecision_team this y1 i1)) as H21.
  pose proof (findDecision_team _ _ y1 i1 (applyDecision_team this y2 i2)) as H12.
  destruct (DecisionEngine.findDecision this y1 i1) as [d1 |] eqn:F1;
    destruct (DecisionEngine.findDecision this y2 i2) as [d2 |] eqn:F2.
  - rewrite (applyDecision_found _ _ _ _ H21), (applyDecision_found _ _ _ _ H12).
    rewrite (applyDecision_found _ _ _ _ F1), (applyDecision_found _ _ _ _ F2).
    unfold Session.same_summary. simpl.
    split; [reflexivity |]. split.
    + apply set_eq. intros f. rewrite !elem_of_union. tauto.
    + f_equal; lia.
  - rewrite (applyDecision_missing _ _ _ H21).
    rewrite (applyDecision_missing _ _ _ F2).
    unfold Session.same_summary. auto.
  - rewrite (applyDecision_missing _ _ _ H12).
    rewrite (applyDecision_missing _ _ _ F1).
    unfold Session.same_summary. auto.
  - rewrite (applyDecision_missing _ _ _ H21), (applyDecision_missing _ _ _ H12).
    rewrite (applyDecision_missing _ _ _ F1), (applyDecision_missing _ _ _ F2).
    unfold Session.same_summary. auto.
Qed.

Lemma apply_all_permutation (l l' : list (Z * string)) :
  Permutation l l' ->
  forall e1 e2 : DecisionEngine.t,
    Session.same_summary e1 e2 ->
    Session.same_summary (Spec.apply_all e1 l) (Spec.apply_all e2 l').
Proof.
  induction 1 as [| [y i] l l' _ IH | [y1 i1] [y2 i2] l | l l' l'' _ IH1 _ IH2];
    intros e1 e2 Hsame.
  - exact Hsame.
  - apply (IH (snd (DecisionEngine.applyDecision e1 y i))
              (snd (DecisionEngine.applyDecision e2 y i))).
    apply applyDecision_same_summary, Hsame.
  - change (Session.same_summary
              (Spec.apply_all
                 (snd (DecisionEngine.applyDecision
                         (snd (DecisionEngine.applyDecision e1 y2 i2)) y1 i1)) l)
              (Spec.apply_all
                 (snd (DecisionEngine.applyDecision
                         (snd (DecisionEngine.applyDecision e2 y1 i1)) y2 i2)) l)).
    apply apply_all_same_summary.
    destruct (applyDecision_swap e1 y2 y1 i2 i1) as (T1 & F1 & S1).
    destruct (applyDecision_same_summary _ _ y2 i2
                (applyDecision_same_summary e1 e2 y1 i1 Hsame)) as (T2 & F2 & S2).
    unfold Session.same_summary. rewrite T1, F1, S1. auto.
  - destruct (IH1 e1 e1) as (T1 & F1 & S1); [unfold Session.same_summary; auto |].
    destruct (IH2 e1 e2 Hsame) as (T2 & F2 & S2).
    unfold Session.same_summary. rewrite T1, F1, S1. auto.
Qed.

Lemma getPayrollCurve_lookup (this : DecisionEngine.t) (i : nat) :
  DecisionEngine.getPayrollCurve this !! i
  = (fun _ => match DecisionEngine.getCurrentDecision this (Z.of_nat i + 1) with
              | Some decision => payrollPercentage decision
              | None => 50
              end) <$> DecisionEngine.decisions this !! i.
Proof. unfold DecisionEngine.getPayrollCurve. apply list_lookup_imap. Qed.

Lemma determinePath_scores (e1 e2 : DecisionEngine.t) :
  DecisionEngine.pathScores e1 = DecisionEngine.pathScores e2 ->
  DecisionEngine.determinePath e1 = DecisionEngine.determinePath e2.
Proof. unfold DecisionEngine.determinePath. now intros ->. Qed.

Lemma getAvailableDecisions_summary (e1 e2 : DecisionEngine.t) (year : Z) :
  Session.same_summary e1 e2 ->
  DecisionEngine.getAvailableDecisions e1 year
  = DecisionEngine.getAvailableDecisions e2 year.
Proof.
  intros (Ht & Hf & _).
  unfold DecisionEngine.getAvailableDecisions, DecisionEngine.catalog_entry,
    DecisionEngine.has_flag.
  now rewrite Ht, Hf.
Qed.

(** ** Further lemmas on the game state *)

Lemma computeHealthScore_decisions_range (st : GameEngine.State)
      (engine : DecisionEngine.t) :
  GameEngine.decision_mode_engine st = Some engine ->
  exists s, GameEngine.computeHealthScore st = Num s /\ 0 <= s <= 100.
Proof.
  intros Hmode. unfold GameEngine.computeHealthScore. rewrite Hmode.
  eexists. split; [reflexivity |]. lia.
Qed.

Lemma computeHealthScore_range (st : GameEngine.State) :
  (5 <= length (GameEngine.payrollDecisions st))%nat ->
  (forall teamData, GameEngine.currentTeam st = Some teamData ->
                    (5 <= length (idealCurve teamData))%nat) ->
  exists s, GameEngine.computeHealthScore st = Num s /\ 0 <= s <= 100.
Proof.
  intros Hp Ht.
  destruct (GameEngine.decision_mode_engine st) as [engine |] eqn:Hmode;
    [now apply (computeHealthScore_decisions_range st engine) |].
  unfold GameEngine.computeHealthScore. rewrite Hmode.
  destruct (at_least_five _ Hp) as (a1 & a2 & a3 & a4 & a5 & r & ->).
  assert (Hideal : (5 <= length (match GameEngine.currentTeam st with
                                 | Some teamData => idealCurve teamData
                                 | None => [60; 75; 100; 80; 60]%Z
                                 end))%nat).
  { destruct (GameEngine.currentTeam st) as [teamData |];
      [now apply Ht | simpl; lia]. }
  destruct (at_least_five _ Hideal) as (b1 & b2 & b3 & b4 & b5 & s & ->).
  rewrite sliderTotal_five. unfold clamp_score, Math_max2, Math_min2.
  eexists. split; [reflexivity | lia].
Qed.

(** Recomputing the score establishes the invariant from its structural
    part. *)
Lemma invariant_after_score (st : GameEngine.State) :
  1 <= GameEngine.currentYear st <= 5 ->
  (GameEngine.gameMode st = GameEngine.decisions
   <-> GameEngine.decisionEngine st <> None) ->
  (5 <= length (GameEngine.payrollDecisions st))%nat ->
  (forall engine, GameEngine.decisionEngine st = Some engine ->
                  (5 <= length (DecisionEngine.decisions engine))%nat) ->
  (forall teamData, GameEngine.currentTeam st = Some teamData ->
                    (5 <= length (idealCurve teamData))%nat) ->
  Session.invariant (GameEngine.calculateHealthScore st).
Proof.
  intros Hy Hm Hp He Ht.
  unfold Session.invariant. simpl.
  repeat (split; [assumption |]).
  now apply computeHealthScore_range.
Qed.

Lemma session_invariant_holds (st : GameEngine.State) :
  Session.reachable st -> Session.invariant st.
Proof.
  induction 1 as [| teamData Hideal
                  | st year p _ IH | st year decisionId _ IH | st _ IH
                  | st _ IH | st _ IH | st year _ IH].
  - unfold Session.invariant. simpl.
    split; [lia |]. split; [split; [discriminate | congruence] |].
    split; [lia |]. split; [discriminate |]. split; [discriminate |].
    exists 50. split; [reflexivity | lia].
  - unfold GameEngine.initGame.
    destruct (match team_decisions teamData with
              | Some catalog => 0 <? Z.of_nat (size catalog)
              | None => false
              end);
      apply invariant_after_score; simpl; try lia;
      try (split; [discriminate | congruence]);
      try (split; congruence);
      try (intros ? [= <-]; simpl; lia);
      try (intros ? [= <-]; exact Hideal); try discriminate.
  - destruct IH as (Hy & Hm & Hp & He & Ht & Hs).
    unfold GameEngine.setPayroll.
    destruct ((1 <=? year) && (year <=? 5));
      [| unfold Session.invariant; auto 10].
    apply invariant_after_score; simpl; try assumption.
    now rewrite length_insert.
  - unfold GameEngine.applyDecision.
    destruct (GameEngine.decisionEngine st) as [engine |] eqn:Heng;
      [| exact IH].
    destruct IH as (Hy & Hm & Hp & He & Ht & Hs).
    pose proof (applyDecision_slots engine year decisionId) as Hslots.
    specialize (He engine Heng).
    assert (Hmode : GameEngine.gameMode st = GameEngine.decisions)
      by (apply Hm; rewrite Heng; discriminate).
    destruct (DecisionEngine.applyDecision engine year decisionId)
      as [[d |] engine']; simpl in *.
    + apply invariant_after_score; simpl; try assumption.
      * split; [discriminate | intros _; exact Hmode].
      * rewrite length_getPayrollCurve. lia.
      * intros ? [= <-]. lia.
    + unfold Session.invariant. simpl.
      split; [assumption |].
      split; [split; [discriminate | intros _; exact Hmode] |].
      split; [assumption |].
      split; [intros ? [= <-]; lia |]. auto.
  - destruct IH as (Hy & Hm & Hp & He & Ht & Hs).
    simpl. apply invariant_after_score; simpl; assumption.
  - destruct IH as (Hy & Hm & Hp & He & Ht & Hs).
    unfold GameQueries.nextYear.
    destruct (Z.ltb_spec (GameEngine.currentYear st) 5);
      unfold Session.invariant; simpl; repeat (split; [first [assumption | lia] |]);
      assumption.
  - destruct IH as (Hy & Hm & Hp & He & Ht & Hs).
    unfold GameQueries.previousYear.
    destruct (Z.ltb_spec 1 (GameEngine.currentYear st));
      unfold Session.invariant; simpl; repeat (split; [first [assumption | lia] |]);
      assumption.
  - destruct IH as (Hy & Hm & Hp & He & Ht & Hs).
    unfold GameQueries.goToYear.
    destruct (Z.leb_spec 1 year), (Z.leb_spec year 5);
      unfold Session.invariant; simpl; repeat (split; [first [assumption | lia] |]);
      assumption.
Qed.

(** ** Statistics of a curve *)

Lemma foldl_min_lower (r : list Z) (a : Z) :
  foldl Z.min a r <= a /\ (forall y, In y r -> foldl Z.min a r <= y).
Proof.
  revert a. induction r as [| x r IH]; intros a; simpl.
  - split; [lia | tauto].
  - destruct (IH (Z.min a x)) as [Ha Hr]. split; [lia |].
    intros y [<- | Hy]; [lia | auto].
Qed.

Lemma foldl_min_member (r : list Z) (a : Z) :
  In (foldl Z.min a r) (a :: r).
Proof.
  revert a. induction r as [| x r IH]; intros a; simpl.
  - now left.
  - destruct (IH (Z.min a x)) as [H | H].
    + rewrite <- H.
      destruct (Z.min_spec a x) as [[_ ->] | [_ ->]]; auto.
    + auto.
Qed.

Lemma sum_between (l : list Z) (lo hi : Z) :
  (forall x, In x l -> lo <= x <= hi) ->
  lo * Z.of_nat (length l) <= foldr Z.add 0 l <= hi * Z.of_nat (length l).
Proof.
  induction l as [| x l IH]; intros Hall.
  - simpl. lia.
  - cbn [foldr length].
    pose proof (Hall x ltac:(now left)).
    pose proof (IH ltac:(intros y Hy; apply Hall; now right)).
    lia.
Qed.

(** Rounding a quotient of integers, in integer arithmetic. *)
Lemma Math_round_quotient (total : Z) (n : positive) :
  GameQueries.Math_round (Qdiv (inject_Z total) (inject_Z (Z.pos n)))
  = (2 * total + Z.pos n) / (2 * Z.pos n).
Proof.
  unfold GameQueries.Math_round.
  assert (Heq : Qeq (Qdiv (inject_Z total) (inject_Z (Z.pos n)) + (1 # 2))
                    ((2 * total + Z.pos n) # (2 * n))).
  { rewrite <- Qmake_Qdiv. unfold Qeq, Qplus. simpl. lia. }
  rewrite Heq. reflexivity.
Qed.

Lemma getPayrollCurve_after_apply (this : DecisionEngine.t) (year : Z)
      (decisionId : string) (d : DecisionOption) :
  DecisionEngine.findDecision this year decisionId = Some d ->
  1 <= year <= Z.of_nat (length (DecisionEngine.decisions this)) ->
  decisionId <> "" ->
  DecisionEngine.getPayrollCurve
    (snd (DecisionEngine.applyDecision this year decisionId))
  = <[Z.to_nat (year - 1) := payrollPercentage d]>
      (DecisionEngine.getPayrollCurve this).
Proof.
  intros Hfind Hyear Hid.
  assert (Hcur : DecisionEngine.getCurrentDecision
                   (snd (DecisionEngine.applyDecision this year decisionId)) year
                 = Some d).
  { unfold DecisionEngine.getCurrentDecision.
    rewrite (slot_after_apply_same _ _ _ _ Hfind) by lia.
    apply String.eqb_neq in Hid. rewrite Hid.
    rewrite <- Hfind. apply findDecision_team, applyDecision_team. }
  assert (Hslots : DecisionEngine.decisions
                     (snd (DecisionEngine.applyDecision this year decisionId))
                   = <[Z.to_nat (year - 1) := Some decisionId]>
                       (DecisionEngine.decisions this)).
  { rewrite (applyDecision_found _ _ _ _ Hfind). simpl. unfold array_set.
    destruct (Z.ltb_spec (year - 1) 0); [lia |].
    destruct (Z.ltb_spec (year - 1) (Z.of_nat (length (DecisionEngine.decisions this))));
      [reflexivity | lia]. }
  apply list_eq. intros i.
  rewrite getPayrollCurve_lookup, Hslots.
  destruct (decide (i = Z.to_nat (year - 1))) as [-> | Hne].
  - rewrite !list_lookup_insert_eq
      by (rewrite ?length_getPayrollCurve; lia).
    simpl. replace (Z.of_nat (Z.to_nat (year - 1)) + 1) with year by lia.
    now rewrite Hcur.
  - rewrite !list_lookup_insert_ne by congruence.
    rewrite getPayrollCurve_lookup.
    rewrite getCurrentDecision_after_apply_other by lia.
    reflexivity.
Qed.


Lemma found_decisions_team (e1 e2 : DecisionEngine.t) (calls : list (Z * string)) :
  DecisionEngine.team e1 = DecisionEngine.team e2 ->
  Session.found_decisions e1 calls = Session.found_decisions e2 calls.
Proof.
  intros Ht. unfold Session.found_decisions.
  induction calls as [| call calls IH]; [reflexivity |].
  cbn [omap list_omap]. rewrite IH.
  now rewrite (findDecision_team e1 e2 _ _ Ht).
Qed.

(** ** Rounding

    On five-slot curves with payrolls in the 0 to 150 range the test
    [curveVariance < 50] and the rounded average come out the same on
    doubles as in exact arithmetic. The exact variance is [spread / 25].
    When it is 50 the sum of the slots is a multiple of 5
    ([flatline_margin]) and every intermediate value is an integer, which
    is not rounded; otherwise it is at least 1/25 away from 50, and the
    accumulated rounding error is below 1e-8. *)
Section Rounding.

Variable rnd : Q -> Q.
Hypothesis rnd_accurate : Double.accurate rnd.
Hypothesis rnd_exact : Double.exact_on_integers rnd.

Local Open Scope Q_scope.

Lemma inject_small (z : Z) : (0 <= z <= 150)%Z -> 0 <= inject_Z z <= 150.
Proof.
  intros [H1 H2]. split.
  - change 0 with (inject_Z 0). now rewrite <- Zle_Qle.
  - change 150 with (inject_Z 150). now rewrite <- Zle_Qle.
Qed.

(** Adding an integer to an integer total is exact. *)
Lemma add_exact (total : Q) (t x : Z) :
  total == inject_Z t -> (Z.abs (t + x) <= 2 ^ 53)%Z ->
  rnd (total + inject_Z x) == inject_Z (t + x).
Proof.
  intros Ht Hb. apply rnd_exact; [| exact Hb].
  rewrite inject_Z_plus, Ht. reflexivity.
Qed.

Lemma sum_exact (a b c d e : Z) :
  (0 <= a <= 150)%Z -> (0 <= b <= 150)%Z -> (0 <= c <= 150)%Z ->
  (0 <= d <= 150)%Z -> (0 <= e <= 150)%Z ->
  foldl (fun s x => rnd (s + inject_Z x)) 0 [a; b; c; d; e]
  == inject_Z (a + b + c + d + e).
Proof.
  intros Ha Hb Hc Hd He. cbn [foldl].
  assert (H2 : (2 ^ 53 = 9007199254740992)%Z) by reflexivity.
  assert (H0 : 0 == inject_Z 0) by reflexivity.
  pose proof (add_exact 0 0 a H0 ltac:(lia)) as S1.
  pose proof (add_exact _ _ b S1 ltac:(lia)) as S2.
  pose proof (add_exact _ _ c S2 ltac:(lia)) as S3.
  pose proof (add_exact _ _ d S3 ltac:(lia)) as S4.
  pose proof (add_exact _ _ e S4 ltac:(lia)) as S5.
  rewrite S5. apply inject_Z_injective. lia.
Qed.

(** The rounded mean, against the exact one. *)
Lemma mean_close (total : Q) (total_z : Z) :
  total == inject_Z total_z -> (0 <= total_z <= 750)%Z ->
  - (1 # 1000000000000) <= rnd (total / 5) - inject_Z total_z / 5 <= 1 # 1000000000000.
Proof.
  intros Ht HS.
  assert (HQ : 0 <= inject_Z total_z <= 750).
  { destruct HS as [H1 H2]. split.
    - change 0 with (inject_Z 0). now rewrite <- Zle_Qle.
    - change 750 with (inject_Z 750). now rewrite <- Zle_Qle. }
  assert (Hq : - (150) <= total / 5 <= 150).
  { unfold Qdiv. change (/ 5) with (1 # 5). lra. }
  pose proof (rnd_accurate (total / 5) 150 Hq ltac:(lra)) as Herr.
  unfold Qdiv in *. change (/ 5) with (1 # 5) in *. lra.
Qed.

Lemma sq_nonneg (q : Q) : 0 <= q * q.
Proof. destruct q as [a b]. unfold Qle, Qmult. simpl. nia. Qed.

Lemma prod_bound (u v du dv : Q) :
  - du <= u <= du -> - dv <= v <= dv ->
  - (du * dv) <= u * v <= du * dv.
Proof.
  intros [Hu1 Hu2] [Hv1 Hv2].
  assert (H1 : 0 <= (du - u) * (dv - v)) by (apply Qmult_le_0_compat; lra).
  assert (H2 : 0 <= (du + u) * (dv + v)) by (apply Qmult_le_0_compat; lra).
  assert (H3 : 0 <= (du - u) * (dv + v)) by (apply Qmult_le_0_compat; lra).
  assert (H4 : 0 <= (du + u) * (dv - v)) by (apply Qmult_le_0_compat; lra).
  lra.
Qed.

(** One slot: the rounded squared deviation, against the exact one. *)
Lemma slot_close (x mean m : Q) :
  0 <= x <= 150 -> 0 <= m <= 150 ->
  - (1 # 1000000000000) <= mean - m <= 1 # 1000000000000 ->
  let diff := rnd (x - mean) in
  - (1 # 1000000000) <= rnd (diff * diff) - (x - m) * (x - m) <= 1 # 1000000000.
Proof.
  intros Hx Hm Hmean diff.
  assert (Hq : - (151) <= x - mean <= 151) by lra.
  pose proof (rnd_accurate (x - mean) 151 Hq ltac:(lra)) as Hd. fold diff in Hd.
  assert (Hdy : - (2 # 1000000000000) <= diff - (x - m) <= 2 # 1000000000000) by lra.
  assert (Hy : - (150) <= x - m <= 150) by lra.
  assert (Hsum : - (301) <= diff + (x - m) <= 301) by lra.
  pose proof (prod_bound _ _ _ _ Hdy Hsum) as Hp.
  assert (Hsq : - (7 # 10000000000) <= diff * diff - (x - m) * (x - m)
                <= 7 # 10000000000) by lra.
  pose proof (prod_bound _ _ _ _ Hy Hy) as Hp2.
  assert (H0 : 0 <= (x - m) * (x - m)) by apply sq_nonneg.
  assert (Hyy : 0 <= (x - m) * (x - m) <= 22500) by lra.
  assert (Hq2 : - (22501) <= diff * diff <= 22501) by lra.
  pose proof (rnd_accurate (diff * diff) 22501 Hq2 ltac:(lra)) as Hs.
  lra.
Qed.

(** One addition of the second sum. *)
Lemma add_close (total term T Y err : Q) :
  0 <= T <= 100000 -> 0 <= Y <= 22500 -> 0 <= err <= 1 # 100000000 ->
  - err <= total - T <= err ->
  - (1 # 1000000000) <= term - Y <= 1 # 1000000000 ->
  - (err + (2 # 1000000000)) <= rnd (total + term) - (T + Y)
  <= err + (2 # 1000000000).
Proof.
  intros HT HY Herr Ht Hy.
  assert (Hq : - (122501) <= total + term <= 122501) by lra.
  pose proof (rnd_accurate (total + term) 122501 Hq ltac:(lra)) as H.
  lra.
Qed.

Lemma sq_range (x m : Q) :
  0 <= x <= 150 -> 0 <= m <= 150 -> 0 <= (x - m) * (x - m) <= 22500.
Proof.
  intros Hx Hm.
  assert (Hy : - (150) <= x - m <= 150) by lra.
  pose proof (prod_bound _ _ _ _ Hy Hy) as Hp.
  pose proof (sq_nonneg (x - m)). lra.
Qed.

(** One slot when the mean is an integer: nothing is rounded. *)
Lemma slot_exact (x k : Z) (mean : Q) :
  mean == inject_Z k -> (0 <= x <= 150)%Z -> (0 <= k <= 150)%Z ->
  let diff := rnd (inject_Z x - mean) in
  rnd (diff * diff) == inject_Z ((x - k) * (x - k)).
Proof.
  intros Hmean Hx Hk diff.
  assert (H2 : (2 ^ 53 = 9007199254740992)%Z) by reflexivity.
  assert (Hd : diff == inject_Z (x - k)).
  { apply rnd_exact; [| lia].
    unfold Z.sub. rewrite inject_Z_plus, inject_Z_opp, Hmean. reflexivity. }
  apply rnd_exact; [| nia].
  rewrite inject_Z_mult, Hd. reflexivity.
Qed.

Lemma add_exact2 (total term : Q) (t y : Z) :
  total == inject_Z t -> term == inject_Z y -> (Z.abs (t + y) <= 2 ^ 53)%Z ->
  rnd (total + term) == inject_Z (t + y).
Proof.
  intros Ht Hy Hb. apply rnd_exact; [| exact Hb].
  rewrite inject_Z_plus, Ht, Hy. reflexivity.
Qed.

Lemma deviations_spread (a b c d e : Z) :
  let m := inject_Z (a + b + c + d + e) / 5 in
  ((inject_Z a - m) * (inject_Z a - m) + (inject_Z b - m) * (inject_Z b - m)
   + (inject_Z c - m) * (inject_Z c - m) + (inject_Z d - m) * (inject_Z d - m)
   + (inject_Z e - m) * (inject_Z e - m)) * (1 # 5)
  == inject_Z (Session.spread [a; b; c; d; e]) * (1 # 25).
Proof.
  intros m. subst m. rewrite spread_five. unfold Z.sub.
  repeat (rewrite inject_Z_plus || rewrite inject_Z_mult || rewrite inject_Z_opp).
  change (inject_Z 5) with 5.
  unfold Qdiv. change (/ 5) with (1 # 5). ring.
Qed.

Theorem variance_test_five (a b c d e : Z) :
  (0 <= a <= 150)%Z -> (0 <= b <= 150)%Z -> (0 <= c <= 150)%Z ->
  (0 <= d <= 150)%Z -> (0 <= e <= 150)%Z ->
  Double.calculateVariance rnd [a; b; c; d; e] < 50
  <-> (Session.spread [a; b; c; d; e] < 1250)%Z.
Proof.
  intros Ha Hb Hc Hd He.
  pose proof (flatline_margin a b c d e) as margin. cbv zeta in margin.
  pose proof (sum_exact a b c d e Ha Hb Hc Hd He) as Htotal.
  unfold Double.calculateVariance. cbn [length map].
  change (inject_Z (Z.of_nat 5)) with 5.
  set (total := foldl _ 0 [a; b; c; d; e]) in *.
  assert (HS : (0 <= a + b + c + d + e <= 750)%Z) by lia.
  set (mean := rnd (total / 5)).
  cbn [foldl].
  assert (H2 : (2 ^ 53 = 9007199254740992)%Z) by reflexivity.
  destruct margin as [[Heq Hmod] | Hne].
  - (* the variance is exactly 50: every intermediate value is an integer *)
    apply Z.mod_divide in Hmod; [| discriminate].
    destruct Hmod as [k Hk].
    assert (Hkr : (0 <= k <= 150)%Z) by lia.
    assert (Hmean : mean == inject_Z k).
    { apply rnd_exact; [| lia].
      rewrite Htotal, Hk, inject_Z_mult.
      change (inject_Z 5) with 5. field; discriminate. }
    pose proof (slot_exact a k mean Hmean Ha Hkr) as Sa.
    pose proof (slot_exact b k mean Hmean Hb Hkr) as Sb.
    pose proof (slot_exact c k mean Hmean Hc Hkr) as Sc.
    pose proof (slot_exact d k mean Hmean Hd Hkr) as Sd.
    pose proof (slot_exact e k mean Hmean He Hkr) as Se.
    cbv zeta in Sa, Sb, Sc, Sd, Se.
    assert (H0 : 0 == inject_Z 0) by reflexivity.
    pose proof (add_exact2 _ _ _ _ H0 Sa ltac:(nia)) as T1.
    pose proof (add_exact2 _ _ _ _ T1 Sb ltac:(nia)) as T2.
    pose proof (add_exact2 _ _ _ _ T2 Sc ltac:(nia)) as T3.
    pose proof (add_exact2 _ _ _ _ T3 Sd ltac:(nia)) as T4.
    pose proof (add_exact2 _ _ _ _ T4 Se ltac:(nia)) as T5.
    assert (Hkk : (k * (a + b + c + d + e) = 5 * k * k)%Z) by (rewrite Hk; ring).
    assert (Hss : ((a + b + c + d + e) * (a + b + c + d + e) = 25 * k * k)%Z)
      by (rewrite Hk; ring).
    rewrite spread_five in Heq.
    assert (HY : (0 + (a - k) * (a - k) + (b - k) * (b - k) + (c - k) * (c - k)
                  + (d - k) * (d - k) + (e - k) * (e - k) = 250)%Z) by lia.
    rewrite HY in T5.
    assert (Hv : rnd (rnd (rnd (rnd (rnd (rnd (0 + rnd (rnd (inject_Z a - mean) * rnd (inject_Z a - mean)))
                 + rnd (rnd (inject_Z b - mean) * rnd (inject_Z b - mean)))
                 + rnd (rnd (inject_Z c - mean) * rnd (inject_Z c - mean)))
                 + rnd (rnd (inject_Z d - mean) * rnd (inject_Z d - mean)))
                 + rnd (rnd (inject_Z e - mean) * rnd (inject_Z e - mean))) / 5)
                 == inject_Z 50).
    { apply rnd_exact; [| lia]. rewrite T5. reflexivity. }
    rewrite Hv. rewrite spread_five. split.
    + intros H. exfalso. revert H. apply Qlt_irrefl.
    + intros H. lia.
  - (* otherwise it is at least 1/25 away from 50 *)
    pose proof (mean_close total _ Htotal HS) as Hm. fold mean in Hm.
    pose proof (deviations_spread a b c d e) as Hid. cbv zeta in Hid.
    set (m := inject_Z (a + b + c + d + e) / 5) in *.
    assert (Hmr : 0 <= m <= 150).
    { assert (HQ : 0 <= inject_Z (a + b + c + d + e) <= 750).
      { destruct HS as [H1 H3]. split.
        - change 0 with (inject_Z 0). now rewrite <- Zle_Qle.
        - change 750 with (inject_Z 750). now rewrite <- Zle_Qle. }
      subst m. unfold Qdiv. change (/ 5) with (1 # 5). lra. }
    pose proof (slot_close _ mean m (inject_small a Ha) Hmr Hm) as Sa.
    pose proof (slot_close _ mean m (inject_small b Hb) Hmr Hm) as Sb.
    pose proof (slot_close _ mean m (inject_small c Hc) Hmr Hm) as Sc.
    pose proof (slot_close _ mean m (inject_small d Hd) Hmr Hm) as Sd.
    pose proof (slot_close _ mean m (inject_small e He) Hmr Hm) as Se.
    cbv zeta in Sa, Sb, Sc, Sd, Se.
    pose proof (sq_range _ m (inject_small a Ha) Hmr) as Ra.
    pose proof (sq_range _ m (inject_small b Hb) Hmr) as Rb.
    pose proof (sq_range _ m (inject_small c Hc) Hmr) as Rc.
    pose proof (sq_range _ m (inject_small d Hd) Hmr) as Rd.
    pose proof (sq_range _ m (inject_small e He) Hmr) as Re.
    set (Ya := (inject_Z a - m) * (inject_Z a - m)) in *.
    set (Yb := (inject_Z b - m) * (inject_Z b - m)) in *.
    set (Yc := (inject_Z c - m) * (inject_Z c - m)) in *.
    set (Yd := (inject_Z d - m) * (inject_Z d - m)) in *.
    set (Ye := (inject_Z e - m) * (inject_Z e - m)) in *.
    set (qa := rnd (rnd (inject_Z a - mean) * rnd (inject_Z a - mean))) in *.
    set (qb := rnd (rnd (inject_Z b - mean) * rnd (inject_Z b - mean))) in *.
    set (qc := rnd (rnd (inject_Z c - mean) * rnd (inject_Z c - mean))) in *.
    set (qd := rnd (rnd (inject_Z d - mean) * rnd (inject_Z d - mean))) in *.
    set (qe := rnd (rnd (inject_Z e - mean) * rnd (inject_Z e - mean))) in *.
    pose proof (add_close 0 qa 0 Ya 0 ltac:(lra) Ra ltac:(lra) ltac:(lra) Sa) as T1.
    pose proof (fun H1 H3 => add_close _ qb _ Yb _ H1 Rb H3 T1 Sb) as T2.
    specialize (T2 ltac:(lra) ltac:(lra)).
    pose proof (fun H1 H3 => add_close _ qc _ Yc _ H1 Rc H3 T2 Sc) as T3.
    specialize (T3 ltac:(lra) ltac:(lra)).
    pose proof (fun H1 H3 => add_close _ qd _ Yd _ H1 Rd H3 T3 Sd) as T4.
    specialize (T4 ltac:(lra) ltac:(lra)).
    pose proof (fun H1 H3 => add_close _ qe _ Ye _ H1 Re H3 T4 Se) as T5.
    specialize (T5 ltac:(lra) ltac:(lra)).
    set (t5 := rnd (rnd (rnd (rnd (rnd (0 + qa) + qb) + qc) + qd) + qe)) in *.
    assert (Hq : - (22501) <= t5 / 5 <= 22501).
    { unfold Qdiv. change (/ 5) with (1 # 5). lra. }
    pose proof (rnd_accurate (t5 / 5) 22501 Hq ltac:(lra)) as Hv.
    unfold Qdiv in Hv |- *. change (/ 5) with (1 # 5) in Hv |- *.
    destruct Hne as [Hlow | Hhigh].
    + assert (HQ : inject_Z (Session.spread [a; b; c; d; e]) <= 1249)
        by (change 1249 with (inject_Z 1249); now rewrite <- Zle_Qle).
      split; [intros _; lia | intros _; lra].
    + assert (HQ : 1251 <= inject_Z (Session.spread [a; b; c; d; e]))
        by (change 1251 with (inject_Z 1251); now rewrite <- Zle_Qle).
      split; [intros H; exfalso; lra | intros H; lia].
Qed.

Lemma floor_unique (q : Q) (z : Z) :
  inject_Z z <= q -> q < inject_Z (z + 1) -> Qfloor q = z.
Proof.
  intros Hlo Hhi.
  pose proof (Qfloor_le q) as H1. pose proof (Qlt_floor q) as H2.
  assert (H3 : (Qfloor q < z + 1)%Z).
  { rewrite Zlt_Qlt. eapply Qle_lt_trans; eassumption. }
  assert (H4 : (z < Qfloor q + 1)%Z).
  { rewrite Zlt_Qlt. eapply Qle_lt_trans; eassumption. }
  lia.
Qed.

Theorem average_five (a b c d e : Z) :
  (0 <= a <= 150)%Z -> (0 <= b <= 150)%Z -> (0 <= c <= 150)%Z ->
  (0 <= d <= 150)%Z -> (0 <= e <= 150)%Z ->
  Double.average rnd [a; b; c; d; e]
  = ((2 * (a + b + c + d + e) + 5) / 10)%Z.
Proof.
  intros Ha Hb Hc Hd He.
  pose proof (sum_exact a b c d e Ha Hb Hc Hd He) as Htotal.
  unfold Double.average. cbn [length].
  change (inject_Z (Z.of_nat 5)) with 5.
  set (total := foldl _ 0 [a; b; c; d; e]) in *.
  set (total_z := (a + b + c + d + e)%Z) in *.
  assert (HS : (0 <= total_z <= 750)%Z) by (subst total_z; lia).
  pose proof (mean_close total total_z Htotal HS) as Hm.
  set (mean := rnd (total / 5)) in *.
  pose proof (Z.div_mod total_z 5 ltac:(discriminate)) as Hdiv.
  pose proof (Z.mod_pos_bound total_z 5 ltac:(lia)) as Hr.
  set (k := (total_z / 5)%Z) in *. set (r := (total_z mod 5)%Z) in *.
  clearbody k r.
  assert (HSQ : inject_Z total_z == 5 * inject_Z k + inject_Z r).
  { rewrite Hdiv, inject_Z_plus, inject_Z_mult. reflexivity. }
  unfold Qdiv in Hm. change (/ 5) with (1 # 5) in Hm.
  assert (Hcases : r = 0%Z \/ r = 1%Z \/ r = 2%Z \/ r = 3%Z \/ r = 4%Z) by lia.
  destruct Hcases as [E | [E | [E | [E | E]]]]; rewrite E in *.
  - (* the quotient is the integer [k]: nothing is rounded *)
    assert (Hmean : mean == inject_Z k).
    { apply rnd_exact; [| change (2 ^ 53)%Z with 9007199254740992%Z; lia].
      rewrite Htotal, HSQ. change (inject_Z 0) with 0. field; discriminate. }
    replace ((2 * total_z + 5) / 10)%Z with k
      by (Z.to_euclidean_division_equations; lia).
    apply floor_unique; rewrite ?inject_Z_plus; change (inject_Z 1) with 1; lra.
  - (* otherwise it is at least 1/10 away from a half-integer *)
    replace ((2 * total_z + 5) / 10)%Z with k
      by (Z.to_euclidean_division_equations; lia).
    change (inject_Z 1) with 1 in HSQ.
    apply floor_unique; rewrite ?inject_Z_plus; change (inject_Z 1) with 1; lra.
  - replace ((2 * total_z + 5) / 10)%Z with k
      by (Z.to_euclidean_division_equations; lia).
    change (inject_Z 2) with 2 in HSQ.
    apply floor_unique; rewrite ?inject_Z_plus; change (inject_Z 1) with 1; lra.
  - replace ((2 * total_z + 5) / 10)%Z with (k + 1)%Z
      by (Z.to_euclidean_division_equations; lia).
    change (inject_Z 3) with 3 in HSQ.
    apply floor_unique; rewrite ?inject_Z_plus; change (inject_Z 1) with 1; lra.
  - replace ((2 * total_z + 5) / 10)%Z with (k + 1)%Z
      by (Z.to_euclidean_division_equations; lia).
    change (inject_Z 4) with 4 in HSQ.
    apply floor_unique; rewrite ?inject_Z_plus; change (inject_Z 1) with 1; lra.
Qed.

(** The two computations of the program, on doubles and in the exact
    arithmetic of the embedding, agree on five-slot curves in the 0 to 150
    range. *)
Lemma variance_test_rounding (curve : list Z) :
  length curve = 5%nat -> Spec.plausible curve ->
  Double.calculateVariance rnd curve < 50
  <-> variance_below_50 (calculateVariance curve) = true.
Proof.
  intros Hlen Hrange.
  destruct (exactly_five curve Hlen) as (a & b & c & d & e & ->).
  rewrite flatline_spread.
  apply variance_test_five; apply Hrange; simpl; tauto.
Qed.

Lemma average_rounding (curve : list Z) :
  length curve = 5%nat -> Spec.plausible curve ->
  Double.average rnd curve
  = GameQueries.Math_round
      (Qdiv (inject_Z (foldl Z.add 0%Z curve))
            (inject_Z (Z.of_nat (length curve)))).
Proof.
  intros Hlen Hrange.
  destruct (exactly_five curve Hlen) as (a & b & c & d & e & ->).
  rewrite average_five by (apply Hrange; simpl; tauto).
  cbn [length foldl]. change (Z.of_nat 5) with (Z.pos 5).
  rewrite Math_round_quotient. f_equal; lia.
Qed.

End Rounding.

(** Exact arithmetic is one instance of the two properties; with it
    [Double.calculateVariance] is the variance of the embedding. *)
Lemma identity_accurate : Double.accurate (fun q => q).
Proof.
  intros q bound Hq Hb. simpl. lra.
Qed.

Lemma identity_exact_on_integers : Double.exact_on_integers (fun q => q).
Proof.
  intros q z Hq _. exact Hq.
Qed.

(** * The claims *)

(** C1, at the scenario of section 8. Five win-now-heavy decisions with
    payrolls 90, 95, 100, 70, 60 resolve to the path [winNow], but the
    curve earns 73 points, below the 85 the claim promises; no curve earns
    more under [winNow], so the game ends in the silver tier. *)
Theorem C1_winNow_scenario_scores_73 :
  GameEngine.getDeterminedPath Sample.winNow_game = Some WinNow
  /\ GameEngine.payrollDecisions Sample.winNow_game = [90; 95; 100; 70; 60]
  /\ scoreByPath "winNow" (GameEngine.payrollDecisions Sample.winNow_game) = 73
  /\ GameEngine.tier (fst (GameEngine.finishGame Sample.winNow_game))
     = Some "SILVER"
  /\ (forall curve : list Z, scoreByPath "winNow" curve <= 73).
Proof.
  split; [vm_compute; reflexivity |].
  split; [vm_compute; reflexivity |].
  split; [vm_compute; reflexivity |].
  split; [vm_compute; reflexivity |].
  exact scoreByPath_winNow_at_most_73.
Qed.

(** C2. For every pair of five-element sequences of numbers in the
    plausible 0 to 150 range, the slider-mode score equals the reference
    computation of section 4.1: the sum of the per-year points from the
    breakpoints on [|curve[i] - target[i]|], less 15 (not below 0) when
    the population variance of the curve is below 50, plus 5 when the
    first index of the maximum agrees in the two sequences, clamped to
    [0, 100]. In that range the program's double arithmetic decides
    [curveVariance < 50] as the exact arithmetic of the embedding does
    ([variance_test_rounding]). *)
Theorem C2_scoreAgainstTarget_reference (curve target : list Z) :
  length curve = 5%nat ->
  length target = 5%nat ->
  Spec.plausible curve ->
  Spec.plausible target ->
  scoreAgainstTarget curve target = Num (Spec.reference_score curve target).
Proof.
  intros Hc Ht _ _.
  destruct (exactly_five curve Hc) as (a1 & a2 & a3 & a4 & a5 & ->).
  destruct (exactly_five target Ht) as (b1 & b2 & b3 & b4 & b5 & ->).
  unfold scoreAgainstTarget, Spec.reference_score.
  rewrite sliderTotal_five.
  rewrite variance_below_50_flatline by discriminate.
  rewrite peak_test_agrees.
  unfold bool_decide, clamp_score, Spec.clamp.
  destruct (Spec.flatline _), (decide_rel _ _ _); reflexivity.
Qed.

Lemma C2_witness :
  length [50; 50; 50; 50; 50] = 5%nat
  /\ length [60; 75; 100; 80; 60] = 5%nat
  /\ Spec.plausible [50; 50; 50; 50; 50]
  /\ Spec.plausible [60; 75; 100; 80; 60]
  /\ scoreAgainstTarget [50; 50; 50; 50; 50] [60; 75; 100; 80; 60]
     = Num (Spec.reference_score [50; 50; 50; 50; 50] [60; 75; 100; 80; 60]).
Proof.
  assert (H1 : Spec.plausible [50; 50; 50; 50; 50])
    by (intros x Hx; apply in_five in Hx; lia).
  assert (H2 : Spec.plausible [60; 75; 100; 80; 60])
    by (intros x Hx; apply in_five in Hx; lia).
  split; [reflexivity |]. split; [reflexivity |].
  split; [exact H1 |]. split; [exact H2 |].
  apply (C2_scoreAgainstTarget_reference
           [50; 50; 50; 50; 50] [60; 75; 100; 80; 60]);
    [reflexivity | reflexivity | exact H1 | exact H2].
Defined.

(** C3, as the program has it. For every five-element curve of numbers
    in the plausible 0 to 150 range scored against itself the score is 100
    when the population variance is at least 50 and 90 when it is below
    50: the flatline penalty of 15 applies exactly then, and the peak
    bonus of 5 always applies because the two peaks coincide. In
    particular [75,75,75,75,75] against itself scores 90. *)
Theorem C3_matching_curve_score :
  (forall curve : list Z,
      length curve = 5%nat ->
      Spec.plausible curve ->
      scoreAgainstTarget curve curve
      = Num (if Spec.flatline curve then 90 else 100))
  /\ scoreAgainstTarget [75; 75; 75; 75; 75] [75; 75; 75; 75; 75] = Num 90.
Proof.
  split; [| vm_compute; reflexivity].
  intros curve Hc _.
  destruct (exactly_five curve Hc) as (a1 & a2 & a3 & a4 & a5 & ->).
  unfold scoreAgainstTarget.
  rewrite sliderTotal_five, Z.eqb_refl.
  rewrite variance_below_50_flatline by discriminate.
  cbv [Spec.base_points zip_with foldr].
  rewrite !Z.sub_diag.
  destruct (Spec.flatline _); reflexivity.
Qed.

Lemma C3_witness :
  length [60; 75; 100; 80; 60] = 5%nat
  /\ Spec.plausible [60; 75; 100; 80; 60]
  /\ scoreAgainstTarget [60; 75; 100; 80; 60] [60; 75; 100; 80; 60]
     = Num (if Spec.flatline [60; 75; 100; 80; 60] then 90 else 100).
Proof.
  assert (H : Spec.plausible [60; 75; 100; 80; 60])
    by (intros x Hx; apply in_five in Hx; lia).
  split; [reflexivity |]. split; [exact H |].
  apply (proj1 C3_matching_curve_score [60; 75; 100; 80; 60]);
    [reflexivity | exact H].
Defined.

(** C3 as stated fails: the constant curve 75 against itself does not
    score 85. *)
Lemma C3_counterexample :
  scoreAgainstTarget [75; 75; 75; 75; 75] [75; 75; 75; 75; 75] <> Num 85.
Proof. vm_compute. discriminate. Qed.

(** C4. For every triple of accumulators [determinePath] follows the four
    rules in order: hybrid when it equals the maximum and exceeds the
    smaller of the other two; else winNow when it equals the maximum and
    exceeds rebuild; else rebuild when it equals the maximum; else hybrid.
    The rules name exactly one path, the one returned. *)
Theorem C4_determinePath_resolution (this : DecisionEngine.t) (p : Path) :
  Spec.resolves (DecisionEngine.pathScores this) p
  <-> DecisionEngine.determinePath this = p.
Proof.
  unfold DecisionEngine.determinePath.
  set (s := DecisionEngine.pathScores this).
  assert (Hh : ((hybrid s =? Z.max (Z.max (winNow s) (rebuild s)) (hybrid s))
                && (Z.min (winNow s) (rebuild s) <? hybrid s)) = true
               <-> Spec.rule_hybrid s).
  { unfold Spec.rule_hybrid.
    rewrite andb_true_iff, Z.eqb_eq, Z.ltb_lt. tauto. }
  assert (Hw : ((winNow s =? Z.max (Z.max (winNow s) (rebuild s)) (hybrid s))
                && (rebuild s <? winNow s)) = true
               <-> Spec.rule_winNow s).
  { unfold Spec.rule_winNow.
    rewrite andb_true_iff, Z.eqb_eq, Z.ltb_lt. tauto. }
  assert (Hr : (rebuild s =? Z.max (Z.max (winNow s) (rebuild s)) (hybrid s)) = true
               <-> Spec.rule_rebuild s).
  { unfold Spec.rule_rebuild. apply Z.eqb_eq. }
  destruct (_ && _) eqn:E1 in |- *.
  { apply Hh in E1. split; [| intros <-; now constructor].
    inversion 1; subst; tauto. }
  assert (N1 : ~ Spec.rule_hybrid s) by (rewrite <- Hh; congruence).
  destruct (_ && _) eqn:E2 in |- *.
  { apply Hw in E2. split; [| intros <-; now constructor].
    inversion 1; subst; tauto. }
  assert (N2 : ~ Spec.rule_winNow s) by (rewrite <- Hw; congruence).
  destruct (_ =? _) eqn:E3 in |- *.
  { apply Hr in E3. split; [| intros <-; now constructor].
    inversion 1; subst; tauto. }
  assert (N3 : ~ Spec.rule_rebuild s) by (rewrite <- Hr; congruence).
  split; [| intros <-; now apply Spec.resolves_default].
  inversion 1; subst; tauto.
Qed.

(** C5, on the three triples of section 8. With all three accumulators at
    10 the code returns [rebuild], not the [hybrid] the claim states; the
    other two triples give [winNow] and [rebuild] as stated. *)
Theorem C5_determinePath_examples :
  DecisionEngine.pathScores (Sample.scored_engine 10 10 10)
  = {| winNow := 10; rebuild := 10; hybrid := 10 |}
  /\ DecisionEngine.determinePath (Sample.scored_engine 10 10 10) = Rebuild
  /\ DecisionEngine.determinePath (Sample.scored_engine 12 10 10) = WinNow
  /\ DecisionEngine.determinePath (Sample.scored_engine 5 12 5) = Rebuild.
Proof. repeat split; vm_compute; reflexivity. Qed.

(** C6. Tier, reward code and XP are a fixed function of the final
    score and of the mode and path. For every score and every path (none
    in slider mode) the selection made in [finishGame] is the table of
    section 6: 85 and above gold, 70 to 84 silver, 55 to 69 bronze, below
    55 no tier, no code and no XP; the codes are CURVE-301-GOLD, -SILVER,
    -BRONZE in slider mode and, in decision mode, CHAMPION / ARCHITECT /
    STRATEGIST for gold, CONTENDER / BUILDER / NEGOTIATOR for silver and
    SPENDER / DEVELOPER / BALANCED for bronze (winNow / rebuild / hybrid);
    the XP is 250, 175, 125. [finishGame] applies this selection to the
    recomputed health score and to the resolved path. Scores 84, 85, 54,
    55 give silver, gold, no tier, bronze. The program stores the tier
    under the upper-case keys of [CLAIM_CODES], and [null] for no tier. *)
Theorem C6_tier_and_reward_code :
  (forall (s : Z) (path : option Path),
      let result := GameEngine.reward (Num s) path in
      GameEngine.score result = Num s
      /\ GameEngine.path result = path
      /\ GameEngine.tier result = Spec.tier_label (Spec.tierFor s)
      /\ GameEngine.claimCode result = Spec.reward_code (Spec.tierFor s) path
      /\ GameEngine.xp result = Spec.tier_xp (Spec.tierFor s))
  /\ (forall st : GameEngine.State,
         fst (GameEngine.finishGame st)
         = GameEngine.reward
             (GameEngine.healthScore (snd (GameEngine.finishGame st)))
             (option_map DecisionEngine.determinePath
                (GameEngine.decision_mode_engine st)))
  /\ (forall (st : GameEngine.State) (s : Z),
         let result := fst (GameEngine.finishGame st) in
         GameEngine.score result = Num s ->
         GameEngine.path result
         = option_map DecisionEngine.determinePath
             (GameEngine.decision_mode_engine st)
         /\ GameEngine.tier result = Spec.tier_label (Spec.tierFor s)
         /\ GameEngine.claimCode result
            = Spec.reward_code (Spec.tierFor s) (GameEngine.path result)
         /\ GameEngine.xp result = Spec.tier_xp (Spec.tierFor s)
         /\ (s = 84 -> GameEngine.tier result = Some "SILVER")
         /\ (s = 85 -> GameEngine.tier result = Some "GOLD")
         /\ (s = 54 -> GameEngine.tier result = None)
         /\ (s = 55 -> GameEngine.tier result = Some "BRONZE"))
  /\ (forall path : option Path,
         GameEngine.tier (GameEngine.reward (Num 84) path) = Some "SILVER"
         /\ GameEngine.tier (GameEngine.reward (Num 85) path) = Some "GOLD"
         /\ GameEngine.tier (GameEngine.reward (Num 54) path) = None
         /\ GameEngine.tier (GameEngine.reward (Num 55) path) = Some "BRONZE").
Proof.
  assert (Htable : forall (s : Z) (path : option Path),
             let result := GameEngine.reward (Num s) path in
             GameEngine.score result = Num s
             /\ GameEngine.path result = path
             /\ GameEngine.tier result = Spec.tier_label (Spec.tierFor s)
             /\ GameEngine.claimCode result
                = Spec.reward_code (Spec.tierFor s) path
             /\ GameEngine.xp result = Spec.tier_xp (Spec.tierFor s)).
  { intros s path. unfold GameEngine.reward, ge, le, Spec.tierFor.
    destruct (85 <=? s);
      [| destruct (70 <=? s); [| destruct (55 <=? s)]];
      (destruct path as [[| |] |]; repeat split). }
  assert (Hfinish : forall st : GameEngine.State,
             fst (GameEngine.finishGame st)
             = GameEngine.reward
                 (GameEngine.healthScore (snd (GameEngine.finishGame st)))
                 (option_map DecisionEngine.determinePath
                    (GameEngine.decision_mode_engine st))).
  { intros st. unfold GameEngine.finishGame. cbn [fst snd].
    change (GameEngine.decision_mode_engine
              (GameEngine.calculateHealthScore
                 (GameEngine.set_isGameComplete st true)))
      with (GameEngine.decision_mode_engine st).
    destruct (GameEngine.decision_mode_engine st); reflexivity. }
  split; [exact Htable |]. split; [exact Hfinish |].
  split.
  - intros st s result Hscore. subst result.
    rewrite Hfinish in *.
    destruct (GameEngine.healthScore (snd (GameEngine.finishGame st)))
      as [z |] eqn:Hz.
    + destruct (Htable z (option_map DecisionEngine.determinePath
                            (GameEngine.decision_mode_engine st)))
        as (Hs & Hp & Ht & Hc & Hx).
      cbv zeta in Hs, Hp, Ht, Hc, Hx.
      rewrite Hs in Hscore. injection Hscore as ->.
      rewrite Hp.
      repeat split; try assumption; intros ->; rewrite Ht; reflexivity.
    + discriminate Hscore.
  - intros path. repeat split.
Qed.

Lemma C6_witness :
  GameEngine.score (fst (GameEngine.finishGame Sample.steady_game)) = Num 85
  /\ GameEngine.tier (fst (GameEngine.finishGame Sample.steady_game))
     = Some "GOLD"
  /\ GameEngine.claimCode (fst (GameEngine.finishGame Sample.steady_game))
     = Spec.reward_code (Spec.tierFor 85)
         (GameEngine.path (fst (GameEngine.finishGame Sample.steady_game))).
Proof.
  assert (Hscore : GameEngine.score (fst (GameEngine.finishGame Sample.steady_game))
                   = Num 85) by (vm_compute; reflexivity).
  destruct (proj1 (proj2 (proj2 C6_tier_and_reward_code))
              Sample.steady_game 85 Hscore)
    as (_ & _ & Hcode & _ & _ & Hgold & _).
  split; [exact Hscore |].
  split; [exact (Hgold eq_refl) | exact Hcode].
Defined.




(** C8, as the program has it. Nothing is raised; a call the claim wants
    rejected is a silent no-op. [setPayroll] with a year outside 1..5
    returns the state as it was. [getAvailableDecisions] for a year the
    catalog has no entry for returns the empty list (it is a query and
    mutates nothing). [applyDecision] with an id the year's list does not
    contain returns [null] and leaves the engine, hence the year slots, the
    active tags and the accumulators, and the game state with its payroll
    curve, as they were. *)
Theorem C8_silent_no_op :
  (forall (st : GameEngine.State) (year payrollPercent : Z),
      ~ (1 <= year <= 5) ->
      GameEngine.setPayroll st year payrollPercent = st)
  /\ (forall (this : DecisionEngine.t) (year : Z),
         DecisionEngine.catalog_entry this year = None ->
         DecisionEngine.getAvailableDecisions this year = [])
  /\ (forall (this : DecisionEngine.t) (year : Z) (decisionId : string),
         (forall d, In d (DecisionEngine.getAllDecisions this year) ->
                    decision_id d <> decisionId) ->
         DecisionEngine.applyDecision this year decisionId = (None, this))
  /\ (forall (st : GameEngine.State) (year : Z) (decisionId : string),
         (forall engine d,
             GameEngine.decisionEngine st = Some engine ->
             In d (DecisionEngine.getAllDecisions engine year) ->
             decision_id d <> decisionId) ->
         GameEngine.applyDecision st year decisionId = (None, st)).
Proof.
  split; [exact setPayroll_out_of_range |].
  split.
  { intros this year Hnone. unfold DecisionEngine.getAvailableDecisions.
    rewrite Hnone. reflexivity. }
  split.
  { intros this year decisionId Hunknown.
    apply applyDecision_missing, findDecision_unknown, Hunknown. }
  intros st year decisionId Hunknown.
  apply GameEngine_applyDecision_unknown.
  intros engine He. apply findDecision_unknown.
  intros d Hd. exact (Hunknown engine d He Hd).
Qed.

Lemma C8_witness :
  GameEngine.setPayroll Sample.slider_start 6 80 = Sample.slider_start
  /\ DecisionEngine.getAvailableDecisions
       (DecisionEngine.new Sample.winNow_team) 6 = []
  /\ DecisionEngine.applyDecision (DecisionEngine.new Sample.winNow_team) 1 "Z"
     = (None, DecisionEngine.new Sample.winNow_team)
  /\ GameEngine.applyDecision (GameEngine.initGame Sample.winNow_team) 1 "Z"
     = (None, GameEngine.initGame Sample.winNow_team).
Proof.
  destruct C8_silent_no_op as (Hset & Havail & Happly & Hgame).
  split; [apply Hset; lia |].
  split; [apply Havail; vm_compute; reflexivity |].
  split.
  - apply Happly. intros d [<- | []]. vm_compute. discriminate.
  - apply Hgame. intros engine d [= <-] [<- | []]. vm_compute. discriminate.
Defined.

(** C8 as stated fails: year 6 is not rejected. A catalog that carries an
    entry under 6 is served from it, and [setPayroll] with year 6 returns
    the very state that an accepted call returns. *)
Lemma C8_counterexample :
  ~ (1 <= 6 <= 5)
  /\ DecisionEngine.getAvailableDecisions
       (DecisionEngine.new Sample.six_year_team) 6 = [Sample.option_F]
  /\ GameEngine.setPayroll Sample.slider_start 6 80
     = GameEngine.setPayroll Sample.slider_start 1 70.
Proof.
  split; [lia |].
  split; vm_compute; reflexivity.
Qed.

(** C9. Within one session the active tag set only grows under any
    sequence of [applyDecision] calls; one successful call adds the
    option's lock and unlock tags and adds its weights to the accumulators;
    re-applying a year keeps the earlier choice's tags and leaves its
    weights in the accumulators next to the new ones. *)
Theorem C9_tags_and_weights_only_grow :
  (forall (this : DecisionEngine.t) (calls : list (Z * string)),
      DecisionEngine.activeFlags this
      ⊆ DecisionEngine.activeFlags (Spec.apply_all this calls))
  /\ (forall (this : DecisionEngine.t) (year : Z) (decisionId : string)
             (d : DecisionOption),
         DecisionEngine.findDecision this year decisionId = Some d ->
         let this' := snd (DecisionEngine.applyDecision this year decisionId) in
         DecisionEngine.activeFlags this'
         = DecisionEngine.activeFlags this ∪ Spec.tags_of d
         /\ DecisionEngine.pathScores this'
            = {| winNow := winNow (DecisionEngine.pathScores this)
                           + Spec.weight_of "winNow" (pathWeights d);
                 rebuild := rebuild (DecisionEngine.pathScores this)
                            + Spec.weight_of "rebuild" (pathWeights d);
                 hybrid := hybrid (DecisionEngine.pathScores this)
                           + Spec.weight_of "hybrid" (pathWeights d) |})
  /\ (forall (this : DecisionEngine.t) (year : Z) (id1 id2 : string)
             (d1 d2 : DecisionOption),
         DecisionEngine.findDecision this year id1 = Some d1 ->
         DecisionEngine.findDecision this year id2 = Some d2 ->
         let this'' := Spec.apply_all this [(year, id1); (year, id2)] in
         Spec.tags_of d1 ⊆ DecisionEngine.activeFlags this''
         /\ DecisionEngine.pathScores this''
            = {| winNow := winNow (DecisionEngine.pathScores this)
                           + Spec.weight_of "winNow" (pathWeights d1)
                           + Spec.weight_of "winNow" (pathWeights d2);
                 rebuild := rebuild (DecisionEngine.pathScores this)
                            + Spec.weight_of "rebuild" (pathWeights d1)
                            + Spec.weight_of "rebuild" (pathWeights d2);
                 hybrid := hybrid (DecisionEngine.pathScores this)
                           + Spec.weight_of "hybrid" (pathWeights d1)
                           + Spec.weight_of "hybrid" (pathWeights d2) |}).
Proof.
  split; [intros this calls; apply apply_all_flags_grow |].
  split.
  - intros this year decisionId d Hfind this'. subst this'.
    rewrite (applyDecision_found _ _ _ _ Hfind). simpl. split; reflexivity.
  - intros this year id1 id2 d1 d2 H1 H2 this''. subst this''.
    unfold Spec.apply_all. simpl.
    pose proof (applyDecision_team this year id1) as Hteam.
    rewrite (applyDecision_found _ _ _ _ H1) in *. simpl in Hteam.
    erewrite applyDecision_found
      by (erewrite findDecision_team; [exact H2 | exact Hteam]).
    simpl. split; [| reflexivity].
    etrans; [apply union_subseteq_r | apply union_subseteq_l].
Qed.

Lemma C9_witness :
  Spec.tags_of Sample.option_star
  ⊆ DecisionEngine.activeFlags
      (Spec.apply_all (DecisionEngine.new Sample.tagged_team)
         [(1, "sign_star"); (1, "draft_youth")])
  /\ DecisionEngine.pathScores
       (Spec.apply_all (DecisionEngine.new Sample.tagged_team)
          [(1, "sign_star"); (1, "draft_youth")])
     = {| winNow := 0 + 25 + -10; rebuild := 0 + -15 + 25; hybrid := 0 + 5 + 5 |}.
Proof.
  exact (proj2 (proj2 C9_tags_and_weights_only_grow)
           (DecisionEngine.new Sample.tagged_team) 1 "sign_star" "draft_youth"
           Sample.option_star Sample.option_youth eq_refl eq_refl).
Defined.

(** C10. [scoreByPath] is total in its path argument: every name other
    than "winNow" and "rebuild", the three known names or not, is scored by
    the hybrid branch, on every curve. *)
Theorem C10_scoreByPath_other_names (pathName : string) (curve : list Z) :
  pathName <> "winNow" ->
  pathName <> "rebuild" ->
  scoreByPath pathName curve = scoreByPath "hybrid" curve.
Proof.
  intros Hw Hr. unfold scoreByPath.
  apply String.eqb_neq in Hw, Hr. rewrite Hw, Hr. reflexivity.
Qed.

Lemma C10_witness :
  "balanced" <> "winNow" /\ "balanced" <> "rebuild"
  /\ scoreByPath "balanced" [75; 75; 75; 75; 75]
     = scoreByPath "hybrid" [75; 75; 75; 75; 75].
Proof.
  split; [discriminate |]. split; [discriminate |].
  apply (C10_scoreByPath_other_names "balanced" [75; 75; 75; 75; 75]);
    discriminate.
Defined.

(** * Further properties of the engine *)

(** ** Slider scoring *)

(** X1. The points of one year never rise as the distance from the ideal
    value grows; they are 20 exactly up to a distance of 5 and 0 exactly
    from a distance of 70 on. *)
Theorem X1_yearScore_shape (d1 d2 : Z) :
  d1 <= d2 ->
  exists p1 p2,
    yearScore (Num d1) = Num p1 /\ yearScore (Num d2) = Num p2
    /\ 0 <= p2 <= p1 /\ p1 <= 20
    /\ (p1 = 20 <-> d1 <= 5) /\ (p1 = 0 <-> 70 <= d1).
Proof.
  intros Hle. rewrite !yearScore_Num.
  exists (Spec.year_points d1), (Spec.year_points d2).
  split; [reflexivity |]. split; [reflexivity |].
  pose proof (div10_bounds d1). pose proof (div10_bounds d2).
  unfold Spec.year_points.
  destruct (Z.leb_spec d1 5), (Z.leb_spec d1 10), (Z.leb_spec d1 15),
    (Z.leb_spec d1 20), (Z.leb_spec d1 30); try lia;
    destruct (Z.leb_spec d2 5), (Z.leb_spec d2 10), (Z.leb_spec d2 15),
      (Z.leb_spec d2 20), (Z.leb_spec d2 30); try lia.
Qed.

Lemma X1_witness :
  12 <= 47
  /\ exists p1 p2,
       yearScore (Num 12) = Num p1 /\ yearScore (Num 47) = Num p2
       /\ 0 <= p2 <= p1 /\ p1 <= 20
       /\ (p1 = 20 <-> 12 <= 5) /\ (p1 = 0 <-> 70 <= 12).
Proof. split; [lia | apply (X1_yearScore_shape 12 47); lia]. Defined.

(** X2. On a five-slot curve of payrolls in the 0 to 150 range the
    flatline test [curveVariance < 50] of the program holds exactly when
    five times the sum of the squares minus the square of the sum is below
    1250. *)
Theorem X2_flatline_integer_test (curve : list Z) :
  length curve = 5%nat ->
  Spec.plausible curve ->
  variance_below_50 (calculateVariance curve) = true
  <-> Session.spread curve < 1250.
Proof.
  intros Hlen _.
  destruct (exactly_five curve Hlen) as (a & b & c & d & e & ->).
  apply flatline_spread.
Qed.

Lemma X2_witness :
  length [70; 75; 80; 75; 70] = 5%nat
  /\ Spec.plausible [70; 75; 80; 75; 70]
  /\ (variance_below_50 (calculateVariance [70; 75; 80; 75; 70]) = true
      <-> Session.spread [70; 75; 80; 75; 70] < 1250).
Proof.
  assert (H : Spec.plausible [70; 75; 80; 75; 70])
    by (intros x Hx; apply in_five in Hx; lia).
  split; [reflexivity |]. split; [exact H |].
  apply (X2_flatline_integer_test [70; 75; 80; 75; 70]);
    [reflexivity | exact H].
Defined.

(** X3. A five-slot curve of payrolls in the 0 to 150 range whose values
    all lie in a band of width 14 takes the flatline penalty, and so
    scores at most 90 against any five-slot target in that range. *)
Theorem X3_narrow_band_is_flat (curve target : list Z) (lo : Z) :
  length curve = 5%nat ->
  length target = 5%nat ->
  Spec.plausible curve ->
  Spec.plausible target ->
  (forall x, In x curve -> lo <= x <= lo + 14) ->
  variance_below_50 (calculateVariance curve) = true
  /\ exists s, scoreAgainstTarget curve target = Num s /\ 0 <= s <= 90.
Proof.
  intros Hc Ht _ _ Hband.
  destruct (exactly_five curve Hc) as (a & b & c & d & e & ->).
  destruct (exactly_five target Ht) as (b1 & b2 & b3 & b4 & b5 & ->).
  assert (Hflat : variance_below_50 (calculateVariance [a; b; c; d; e]) = true).
  { apply flatline_spread. rewrite spread_five.
    pose proof (Hband a ltac:(simpl; tauto)).
    pose proof (Hband b ltac:(simpl; tauto)).
    pose proof (Hband c ltac:(simpl; tauto)).
    pose proof (Hband d ltac:(simpl; tauto)).
    pose proof (Hband e ltac:(simpl; tauto)).
    assert ((a - lo) * (a - lo) <= 14 * (a - lo)) by nia.
    assert ((b - lo) * (b - lo) <= 14 * (b - lo)) by nia.
    assert ((c - lo) * (c - lo) <= 14 * (c - lo)) by nia.
    assert ((d - lo) * (d - lo) <= 14 * (d - lo)) by nia.
    assert ((e - lo) * (e - lo) <= 14 * (e - lo)) by nia.
    pose proof (Z.square_nonneg (a + b + c + d + e - 5 * lo - 35)).
    nia. }
  split; [exact Hflat |].
  rewrite scoreAgainstTarget_five, Hflat.
  pose proof (base_points_bounds a b c d e b1 b2 b3 b4 b5).
  eexists. split; [reflexivity |].
  destruct (_ =? _); lia.
Qed.

Lemma X3_witness :
  Spec.plausible [70; 75; 80; 84; 78]
  /\ Spec.plausible [60; 75; 100; 80; 60]
  /\ variance_below_50 (calculateVariance [70; 75; 80; 84; 78]) = true
  /\ exists s, scoreAgainstTarget [70; 75; 80; 84; 78] [60; 75; 100; 80; 60]
               = Num s /\ 0 <= s <= 90.
Proof.
  assert (H1 : Spec.plausible [70; 75; 80; 84; 78])
    by (intros x Hx; apply in_five in Hx; lia).
  assert (H2 : Spec.plausible [60; 75; 100; 80; 60])
    by (intros x Hx; apply in_five in Hx; lia).
  split; [exact H1 |]. split; [exact H2 |].
  apply (X3_narrow_band_is_flat [70; 75; 80; 84; 78] [60; 75; 100; 80; 60] 70);
    [reflexivity | reflexivity | exact H1 | exact H2 |].
  intros x Hx. apply in_five in Hx. lia.
Defined.

(** X4. A five-slot curve holding two values 23 or more apart never
    takes the flatline penalty. *)
Theorem X4_wide_curve_is_not_flat (curve : list Z) (x y : Z) :
  length curve = 5%nat ->
  In x curve -> In y curve -> 23 <= y - x ->
  variance_below_50 (calculateVariance curve) = false.
Proof.
  intros Hlen Hx Hy Hwide.
  destruct (exactly_five curve Hlen) as (a & b & c & d & e & ->).
  apply not_true_iff_false. rewrite flatline_spread, spread_five.
  assert (HR : 529 <= (y - x) * (y - x)) by nia.
  pose proof (Z.square_nonneg (2 * a - x - y)).
  pose proof (Z.square_nonneg (2 * b - x - y)).
  pose proof (Z.square_nonneg (2 * c - x - y)).
  pose proof (Z.square_nonneg (2 * d - x - y)).
  pose proof (Z.square_nonneg (2 * e - x - y)).
  pose proof (Z.square_nonneg (a - b)). pose proof (Z.square_nonneg (a - c)).
  pose proof (Z.square_nonneg (a - d)). pose proof (Z.square_nonneg (a - e)).
  pose proof (Z.square_nonneg (b - c)). pose proof (Z.square_nonneg (b - d)).
  pose proof (Z.square_nonneg (b - e)). pose proof (Z.square_nonneg (c - d)).
  pose proof (Z.square_nonneg (c - e)). pose proof (Z.square_nonneg (d - e)).
  apply in_five in Hx, Hy.
  destruct Hx as [-> | [-> | [-> | [-> | ->]]]];
    destruct Hy as [-> | [-> | [-> | [-> | ->]]]]; try lia; nia.
Qed.

Lemma X4_witness :
  variance_below_50 (calculateVariance [60; 75; 100; 80; 60]) = false.
Proof.
  apply (X4_wide_curve_is_not_flat [60; 75; 100; 80; 60] 60 100);
    [reflexivity | simpl; tauto | simpl; tauto | lia].
Defined.

(** ** Path scoring *)

(** X5. On a five-year curve no path scores above 85, and 85 is reached
    exactly by the hybrid branch (any name other than "winNow" and
    "rebuild") on a curve with every year between 70 and 80. *)
Theorem X5_path_score_reaches_85 (pathName : string) (curve : list Z) :
  length curve = 5%nat ->
  scoreByPath pathName curve <= 85
  /\ (85 <= scoreByPath pathName curve
      <-> pathName <> "winNow" /\ pathName <> "rebuild"
          /\ forall p, In p curve -> 70 <= p <= 80).
Proof.
  intros Hlen.
  destruct (String.eqb_spec pathName "winNow") as [-> | Hw].
  { pose proof (scoreByPath_winNow_at_most_73 curve).
    split; [lia |]. split; [lia | intros (Hne & _); congruence]. }
  destruct (String.eqb_spec pathName "rebuild") as [-> | Hr].
  { pose proof (scoreByPath_rebuild_at_most_73 curve).
    split; [lia |]. split; [lia | intros (_ & Hne & _); congruence]. }
  destruct (exactly_five curve Hlen) as (a & b & c & d & e & ->).
  unfold scoreByPath.
  apply String.eqb_neq in Hw, Hr. rewrite Hw, Hr.
  apply String.eqb_neq in Hw, Hr.
  cbn [foldl].
  destruct (hybrid_step_cases 0 0 a) as [(Ha & ->) | (Ha & ka & Hka & ->)];
    [set (s1 := 0 + 15); set (c1 := 0 + 1) | set (s1 := 0 + ka); set (c1 := 0)];
    (destruct (hybrid_step_cases s1 c1 b) as [(Hb & ->) | (Hb & kb & Hkb & ->)];
     [set (s2 := s1 + 15); set (c2 := c1 + 1) | set (s2 := s1 + kb); set (c2 := c1)]);
    (destruct (hybrid_step_cases s2 c2 c) as [(Hc & ->) | (Hc & kc & Hkc & ->)];
     [set (s3 := s2 + 15); set (c3 := c2 + 1) | set (s3 := s2 + kc); set (c3 := c2)]);
    (destruct (hybrid_step_cases s3 c3 d) as [(Hd & ->) | (Hd & kd & Hkd & ->)];
     [set (s4 := s3 + 15); set (c4 := c3 + 1) | set (s4 := s3 + kd); set (c4 := c3)]);
    (destruct (hybrid_step_cases s4 c4 e) as [(He & ->) | (He & ke & Hke & ->)]);
    subst s1 c1 s2 c2 s3 c3 s4 c4; cbv beta iota zeta;
    (match goal with
     | |- context [3 <=? ?n] => destruct (Z.leb_spec 3 n) as [H3 | H3]
     end; try lia);
    (split; [lia |]);
    (split;
     [ intros Hgold; try lia;
       (split; [exact Hw |]); (split; [exact Hr |]);
       intros p Hp; apply in_five in Hp;
       destruct Hp as [-> | [-> | [-> | [-> | ->]]]]; assumption
     | intros (_ & _ & Hall);
       pose proof (Hall a ltac:(simpl; tauto));
       pose proof (Hall b ltac:(simpl; tauto));
       pose proof (Hall c ltac:(simpl; tauto));
       pose proof (Hall d ltac:(simpl; tauto));
       pose proof (Hall e ltac:(simpl; tauto)); lia ]).
Qed.

Lemma X5_witness :
  scoreByPath "hybrid" [72; 75; 80; 70; 78] <= 85
  /\ (85 <= scoreByPath "hybrid" [72; 75; 80; 70; 78]
      <-> "hybrid" <> "winNow" /\ "hybrid" <> "rebuild"
          /\ forall p, In p [72; 75; 80; 70; 78] -> 70 <= p <= 80).
Proof.
  apply (X5_path_score_reaches_85 "hybrid" [72; 75; 80; 70; 78]). reflexivity.
Defined.

(** X6. A decision-mode game whose resolved path is winNow or rebuild
    ends with a score of at most 73: it never earns the gold tier, and the
    codes CURVE-301-CHAMPION and CURVE-301-ARCHITECT are never issued. *)
Theorem X6_no_gold_off_the_hybrid_path (st : GameEngine.State)
        (engine : DecisionEngine.t) :
  GameEngine.decision_mode_engine st = Some engine ->
  DecisionEngine.determinePath engine <> Hybrid ->
  let result := fst (GameEngine.finishGame st) in
  (exists s, GameEngine.score result = Num s /\ 0 <= s <= 73)
  /\ GameEngine.tier result <> Some "GOLD"
  /\ GameEngine.claimCode result <> Some "CURVE-301-CHAMPION"
  /\ GameEngine.claimCode result <> Some "CURVE-301-ARCHITECT".
Proof.
  intros Hmode Hpath result. subst result.
  unfold GameEngine.finishGame.
  set (st' := GameEngine.calculateHealthScore (GameEngine.set_isGameComplete st true)).
  assert (Hmode' : GameEngine.decision_mode_engine st' = Some engine) by exact Hmode.
  assert (Hscore : GameEngine.healthScore st'
                   = Num (scoreByPath (path_name (DecisionEngine.determinePath engine))
                                      (GameEngine.payrollDecisions st))).
  { subst st'. rewrite (calculateHealthScore_decisions _ engine); [reflexivity |].
    exact Hmode. }
  rewrite Hmode', Hscore. unfold GameEngine.reward.
  set (s := scoreByPath _ _).
  assert (Hs : 0 <= s <= 73).
  { subst s. split.
    - unfold scoreByPath. lia.
    - destruct (DecisionEngine.determinePath engine); simpl;
        [apply scoreByPath_winNow_at_most_73
        | apply scoreByPath_rebuild_at_most_73 | congruence]. }
  unfold ge, le.
  destruct (Z.leb_spec 85 s); [lia |].
  destruct (85 <=? s) eqn:E85; [apply Z.leb_le in E85; lia |].
  destruct (70 <=? s), (55 <=? s); simpl;
    (split; [exists s; split; [reflexivity | exact Hs] |]);
    destruct (DecisionEngine.determinePath engine); try congruence;
    repeat split; discriminate.
Qed.

Lemma X6_witness :
  (exists s, GameEngine.score (fst (GameEngine.finishGame Sample.winNow_game))
             = Num s /\ 0 <= s <= 73)
  /\ GameEngine.tier (fst (GameEngine.finishGame Sample.winNow_game)) <> Some "GOLD"
  /\ GameEngine.claimCode (fst (GameEngine.finishGame Sample.winNow_game))
     <> Some "CURVE-301-CHAMPION"
  /\ GameEngine.claimCode (fst (GameEngine.finishGame Sample.winNow_game))
     <> Some "CURVE-301-ARCHITECT".
Proof.
  apply (X6_no_gold_off_the_hybrid_path Sample.winNow_game
           (snd (DecisionEngine.applyDecision
                   (Spec.apply_all (DecisionEngine.new Sample.winNow_team)
                      [(1, "A"); (2, "B"); (3, "C"); (4, "D")]) 5 "E")));
    vm_compute; [reflexivity | discriminate].
Defined.

(** ** The decision engine *)

(** X7. Decisions only ever lock: after any sequence of [applyDecision]
    calls the options available for a year are, in catalog order, among
    those available before; in a fresh or reset engine every catalog
    option is available. *)
Theorem X7_availability_only_shrinks (this : DecisionEngine.t)
        (calls : list (Z * string)) (year : Z) :
  DecisionEngine.getAvailableDecisions (Spec.apply_all this calls) year
    `sublist_of` DecisionEngine.getAvailableDecisions this year
  /\ DecisionEngine.getAvailableDecisions this year
       `sublist_of` DecisionEngine.getAllDecisions this year
  /\ DecisionEngine.getAvailableDecisions (DecisionEngine.reset this) year
     = DecisionEngine.getAllDecisions this year
  /\ DecisionEngine.getAvailableDecisions
       (DecisionEngine.new (DecisionEngine.team this)) year
     = DecisionEngine.getAllDecisions this year.
Proof.
  split; [| split; [| split]].
  - rewrite !getAvailableDecisions_filter.
    rewrite (getAllDecisions_team (Spec.apply_all this calls) this)
      by apply apply_all_team.
    apply filter_sublist. intros d Hd.
    apply negb_true_iff. apply negb_true_iff in Hd.
    apply not_true_iff_false. intros Hlocked.
    apply not_true_iff_false in Hd. apply Hd.
    revert Hlocked. apply existsb_mono. intros f.
    apply has_flag_grows, apply_all_flags_grow.
  - rewrite getAvailableDecisions_filter.
    rewrite <- (filter_all (fun _ => true) (DecisionEngine.getAllDecisions this year))
      at 2 by reflexivity.
    apply filter_sublist. reflexivity.
  - rewrite getAvailableDecisions_filter.
    rewrite (getAllDecisions_team (DecisionEngine.reset this) this) by reflexivity.
    apply filter_all. intros d _. apply negb_true_iff, existsb_none.
    intros f. unfold DecisionEngine.has_flag. simpl.
    apply bool_decide_eq_false. apply not_elem_of_empty.
  - rewrite getAvailableDecisions_filter.
    rewrite (getAllDecisions_team (DecisionEngine.new (DecisionEngine.team this)) this)
      by reflexivity.
    apply filter_all. intros d _. apply negb_true_iff, existsb_none.
    intros f. unfold DecisionEngine.has_flag. simpl.
    apply bool_decide_eq_false. apply not_elem_of_empty.
Qed.

(** X8. For a decision the catalog holds, [getLockedByFlags] returns the
    empty list exactly when the decision is among the available ones; the
    flags it returns are active lock flags of that decision. *)
Theorem X8_locked_by_flags (this : DecisionEngine.t) (year : Z)
        (decisionId : string) (d : DecisionOption) :
  DecisionEngine.findDecision this year decisionId = Some d ->
  (DecisionQueries.getLockedByFlags this year decisionId = []
   <-> In d (DecisionEngine.getAvailableDecisions this year))
  /\ (forall f, In f (DecisionQueries.getLockedByFlags this year decisionId) ->
                In f (lock (flags d)) /\ f ∈ DecisionEngine.activeFlags this).
Proof.
  intros Hfind. unfold DecisionQueries.getLockedByFlags. rewrite Hfind.
  destruct (findDecision_some _ _ _ _ Hfind) as [Hin _].
  split.
  - rewrite existsb_filter_nil, getAvailableDecisions_filter, filter_In.
    rewrite negb_true_iff. tauto.
  - intros f Hf. apply filter_In in Hf. destruct Hf as [Hlock Hactive].
    split; [exact Hlock |].
    unfold DecisionEngine.has_flag in Hactive.
    now apply bool_decide_eq_true in Hactive.
Qed.

Lemma X8_witness :
  DecisionQueries.getLockedByFlags
    (DecisionEngine.new Sample.tagged_team) 1 "sign_star" = []
  <-> In Sample.option_star
         (DecisionEngine.getAvailableDecisions
            (DecisionEngine.new Sample.tagged_team) 1).
Proof.
  exact (proj1 (X8_locked_by_flags (DecisionEngine.new Sample.tagged_team) 1
                  "sign_star" Sample.option_star eq_refl)).
Defined.

(** X9. After [applyDecision] succeeds for a year from 1 on with a
    non-empty id, [getCurrentDecision] of that year is the applied
    decision, and the current decision of every other year from 1 on is
    what it was. *)
Theorem X9_current_decision_after_apply (this : DecisionEngine.t) (year : Z)
        (decisionId : string) (d : DecisionOption) :
  DecisionEngine.findDecision this year decisionId = Some d ->
  1 <= year ->
  decisionId <> "" ->
  let this' := snd (DecisionEngine.applyDecision this year decisionId) in
  DecisionEngine.getCurrentDecision this' year = Some d
  /\ (forall year', 1 <= year' -> year' <> year ->
        DecisionEngine.getCurrentDecision this' year'
        = DecisionEngine.getCurrentDecision this year').
Proof.
  intros Hfind Hyear Hid this'. subst this'. split.
  - unfold DecisionEngine.getCurrentDecision.
    rewrite (slot_after_apply_same _ _ _ _ Hfind Hyear).
    apply String.eqb_neq in Hid. rewrite Hid.
    rewrite <- Hfind. apply findDecision_team, applyDecision_team.
  - intros year' Hyear' Hne.
    now apply getCurrentDecision_after_apply_other.
Qed.

Lemma X9_witness :
  DecisionEngine.getCurrentDecision
    (snd (DecisionEngine.applyDecision
            (DecisionEngine.new Sample.tagged_team) 1 "draft_youth")) 1
  = Some Sample.option_youth.
Proof.
  refine (proj1 (X9_current_decision_after_apply
                   (DecisionEngine.new Sample.tagged_team) 1 "draft_youth"
                   Sample.option_youth eq_refl _ _)); [lia | discriminate].
Defined.

(** X10. The current decision of a year is always a catalog entry of
    that year with a non-empty id. An option whose id is the empty string
    can be applied, and then adds its tags, but it never becomes the
    current decision of its year. *)
Theorem X10_current_decision_has_an_id (this : DecisionEngine.t) (year : Z)
        (d : DecisionOption) :
  (DecisionEngine.getCurrentDecision this year = Some d ->
   In d (DecisionEngine.getAllDecisions this year) /\ decision_id d <> "")
  /\ (DecisionEngine.findDecision this year "" = Some d ->
      1 <= year ->
      let this' := snd (DecisionEngine.applyDecision this year "") in
      DecisionEngine.getCurrentDecision this' year = None
      /\ DecisionEngine.activeFlags this'
         = DecisionEngine.activeFlags this ∪ Spec.tags_of d).
Proof.
  split.
  - unfold DecisionEngine.getCurrentDecision, DecisionEngine.slot.
    destruct (year - 1 <? 0); [discriminate |].
    destruct (DecisionEngine.decisions this !! Z.to_nat (year - 1))
      as [[decisionId |] |]; try discriminate.
    destruct (String.eqb_spec decisionId "") as [| Hne]; [discriminate |].
    intros Hfind. destruct (findDecision_some _ _ _ _ Hfind) as [Hin Hid].
    split; [exact Hin | congruence].
  - intros Hfind Hyear this'. subst this'. split.
    + unfold DecisionEngine.getCurrentDecision.
      rewrite (slot_after_apply_same _ _ _ _ Hfind Hyear). reflexivity.
    + rewrite (applyDecision_found _ _ _ _ Hfind). reflexivity.
Qed.

Lemma X10_witness :
  In Sample.option_star
     (DecisionEngine.getAllDecisions
        (snd (DecisionEngine.applyDecision
                (DecisionEngine.new Sample.tagged_team) 1 "sign_star")) 1)
  /\ decision_id Sample.option_star <> "".
Proof.
  apply (proj1 (X10_current_decision_has_an_id
                  (snd (DecisionEngine.applyDecision
                          (DecisionEngine.new Sample.tagged_team) 1 "sign_star"))
                  1 Sample.option_star)).
  vm_compute. reflexivity.
Defined.

(** X11. A successful [applyDecision] for one of the existing year slots,
    with a non-empty id, changes the payroll curve in that year only: the
    slot takes the decision's payroll. A fresh engine's curve is 50 in
    every year. *)
Theorem X11_curve_after_apply (this : DecisionEngine.t) (year : Z)
        (decisionId : string) (d : DecisionOption) :
  DecisionEngine.findDecision this year decisionId = Some d ->
  1 <= year <= Z.of_nat (length (DecisionEngine.decisions this)) ->
  decisionId <> "" ->
  DecisionEngine.getPayrollCurve
    (snd (DecisionEngine.applyDecision this year decisionId))
  = <[Z.to_nat (year - 1) := payrollPercentage d]>
      (DecisionEngine.getPayrollCurve this)
  /\ DecisionEngine.getPayrollCurve (DecisionEngine.new (DecisionEngine.team this))
     = [50; 50; 50; 50; 50].
Proof.
  intros Hfind Hyear Hid. split; [| reflexivity].
  now apply getPayrollCurve_after_apply.
Qed.

Lemma X11_witness :
  DecisionEngine.getPayrollCurve
    (snd (DecisionEngine.applyDecision
            (DecisionEngine.new Sample.winNow_team) 3 "C"))
  = <[Z.to_nat (3 - 1) := payrollPercentage Sample.option_C]>
      (DecisionEngine.getPayrollCurve (DecisionEngine.new Sample.winNow_team)).
Proof.
  refine (proj1 (X11_curve_after_apply (DecisionEngine.new Sample.winNow_team) 3 "C"
                   Sample.option_C eq_refl _ _)); [simpl; lia | discriminate].
Defined.

(** X12. The order of the decisions does not matter to what they unlock
    and where they lead: applying the same calls in another order gives
    the same active flags, the same accumulators, the same resolved path
    and the same available options for every year. *)
Theorem X12_order_of_decisions (this : DecisionEngine.t)
        (calls calls' : list (Z * string)) :
  Permutation calls calls' ->
  DecisionEngine.activeFlags (Spec.apply_all this calls)
  = DecisionEngine.activeFlags (Spec.apply_all this calls')
  /\ DecisionEngine.pathScores (Spec.apply_all this calls)
     = DecisionEngine.pathScores (Spec.apply_all this calls')
  /\ DecisionEngine.determinePath (Spec.apply_all this calls)
     = DecisionEngine.determinePath (Spec.apply_all this calls')
  /\ (forall year,
         DecisionEngine.getAvailableDecisions (Spec.apply_all this calls) year
         = DecisionEngine.getAvailableDecisions (Spec.apply_all this calls') year).
Proof.
  intros Hperm.
  assert (Hsame : Session.same_summary (Spec.apply_all this calls)
                                       (Spec.apply_all this calls')).
  { apply apply_all_permutation; [exact Hperm |].
    unfold Session.same_summary. auto. }
  pose proof Hsame as (_ & Hf & Hs).
  split; [exact Hf |]. split; [exact Hs |].
  split; [apply determinePath_scores, Hs |].
  intros year. apply getAvailableDecisions_summary, Hsame.
Qed.

Lemma X12_witness :
  DecisionEngine.determinePath
    (Spec.apply_all (DecisionEngine.new Sample.tagged_team)
       [(1, "sign_star"); (1, "draft_youth")])
  = DecisionEngine.determinePath
      (Spec.apply_all (DecisionEngine.new Sample.tagged_team)
         [(1, "draft_youth"); (1, "sign_star")]).
Proof.
  refine (proj1 (proj2 (proj2 (X12_order_of_decisions
                                 (DecisionEngine.new Sample.tagged_team)
                                 [(1, "sign_star"); (1, "draft_youth")]
                                 [(1, "draft_youth"); (1, "sign_star")] _)))).
  apply perm_swap.
Defined.

(** X13. [determinePath] always returns a path whose accumulator is the
    largest of the three. It returns winNow exactly when winNow is
    strictly ahead of both others, hybrid exactly when hybrid is largest
    and ahead of at least one of the others, and rebuild in every other
    case, the three-way tie included. *)
Theorem X13_determinePath_closed_form (this : DecisionEngine.t) :
  let s := DecisionEngine.pathScores this in
  let p := DecisionEngine.determinePath this in
  Session.score_of s p = Z.max (Z.max (winNow s) (rebuild s)) (hybrid s)
  /\ (p = WinNow <-> rebuild s < winNow s /\ hybrid s < winNow s)
  /\ (p = Hybrid <-> winNow s <= hybrid s /\ rebuild s <= hybrid s
                     /\ (winNow s < hybrid s \/ rebuild s < hybrid s))
  /\ (p = Rebuild <-> winNow s <= rebuild s
                      /\ (hybrid s < rebuild s
                          \/ (hybrid s = rebuild s /\ winNow s = rebuild s))).
Proof.
  intros s p. subst s p. unfold DecisionEngine.determinePath.
  destruct (DecisionEngine.pathScores this) as [w r h]. cbn [winNow rebuild hybrid].
  destruct (Z.eqb_spec h (Z.max (Z.max w r) h)), (Z.ltb_spec (Z.min w r) h);
    cbn [andb Session.score_of hybrid];
    try (repeat split; intros; try discriminate; lia);
    destruct (Z.eqb_spec w (Z.max (Z.max w r) h)), (Z.ltb_spec r w);
    cbn [andb Session.score_of winNow];
    try (repeat split; intros; try discriminate; lia);
    destruct (Z.eqb_spec r (Z.max (Z.max w r) h));
    cbn [Session.score_of rebuild hybrid];
    repeat split; intros; try discriminate; lia.
Qed.

(** ** The game state *)

(** X14. In every state of a session the current year is between 1 and
    5. Below year 5, [nextYear] followed by [previousYear] gives the state
    back, and above year 1 so does [previousYear] followed by [nextYear];
    [goToYear] with a year outside 1..5 changes nothing. *)
Theorem X14_navigation (st : GameEngine.State) :
  Session.reachable st ->
  1 <= GameEngine.currentYear st <= 5
  /\ (GameEngine.currentYear st < 5 ->
      snd (GameQueries.previousYear (snd (GameQueries.nextYear st))) = st)
  /\ (1 < GameEngine.currentYear st ->
      snd (GameQueries.nextYear (snd (GameQueries.previousYear st))) = st)
  /\ (forall year, ~ (1 <= year <= 5) ->
                   GameQueries.goToYear st year = (GameEngine.currentYear st, st)).
Proof.
  intros Hreach.
  destruct (session_invariant_holds st Hreach) as (Hy & _).
  split; [exact Hy |].
  unfold GameQueries.nextYear, GameQueries.previousYear, GameQueries.goToYear.
  destruct st as [team year payroll engine health complete mode]; simpl in *.
  split; [| split].
  - intros Hlt. destruct (Z.ltb_spec year 5); [| lia]. simpl.
    destruct (Z.ltb_spec 1 (year + 1)); [| lia]. simpl.
    unfold GameQueries.set_currentYear. simpl. f_equal. lia.
  - intros Hgt. destruct (Z.ltb_spec 1 year); [| lia]. simpl.
    destruct (Z.ltb_spec (year - 1) 5); [| lia]. simpl.
    unfold GameQueries.set_currentYear. simpl. f_equal. lia.
  - intros y Hout.
    destruct (Z.leb_spec 1 y), (Z.leb_spec y 5); simpl; try reflexivity. lia.
Qed.

Lemma X14_witness :
  1 <= GameEngine.currentYear Sample.slider_start <= 5
  /\ snd (GameQueries.previousYear (snd (GameQueries.nextYear Sample.slider_start)))
     = Sample.slider_start.
Proof.
  destruct (X14_navigation Sample.slider_start) as (Hy & Hround & _).
  - apply Session.start_init. simpl. lia.
  - split; [exact Hy |]. apply Hround. simpl. lia.
Defined.

(** X15. In every state of a session the health score is a number
    between 0 and 100, the payroll curve has at least five slots, and the
    game is in decision mode exactly when it has a decision engine. *)
Theorem X15_session_invariant (st : GameEngine.State) :
  Session.reachable st ->
  (exists s, GameEngine.healthScore st = Num s /\ 0 <= s <= 100)
  /\ (5 <= length (GameEngine.payrollDecisions st))%nat
  /\ (GameEngine.gameMode st = GameEngine.decisions
      <-> GameEngine.decisionEngine st <> None).
Proof.
  intros Hreach.
  destruct (session_invariant_holds st Hreach) as (_ & Hm & Hp & _ & _ & Hs).
  auto.
Qed.

Lemma X15_witness :
  (exists s, GameEngine.healthScore Sample.winNow_game = Num s /\ 0 <= s <= 100)
  /\ (5 <= length (GameEngine.payrollDecisions Sample.winNow_game))%nat
  /\ (GameEngine.gameMode Sample.winNow_game = GameEngine.decisions
      <-> GameEngine.decisionEngine Sample.winNow_game <> None).
Proof.
  apply (X15_session_invariant Sample.winNow_game).
  unfold Sample.winNow_game, Sample.play. simpl foldl.
  repeat apply Session.step_applyDecision.
  apply Session.start_init. simpl. lia.
Defined.

(** X16. In a session, [setPayroll] for a year from 1 to 5 stores the
    value where [getPayroll] of that year reads it back, leaves the other
    years' payrolls alone, and does not touch the decision engine. *)
Theorem X16_setPayroll_getPayroll (st : GameEngine.State) (year payrollPercent : Z) :
  Session.reachable st ->
  1 <= year <= 5 ->
  let st' := GameEngine.setPayroll st year payrollPercent in
  GameQueries.getPayroll st' year = Some payrollPercent
  /\ (forall year', year' <> year ->
        GameQueries.getPayroll st' year' = GameQueries.getPayroll st year')
  /\ GameEngine.decisionEngine st' = GameEngine.decisionEngine st.
Proof.
  intros Hreach Hyear st'. subst st'.
  destruct (session_invariant_holds st Hreach) as (_ & _ & Hp & _).
  unfold GameEngine.setPayroll.
  destruct (Z.leb_spec 1 year), (Z.leb_spec year 5); try lia. simpl.
  unfold GameQueries.getPayroll. simpl.
  split; [| split; [| reflexivity]].
  - destruct (Z.ltb_spec (year - 1) 0); [lia |].
    apply list_lookup_insert_eq. lia.
  - intros year' Hne.
    destruct (Z.ltb_spec (year' - 1) 0); [reflexivity |].
    apply list_lookup_insert_ne. lia.
Qed.

Lemma X16_witness :
  GameQueries.getPayroll (GameEngine.setPayroll Sample.slider_start 3 100) 3
  = Some 100.
Proof.
  refine (proj1 (X16_setPayroll_getPayroll Sample.slider_start 3 100 _ _));
    [apply Session.start_init; simpl; lia | lia].
Defined.

(** X17. A successful decision discards slider edits: applying a
    decision after a [setPayroll] gives the same result and the same state
    as applying it without the [setPayroll], the payroll curve being
    rebuilt from the chosen decisions. *)
Theorem X17_decision_overrides_slider (st : GameEngine.State)
        (year payrollPercent year' : Z) (decisionId : string) :
  fst (GameEngine.applyDecision st year' decisionId) <> None ->
  GameEngine.applyDecision
    (GameEngine.setPayroll st year payrollPercent) year' decisionId
  = GameEngine.applyDecision st year' decisionId.
Proof.
  unfold GameEngine.applyDecision, GameEngine.setPayroll.
  destruct ((1 <=? year) && (year <=? 5)); [| reflexivity].
  simpl.
  destruct (GameEngine.decisionEngine st) as [engine |]; [| simpl; congruence].
  destruct (DecisionEngine.applyDecision engine year' decisionId) as [[d |] engine'];
    simpl; [reflexivity | congruence].
Qed.

Lemma X17_witness :
  GameEngine.applyDecision
    (GameEngine.setPayroll (GameEngine.initGame Sample.winNow_team) 2 99) 1 "A"
  = GameEngine.applyDecision (GameEngine.initGame Sample.winNow_team) 1 "A".
Proof.
  apply (X17_decision_overrides_slider (GameEngine.initGame Sample.winNow_team)
           2 99 1 "A").
  vm_compute. discriminate.
Defined.

(** X18. [finishGame] can be repeated: called on the state it leaves, it
    returns the same result and leaves the same state. It marks the game
    complete and changes neither the payroll curve nor the engine. *)
Theorem X18_finishGame_repeats (st : GameEngine.State) :
  let st' := snd (GameEngine.finishGame st) in
  GameEngine.finishGame st' = GameEngine.finishGame st
  /\ GameEngine.isGameComplete st' = true
  /\ GameEngine.payrollDecisions st' = GameEngine.payrollDecisions st
  /\ GameEngine.decisionEngine st' = GameEngine.decisionEngine st
  /\ GameEngine.score (fst (GameEngine.finishGame st)) = GameEngine.healthScore st'.
Proof.
  intros st'.
  split; [destruct st; reflexivity |].
  split; [reflexivity |]. split; [reflexivity |]. split; [reflexivity |].
  unfold GameEngine.finishGame, GameEngine.reward. cbn [fst].
  repeat case_match; reflexivity.
Qed.

(** X19. The statistics of a five-slot payroll curve with payrolls in the
    0 to 150 range: [min] and [max] are values of the curve that bound
    every value, and the rounded average [avg], which is
    [(2 * sum + n) / (2 * n)] in integer division, lies between them. An
    empty curve gives three zeros. (A five-slot curve has no holes for the
    filter to drop, and in that range the double quotient rounds as the
    exact one, [average_rounding].) *)
Theorem X19_payroll_curve_stats (st : GameEngine.State) :
  let stats := GameQueries.getPayrollCurveStats st in
  let curve := GameEngine.payrollDecisions st in
  (curve = [] ->
   stats = {| GameQueries.avg := 0; GameQueries.max := 0; GameQueries.min := 0 |})
  /\ (length curve = 5%nat ->
      Spec.plausible curve ->
      In (GameQueries.min stats) curve /\ In (GameQueries.max stats) curve
      /\ (forall x, In x curve ->
                    GameQueries.min stats <= x <= GameQueries.max stats)
      /\ GameQueries.min stats <= GameQueries.avg stats <= GameQueries.max stats
      /\ GameQueries.avg stats
         = (2 * foldr Z.add 0 curve + Z.of_nat (length curve))
           / (2 * Z.of_nat (length curve))).
Proof.
  intros stats curve. subst stats curve.
  unfold GameQueries.getPayrollCurveStats.
  destruct (GameEngine.payrollDecisions st) as [| first rest].
  { split; [reflexivity | discriminate]. }
  split; [discriminate |]. intros _ _.
  cbn [GameQueries.min GameQueries.max GameQueries.avg].
  set (curve := first :: rest).
  destruct (foldl_min_lower rest first) as [Hmin0 Hmin].
  destruct (foldl_max_upper rest first) as [Hmax0 Hmax].
  assert (Hbound : forall x, In x curve ->
                     foldl Z.min first rest <= x <= foldl Z.max first rest).
  { intros x [<- | Hx]; [lia |]. split; [apply Hmin | apply Hmax]; exact Hx. }
  assert (Havg : GameQueries.Math_round
                   (Qdiv (inject_Z (foldl Z.add 0 curve))
                         (inject_Z (Z.of_nat (length curve))))
                 = (2 * foldr Z.add 0 curve + Z.of_nat (length curve))
                   / (2 * Z.of_nat (length curve))).
  { rewrite foldl_Zadd, Z.add_0_l.
    replace (Z.of_nat (length curve)) with (Z.pos (Pos.of_succ_nat (length rest)))
      by (subst curve; cbn [length]; lia).
    apply Math_round_quotient. }
  split; [apply foldl_min_member |].
  split; [apply foldl_max_member |].
  split; [exact Hbound |].
  split; [| exact Havg].
  rewrite Havg.
  pose proof (sum_between curve _ _ Hbound) as Hsum.
  assert (Hn : 0 < Z.of_nat (length curve)) by (subst curve; cbn [length]; lia).
  split.
  - apply Z.div_le_lower_bound; nia.
  - apply Z.lt_succ_r. apply Z.div_lt_upper_bound; nia.
Qed.

Lemma X19_witness :
  length (GameEngine.payrollDecisions Sample.winNow_game) = 5%nat
  /\ Spec.plausible (GameEngine.payrollDecisions Sample.winNow_game)
  /\ GameQueries.min (GameQueries.getPayrollCurveStats Sample.winNow_game)
     <= GameQueries.avg (GameQueries.getPayrollCurveStats Sample.winNow_game)
     <= GameQueries.max (GameQueries.getPayrollCurveStats Sample.winNow_game).
Proof.
  assert (H : Spec.plausible (GameEngine.payrollDecisions Sample.winNow_game)).
  { intros x Hx. vm_compute in Hx. intuition lia. }
  split; [reflexivity |]. split; [exact H |].
  exact (proj1 (proj2 (proj2 (proj2
           (proj2 (X19_payroll_curve_stats Sample.winNow_game) eq_refl H))))).
Defined.

(** X20. The engine is backwards compatible with its slider-only
    predecessor. When [initGame] chooses slider mode (the team has no
    decision catalog, or an empty one) it builds the state the earlier
    engine builds; in a state that has no engine in
    decision mode, [setPayroll] and [finishGame] give the curve, score,
    tier, code and XP of the earlier engine, and [setPayroll] keeps the
    state in that mode. *)
Theorem X20_slider_mode_matches_legacy :
  (forall teamData : TeamData,
      GameEngine.gameMode (GameEngine.initGame teamData) = GameEngine.slider ->
      Session.legacy_view (GameEngine.initGame teamData) = Legacy.initGame teamData
      /\ GameEngine.decision_mode_engine (GameEngine.initGame teamData) = None)
  /\ (forall (st : GameEngine.State) (year payrollPercent : Z),
         GameEngine.decision_mode_engine st = None ->
         Session.legacy_view (GameEngine.setPayroll st year payrollPercent)
         = Legacy.setPayroll (Session.legacy_view st) year payrollPercent
         /\ GameEngine.decision_mode_engine
              (GameEngine.setPayroll st year payrollPercent) = None)
  /\ (forall st : GameEngine.State,
         GameEngine.decision_mode_engine st = None ->
         Legacy.finishGame (Session.legacy_view st)
         = (Session.legacy_result (fst (GameEngine.finishGame st)),
            Session.legacy_view (snd (GameEngine.finishGame st)))).
Proof.
  split; [| split].
  - intros teamData. unfold GameEngine.initGame.
    destruct (match team_decisions teamData with
              | Some catalog => 0 <? Z.of_nat (size catalog)
              | None => false
              end); [discriminate |].
    intros _. split; reflexivity.
  - intros st year p Hmode.
    unfold GameEngine.setPayroll, Legacy.setPayroll.
    destruct ((1 <=? year) && (year <=? 5)); [| split; [reflexivity | exact Hmode]].
    split; [| exact Hmode].
    unfold Session.legacy_view, Legacy.calculateHealthScore,
      GameEngine.calculateHealthScore, GameEngine.computeHealthScore.
    simpl.
    change (GameEngine.decision_mode_engine
              (GameEngine.set_payrollDecisions st
                 (<[Z.to_nat (year - 1) := p]> (GameEngine.payrollDecisions st))))
      with (GameEngine.decision_mode_engine st).
    rewrite Hmode. reflexivity.
  - intros st Hmode.
    unfold Legacy.finishGame, GameEngine.finishGame, GameEngine.reward.
    set (st' := GameEngine.calculateHealthScore (GameEngine.set_isGameComplete st true)).
    assert (Hmode' : GameEngine.decision_mode_engine st' = None) by exact Hmode.
    assert (Hview : Legacy.calculateHealthScore
                      {| Legacy.currentTeam := Legacy.currentTeam (Session.legacy_view st);
                         Legacy.currentYear := Legacy.currentYear (Session.legacy_view st);
                         Legacy.payrollDecisions :=
                           Legacy.payrollDecisions (Session.legacy_view st);
                         Legacy.healthScore := Legacy.healthScore (Session.legacy_view st);
                         Legacy.isGameComplete := true |}
                    = Session.legacy_view st').
    { subst st'.
      unfold Session.legacy_view, Legacy.calculateHealthScore,
        GameEngine.calculateHealthScore, GameEngine.computeHealthScore.
      simpl.
      change (GameEngine.decision_mode_engine (GameEngine.set_isGameComplete st true))
        with (GameEngine.decision_mode_engine st).
      rewrite Hmode. reflexivity. }
    cbv zeta. rewrite Hview, Hmode'.
    change (Legacy.healthScore (Session.legacy_view st'))
      with (GameEngine.healthScore st').
    cbn [fst snd].
    destruct (ge (GameEngine.healthScore st') (Num (Legacy.minScore GameEngine.GOLD)))
      eqn:Eg.
    { change (Legacy.minScore GameEngine.GOLD) with 85 in Eg. rewrite Eg. reflexivity. }
    change (Legacy.minScore GameEngine.GOLD) with 85 in Eg. rewrite Eg.
    destruct (ge (GameEngine.healthScore st') (Num (Legacy.minScore GameEngine.SILVER)))
      eqn:Es.
    { change (Legacy.minScore GameEngine.SILVER) with 70 in Es. rewrite Es. reflexivity. }
    change (Legacy.minScore GameEngine.SILVER) with 70 in Es. rewrite Es.
    destruct (ge (GameEngine.healthScore st') (Num (Legacy.minScore GameEngine.BRONZE)))
      eqn:Eb.
    { change (Legacy.minScore GameEngine.BRONZE) with 55 in Eb. rewrite Eb. reflexivity. }
    change (Legacy.minScore GameEngine.BRONZE) with 55 in Eb. rewrite Eb.
    reflexivity.
Qed.

Lemma X20_witness :
  Legacy.finishGame (Session.legacy_view Sample.slider_start)
  = (Session.legacy_result (fst (GameEngine.finishGame Sample.slider_start)),
     Session.legacy_view (snd (GameEngine.finishGame Sample.slider_start))).
Proof.
  apply (proj2 (proj2 X20_slider_mode_matches_legacy) Sample.slider_start).
  reflexivity.
Defined.

(** X21. Every team of the embedded fallback data is played in slider
    mode, and moving its five sliders to the team's ideal curve ends the
    game with score 100, tier GOLD and code CURVE-301-GOLD. *)
Theorem X21_fallback_teams_reach_gold :
  Forall
    (fun entry : string * TeamData =>
       let start := GameEngine.initGame (snd entry) in
       let result :=
         fst (GameEngine.finishGame
                (Session.set_curve start (idealCurve (snd entry)))) in
       GameEngine.gameMode start = GameEngine.slider
       /\ GameEngine.score result = Num 100
       /\ GameEngine.tier result = Some "GOLD"
       /\ GameEngine.claimCode result = Some "CURVE-301-GOLD"
       /\ GameEngine.xp result = 250)
    DataLoader.getFallbackData.
Proof.
  unfold DataLoader.getFallbackData.
  repeat (apply Forall_cons; split; [vm_compute; repeat split; reflexivity |]).
  apply Forall_nil. exact I.
Qed.

(** X22. Following the engine's own recommendations does not earn gold:
    the recommended win-now curve of [getRecommendedPaths] scores 73 on
    the winNow path (silver) and the recommended rebuild curve scores 58
    on the rebuild path (bronze), whatever the state. The recommended
    hybrid curve is the team's ideal curve; without a team it is the
    steady curve, which scores 85 on the hybrid path. *)
Theorem X22_recommended_paths (st : GameEngine.State) :
  let paths := GameQueries.getRecommendedPaths st in
  scoreByPath "winNow" (GameQueries.recommended_winNow paths) = 73
  /\ scoreByPath "rebuild" (GameQueries.recommended_rebuild paths) = 58
  /\ (forall teamData, GameEngine.currentTeam st = Some teamData ->
         GameQueries.recommended_hybrid paths = idealCurve teamData)
  /\ (GameEngine.currentTeam st = None ->
      scoreByPath "hybrid" (GameQueries.recommended_hybrid paths) = 85).
Proof.
  intros paths. subst paths.
  unfold GameQueries.getRecommendedPaths.
  destruct (GameEngine.currentTeam st) as [teamData |]; simpl.
  - split; [vm_compute; reflexivity |]. split; [vm_compute; reflexivity |].
    split; [intros ? [= <-]; reflexivity | discriminate].
  - split; [vm_compute; reflexivity |]. split; [vm_compute; reflexivity |].
    split; [discriminate | intros _; vm_compute; reflexivity].
Qed.

Lemma X22_witness :
  scoreByPath "hybrid"
    (GameQueries.recommended_hybrid
       (GameQueries.getRecommendedPaths GameEngine.resetGame)) = 85.
Proof.
  exact (proj2 (proj2 (proj2 (X22_recommended_paths GameEngine.resetGame))) eq_refl).
Defined.

(** X23. In a session, after a successful [applyDecision] the game is in
    decision mode, its payroll curve is the engine's curve of chosen
    payrolls, and its health score is the path score of that curve on the
    path the engine resolves. *)
Theorem X23_state_after_decision (st : GameEngine.State) (year : Z)
        (decisionId : string) (d : DecisionOption) :
  Session.reachable st ->
  fst (GameEngine.applyDecision st year decisionId) = Some d ->
  let st' := snd (GameEngine.applyDecision st year decisionId) in
  exists engine',
    GameEngine.decisionEngine st' = Some engine'
    /\ GameEngine.gameMode st' = GameEngine.decisions
    /\ GameEngine.payrollDecisions st' = DecisionEngine.getPayrollCurve engine'
    /\ GameEngine.healthScore st'
       = Num (scoreByPath (path_name (DecisionEngine.determinePath engine'))
                          (DecisionEngine.getPayrollCurve engine'))
    /\ GameEngine.getDeterminedPath st'
       = Some (DecisionEngine.determinePath engine').
Proof.
  intros Hreach.
  destruct (session_invariant_holds st Hreach) as (_ & Hm & _).
  unfold GameEngine.applyDecision.
  destruct (GameEngine.decisionEngine st) as [engine |] eqn:Heng;
    [| simpl; discriminate].
  assert (Hmode : GameEngine.gameMode st = GameEngine.decisions)
    by (apply Hm; discriminate).
  destruct (DecisionEngine.applyDecision engine year decisionId)
    as [[d' |] engine']; [| simpl; discriminate].
  cbn [fst snd]. intros _. exists engine'.
  split; [reflexivity |]. split; [exact Hmode |]. split; [reflexivity |].
  split; [| reflexivity].
  rewrite (calculateHealthScore_decisions _ engine'); [reflexivity |].
  unfold GameEngine.decision_mode_engine. simpl. rewrite Hmode. reflexivity.
Qed.

Lemma X23_witness :
  exists engine',
    GameEngine.decisionEngine Sample.winNow_game = Some engine'
    /\ GameEngine.gameMode Sample.winNow_game = GameEngine.decisions
    /\ GameEngine.payrollDecisions Sample.winNow_game
       = DecisionEngine.getPayrollCurve engine'
    /\ GameEngine.healthScore Sample.winNow_game
       = Num (scoreByPath (path_name (DecisionEngine.determinePath engine'))
                          (DecisionEngine.getPayrollCurve engine'))
    /\ GameEngine.getDeterminedPath Sample.winNow_game
       = Some (DecisionEngine.determinePath engine').
Proof.
  refine (X23_state_after_decision
            (Sample.play (GameEngine.initGame Sample.winNow_team)
               [(1, "A"); (2, "B"); (3, "C"); (4, "D")])
            5 "E" Sample.option_E _ _).
  - unfold Sample.play. simpl foldl.
    repeat apply Session.step_applyDecision.
    apply Session.start_init. simpl. lia.
  - vm_compute. reflexivity.
Defined.

(** X24. A decision game starts with every year at the team's starting
    payroll and, all three accumulators being 0, on the rebuild path. The
    first successful decision, for a year from 1 to 5 with a non-empty id,
    replaces that curve: the chosen year takes the decision's payroll and
    every other year becomes 50. *)
Theorem X24_first_decision (teamData : TeamData) (year : Z)
        (decisionId : string) (d : DecisionOption) :
  GameEngine.gameMode (GameEngine.initGame teamData) = GameEngine.decisions ->
  DecisionEngine.findDecision (DecisionEngine.new teamData) year decisionId
  = Some d ->
  1 <= year <= 5 ->
  decisionId <> "" ->
  GameEngine.payrollDecisions (GameEngine.initGame teamData)
  = replicate 5 (startingPayroll teamData)
  /\ GameEngine.getDeterminedPath (GameEngine.initGame teamData) = Some Rebuild
  /\ GameEngine.payrollDecisions
       (snd (GameEngine.applyDecision (GameEngine.initGame teamData) year decisionId))
     = <[Z.to_nat (year - 1) := payrollPercentage d]> [50; 50; 50; 50; 50].
Proof.
  unfold GameEngine.initGame.
  destruct (match team_decisions teamData with
            | Some catalog => 0 <? Z.of_nat (size catalog)
            | None => false
            end); [| discriminate].
  intros _ Hfind Hyear Hid.
  split; [reflexivity |]. split; [reflexivity |].
  unfold GameEngine.applyDecision. cbn [GameEngine.decisionEngine GameEngine.calculateHealthScore GameEngine.set_healthScore].
  pose proof (getPayrollCurve_after_apply (DecisionEngine.new teamData) year
                decisionId d Hfind ltac:(simpl; lia) Hid) as Hcurve.
  rewrite (applyDecision_found _ _ _ _ Hfind) in *.
  cbn [snd] in *. simpl. exact Hcurve.
Qed.

Lemma X24_witness :
  GameEngine.payrollDecisions
    (snd (GameEngine.applyDecision (GameEngine.initGame Sample.winNow_team) 3 "C"))
  = <[Z.to_nat (3 - 1) := payrollPercentage Sample.option_C]> [50; 50; 50; 50; 50].
Proof.
  refine (proj2 (proj2 (X24_first_decision Sample.winNow_team 3 "C"
                          Sample.option_C _ eq_refl _ _)));
    [vm_compute; reflexivity | lia | discriminate].
Defined.

(** X25. After any sequence of [applyDecision] calls the active flags
    are the earlier flags together with all lock and unlock tags of the
    decisions the calls found, and each accumulator is its earlier value
    plus the total weight those decisions carry for its path; calls that
    find nothing contribute nothing. *)
Theorem X25_state_after_calls (this : DecisionEngine.t) (calls : list (Z * string)) :
  let ds := Session.found_decisions this calls in
  let this' := Spec.apply_all this calls in
  DecisionEngine.activeFlags this'
  = DecisionEngine.activeFlags this ∪ Session.all_tags ds
  /\ DecisionEngine.pathScores this'
     = {| winNow := winNow (DecisionEngine.pathScores this)
                    + Session.total_weight "winNow" ds;
          rebuild := rebuild (DecisionEngine.pathScores this)
                     + Session.total_weight "rebuild" ds;
          hybrid := hybrid (DecisionEngine.pathScores this)
                    + Session.total_weight "hybrid" ds |}.
Proof.
  unfold Spec.apply_all.
  revert this. induction calls as [| [year decisionId] calls IH]; intros this.
  - simpl. split.
    + apply set_eq. intros f. rewrite elem_of_union.
      pose proof (not_elem_of_empty (C := gset string) f). tauto.
    + destruct (DecisionEngine.pathScores this). simpl. f_equal; lia.
  - cbn [foldl fst snd].
    specialize (IH (snd (DecisionEngine.applyDecision this year decisionId))).
    cbv zeta in IH. destruct IH as [IHf IHs].
    rewrite (found_decisions_team _ this calls (applyDecision_team _ _ _)) in IHf, IHs.
    cbv zeta. rewrite IHf, IHs.
    change (Session.found_decisions this ((year, decisionId) :: calls))
      with (match DecisionEngine.findDecision this year decisionId with
            | Some d => d :: Session.found_decisions this calls
            | None => Session.found_decisions this calls
            end).
    destruct (DecisionEngine.findDecision this year decisionId) as [d |] eqn:Hfind.
    + rewrite (applyDecision_found _ _ _ _ Hfind). simpl. split.
      * apply set_eq. intros f. rewrite !elem_of_union. tauto.
      * f_equal; lia.
    + rewrite (applyDecision_missing _ _ _ Hfind). simpl. split; reflexivity.
Qed.

(** X26. Choosing a decision locks every option that names one of its
    tags among its lock flags, whether the decision carries the tag as a
    lock or as an unlock tag: after a successful [applyDecision] no such
    option of any year is available, and [getLockedByFlags] reports the
    tag for it. *)
Theorem X26_chosen_tags_lock (this : DecisionEngine.t) (year : Z)
        (decisionId : string) (d : DecisionOption)
        (year' : Z) (o : DecisionOption) (f : string) :
  DecisionEngine.findDecision this year decisionId = Some d ->
  f ∈ Spec.tags_of d ->
  In f (lock (flags o)) ->
  let this' := snd (DecisionEngine.applyDecision this year decisionId) in
  ~ In o (DecisionEngine.getAvailableDecisions this' year')
  /\ (DecisionEngine.findDecision this' year' (decision_id o) = Some o ->
      In f (DecisionQueries.getLockedByFlags this' year' (decision_id o))).
Proof.
  intros Hfind Htag Hlock this'.
  assert (Hactive : DecisionEngine.has_flag this' f = true).
  { subst this'. rewrite (applyDecision_found _ _ _ _ Hfind).
    unfold DecisionEngine.has_flag. simpl.
    apply bool_decide_eq_true. apply elem_of_union. now right. }
  split.
  - rewrite getAvailableDecisions_filter, filter_In, negb_true_iff.
    intros [_ Hnone].
    apply not_true_iff_false in Hnone. apply Hnone.
    apply existsb_exists. exists f. split; assumption.
  - intros Ho. unfold DecisionQueries.getLockedByFlags. rewrite Ho.
    apply filter_In. split; assumption.
Qed.

Lemma X26_witness :
  ~ In Branching.option_tank
       (DecisionEngine.getAvailableDecisions
          (snd (DecisionEngine.applyDecision
                  (DecisionEngine.new Branching.team) 1 "sign_star")) 2)
  /\ In "extend_star"
        (DecisionQueries.getLockedByFlags
           (snd (DecisionEngine.applyDecision
                   (DecisionEngine.new Branching.team) 1 "sign_star")) 2 "tank").
Proof.
  destruct (X26_chosen_tags_lock (DecisionEngine.new Branching.team) 1
              "sign_star" Sample.option_star 2 Branching.option_tank
              "extend_star" eq_refl) as [Hgone Hreport].
  - unfold Spec.tags_of. rewrite elem_of_union, !elem_of_list_to_set.
    right. apply list_elem_of_In. simpl. tauto.
  - simpl. tauto.
  - split; [exact Hgone | apply Hreport; reflexivity].
Defined.
